(** * Helpdesk ticket lifecycle: a shallow embedding of
      [helpdesk/models.py] and [helpdesk/signals.py]

    The development follows the Python source.  Model methods that mutate
    [self] become functions returning the updated record; code that reads
    the clock or touches the tables runs in a small state-and-error monad
    over a [World] holding the tables and the clock.

    Conventions.
    - Text is modelled as [string] over ASCII.  [str.lower], [str.strip]
      and [int] are given on the ASCII range; characters above 127 are
      caseless and are not white space.
    - The [choices] of a [CharField] are inductive types.
    - [auto_now] / [auto_now_add] columns ([created_at], [updated_at],
      [timestamp]) are maintained by the framework and are not read by
      the code under study; they are left out of the records.
    - Database constraints ([unique], [max_length], foreign keys) are
      enforced by the storage layer and are not part of the model. *)

From Stdlib Require Import String Ascii List Bool Arith PeanoNat PArith NArith ZArith Lia
  ZifyNat.
Import ListNotations.
Local Open Scope string_scope.
Local Open Scope list_scope.
Local Open Scope nat_scope.

Set Implicit Arguments.
Set Warnings "-abstract-large-number".

(** ** Python string primitives *)

Module PyStr.

Definition in_range (lo hi : nat) (c : ascii) : bool :=
  (lo <=? nat_of_ascii c) && (nat_of_ascii c <=? hi).

Definition is_upper (c : ascii) : bool := in_range 65 90 c.
Definition is_digit (c : ascii) : bool := in_range 48 57 c.

(** White space of [str.strip()] and [int()] in the ASCII range:
    TAB, LF, VT, FF, CR, FS, GS, RS, US and the space. *)
Definition is_space (c : ascii) : bool :=
  in_range 9 13 c || in_range 28 32 c.

Definition lower_char (c : ascii) : ascii :=
  if is_upper c then ascii_of_nat (nat_of_ascii c + 32) else c.

(** [s.lower()] *)
Fixpoint lower (s : string) : string :=
  match s with
  | EmptyString => EmptyString
  | String c r => String (lower_char c) (lower r)
  end.

(** [kw in text] *)
Fixpoint contains (kw text : string) : bool :=
  prefix kw text ||
  match text with
  | EmptyString => false
  | String _ r => contains kw r
  end.

(** [s.split(sep)] for a one-character separator. *)
Fixpoint split (sep : ascii) (s : string) : list string :=
  match s with
  | EmptyString => [EmptyString]
  | String c r =>
      if Ascii.eqb c sep then EmptyString :: split sep r
      else match split sep r with
           | h :: t => String c h :: t
           | [] => [String c EmptyString]
           end
  end.

Fixpoint lstrip (s : string) : string :=
  match s with
  | EmptyString => EmptyString
  | String c r => if is_space c then lstrip r else s
  end.

Fixpoint rstrip (s : string) : string :=
  match s with
  | EmptyString => EmptyString
  | String c r =>
      match rstrip r with
      | EmptyString => if is_space c then EmptyString else String c EmptyString
      | r' => String c r'
      end
  end.

(** [s.strip()] *)
Definition strip (s : string) : string := rstrip (lstrip s).

(** Truth value of a string: empty is false. *)
Definition truthy (s : string) : bool :=
  match s with EmptyString => false | _ => true end.

Definition digit_char (d : nat) : ascii := ascii_of_nat (48 + d).
Definition digit_val (c : ascii) : nat := nat_of_ascii c - 48.

(** [str(n)] for a non-negative integer. *)
Fixpoint digits_of (fuel n : nat) (acc : string) : string :=
  let acc' := String (digit_char (n mod 10)) acc in
  match fuel with
  | 0 => acc'
  | S fuel' => if n / 10 =? 0 then acc' else digits_of fuel' (n / 10) acc'
  end.

Definition str_nat (n : nat) : string := digits_of n n EmptyString.

Fixpoint zeros (k : nat) : string :=
  match k with 0 => EmptyString | S k' => String "0" (zeros k') end.

(** [f"{n:0{w}d}"] for a non-negative integer: at least [w] digits. *)
Definition zfill (w n : nat) : string :=
  let s := str_nat n in (zeros (w - String.length s) ++ s)%string.

(** Digits of an integer literal, single underscores allowed between
    digits. *)
Fixpoint parse_digits (s : string) (acc : nat) (after_digit : bool)
  : option nat :=
  match s with
  | EmptyString => if after_digit then Some acc else None
  | String c r =>
      if is_digit c then parse_digits r (10 * acc + digit_val c) true
      else if Ascii.eqb c "_" then
        if after_digit then parse_digits r acc false else None
      else None
  end.

(** [int(s)] on a string holding no minus sign (the argument is always
    a component of a split on the hyphen).  [None] is [ValueError]. *)
Definition int (s : string) : option nat :=
  match strip s with
  | String "+" r => parse_digits r 0 false
  | s' => parse_digits s' 0 false
  end.

(** [sep.join(l)] *)
Definition join (sep : string) (l : list string) : string :=
  String.concat sep l.

End PyStr.

(** ** Data model ([models.py]) *)

(** [CustomUser.USER_ROLES] *)
Inductive Role := client | agent | admin.

(** [Ticket.STATUS_CHOICES] *)
Inductive Status := open | in_progress | pending | resolved | closed.

(** [Ticket.PRIORITY_CHOICES] and [Ticket.SEVERITY_CHOICES] *)
Inductive Priority := low | medium | high | critical.

(** [TriggerRule.TRIGGER_ACTIONS] *)
Inductive Action :=
  act_escalate | act_notify | act_priority_high | act_priority_critical.

(** [TicketHistory.ACTION_TYPES] *)
Inductive ActionType :=
  | h_created | h_updated | h_status_changed | h_assigned | h_reassigned
  | h_priority_changed | h_escalated | h_comment_added | h_file_attached
  | h_resolved | h_closed | h_reopened.

(** [Notification.NOTIFICATION_TYPES] *)
Inductive NotificationType :=
  | n_ticket_assigned | n_ticket_updated | n_ticket_escalated
  | n_new_comment | n_status_changed | n_trigger_activated.

Definition role_eqb (a b : Role) : bool :=
  match a, b with
  | client, client | agent, agent | admin, admin => true
  | _, _ => false
  end.

Definition status_eqb (a b : Status) : bool :=
  match a, b with
  | open, open | in_progress, in_progress | pending, pending
  | resolved, resolved | closed, closed => true
  | _, _ => false
  end.

Definition priority_eqb (a b : Priority) : bool :=
  match a, b with
  | low, low | medium, medium | high, high | critical, critical => true
  | _, _ => false
  end.

Definition action_type_eqb (a b : ActionType) : bool :=
  match a, b with
  | h_created, h_created | h_updated, h_updated
  | h_status_changed, h_status_changed | h_assigned, h_assigned
  | h_reassigned, h_reassigned | h_priority_changed, h_priority_changed
  | h_escalated, h_escalated | h_comment_added, h_comment_added
  | h_file_attached, h_file_attached | h_resolved, h_resolved
  | h_closed, h_closed | h_reopened, h_reopened => true
  | _, _ => false
  end.

Definition notification_type_eqb (a b : NotificationType) : bool :=
  match a, b with
  | n_ticket_assigned, n_ticket_assigned | n_ticket_updated, n_ticket_updated
  | n_ticket_escalated, n_ticket_escalated | n_new_comment, n_new_comment
  | n_status_changed, n_status_changed
  | n_trigger_activated, n_trigger_activated => true
  | _, _ => false
  end.

(** The value of [timezone.now()]: its [year] attribute and the rest of
    the instant. *)
Record datetime := { year : nat; instant : nat }.

(** [CustomUser].  [full_name] is the value of the framework's
    [get_full_name()]. *)
Record CustomUser := {
  user_pk : positive;
  username : string;
  full_name : string;
  role : Role
}.

(** Model instances compare by primary key. *)
Definition user_eqb (a b : CustomUser) : bool :=
  Pos.eqb (user_pk a) (user_pk b).

Definition opt_user_eqb (a b : option CustomUser) : bool :=
  match a, b with
  | Some x, Some y => user_eqb x y
  | None, None => true
  | _, _ => false
  end.

Definition is_client (u : CustomUser) : bool := role_eqb (role u) client.
Definition is_agent (u : CustomUser) : bool := role_eqb (role u) agent.
Definition is_admin (u : CustomUser) : bool := role_eqb (role u) admin.

Definition get_role_display (u : CustomUser) : string :=
  match role u with
  | client => "Client"
  | agent => "Support Agent"
  | admin => "Administrator"
  end.

(** [CustomUser.__str__] *)
Definition user_str (u : CustomUser) : string :=
  (username u ++ " (" ++ get_role_display u ++ ")")%string.

(** [u.get_full_name() or u.username] *)
Definition full_name_or_username (u : CustomUser) : string :=
  if PyStr.truthy (full_name u) then full_name u else username u.

Record TriggerRule := {
  rule_name : string;
  keywords : string;
  action : Action;
  rule_category : option positive;
  notify_users : list CustomUser;
  is_active : bool
}.

(** [TriggerRule.get_keyword_list] *)
Definition get_keyword_list (rule : TriggerRule) : list string :=
  map (fun keyword => PyStr.lower (PyStr.strip keyword))
      (filter (fun keyword => PyStr.truthy (PyStr.strip keyword))
              (PyStr.split "," (keywords rule))).

Record Ticket := {
  pk : option positive;
  ticket_number : string;
  subject : string;
  description : string;
  category : option positive;
  severity : Priority;
  priority : Priority;
  status : Status;
  created_by : CustomUser;
  assigned_to : option CustomUser;
  resolved_at : option datetime;
  closed_at : option datetime;
  is_escalated : bool;
  escalated_at : option datetime;
  escalated_by : option CustomUser
}.

Definition get_status_display (s : Status) : string :=
  match s with
  | open => "Open"
  | in_progress => "In Progress"
  | pending => "Pending Customer Response"
  | resolved => "Resolved"
  | closed => "Closed"
  end.

Definition get_priority_display (p : Priority) : string :=
  match p with
  | low => "Low" | medium => "Medium" | high => "High" | critical => "Critical"
  end.

(** The stored values of the two choice fields, as written into the
    [old_value] / [new_value] snapshots. *)
Definition status_value (s : Status) : string :=
  match s with
  | open => "open"
  | in_progress => "in_progress"
  | pending => "pending"
  | resolved => "resolved"
  | closed => "closed"
  end.

Definition priority_value (p : Priority) : string :=
  match p with
  | low => "low" | medium => "medium" | high => "high" | critical => "critical"
  end.

Record TicketHistory := {
  h_ticket : option positive;
  action_type : ActionType;
  actor : option CustomUser;
  h_description : string;
  old_value : option string;
  new_value : option string
}.

Record TicketComment := {
  c_ticket : Ticket;
  author : CustomUser;
  content : string;
  is_internal : bool
}.

Record Notification := {
  recipient : CustomUser;
  notification_type : NotificationType;
  title : string;
  message : string;
  n_ticket : option positive;
  is_read : bool
}.

(** Field assignments on a ticket instance. *)
Definition set_ticket_number (v : string) (t : Ticket) : Ticket :=
  {| pk := pk t; ticket_number := v; subject := subject t;
     description := description t; category := category t;
     severity := severity t; priority := priority t; status := status t;
     created_by := created_by t; assigned_to := assigned_to t;
     resolved_at := resolved_at t; closed_at := closed_at t;
     is_escalated := is_escalated t; escalated_at := escalated_at t;
     escalated_by := escalated_by t |}.

Definition set_pk (v : option positive) (t : Ticket) : Ticket :=
  {| pk := v; ticket_number := ticket_number t; subject := subject t;
     description := description t; category := category t;
     severity := severity t; priority := priority t; status := status t;
     created_by := created_by t; assigned_to := assigned_to t;
     resolved_at := resolved_at t; closed_at := closed_at t;
     is_escalated := is_escalated t; escalated_at := escalated_at t;
     escalated_by := escalated_by t |}.

Definition set_priority (v : Priority) (t : Ticket) : Ticket :=
  {| pk := pk t; ticket_number := ticket_number t; subject := subject t;
     description := description t; category := category t;
     severity := severity t; priority := v; status := status t;
     created_by := created_by t; assigned_to := assigned_to t;
     resolved_at := resolved_at t; closed_at := closed_at t;
     is_escalated := is_escalated t; escalated_at := escalated_at t;
     escalated_by := escalated_by t |}.

Definition set_status (v : Status) (t : Ticket) : Ticket :=
  {| pk := pk t; ticket_number := ticket_number t; subject := subject t;
     description := description t; category := category t;
     severity := severity t; priority := priority t; status := v;
     created_by := created_by t; assigned_to := assigned_to t;
     resolved_at := resolved_at t; closed_at := closed_at t;
     is_escalated := is_escalated t; escalated_at := escalated_at t;
     escalated_by := escalated_by t |}.

Definition set_assigned_to (v : option CustomUser) (t : Ticket) : Ticket :=
  {| pk := pk t; ticket_number := ticket_number t; subject := subject t;
     description := description t; category := category t;
     severity := severity t; priority := priority t; status := status t;
     created_by := created_by t; assigned_to := v;
     resolved_at := resolved_at t; closed_at := closed_at t;
     is_escalated := is_escalated t; escalated_at := escalated_at t;
     escalated_by := escalated_by t |}.

Definition set_resolved_at (v : option datetime) (t : Ticket) : Ticket :=
  {| pk := pk t; ticket_number := ticket_number t; subject := subject t;
     description := description t; category := category t;
     severity := severity t; priority := priority t; status := status t;
     created_by := created_by t; assigned_to := assigned_to t;
     resolved_at := v; closed_at := closed_at t;
     is_escalated := is_escalated t; escalated_at := escalated_at t;
     escalated_by := escalated_by t |}.

Definition set_closed_at (v : option datetime) (t : Ticket) : Ticket :=
  {| pk := pk t; ticket_number := ticket_number t; subject := subject t;
     description := description t; category := category t;
     severity := severity t; priority := priority t; status := status t;
     created_by := created_by t; assigned_to := assigned_to t;
     resolved_at := resolved_at t; closed_at := v;
     is_escalated := is_escalated t; escalated_at := escalated_at t;
     escalated_by := escalated_by t |}.

Definition set_escalation (flag : bool) (at_ : option datetime)
    (by_ : option CustomUser) (t : Ticket) : Ticket :=
  {| pk := pk t; ticket_number := ticket_number t; subject := subject t;
     description := description t; category := category t;
     severity := severity t; priority := priority t; status := status t;
     created_by := created_by t; assigned_to := assigned_to t;
     resolved_at := resolved_at t; closed_at := closed_at t;
     is_escalated := flag; escalated_at := at_; escalated_by := by_ |}.

(** ** The world: tables and clock *)

(** The rows of each table in the store's iteration order, and the clock:
    [clock k] is the value returned by the [k]-th call of
    [timezone.now()], [reads] counts the calls made so far. *)
Record World := {
  clock : nat -> datetime;
  reads : nat;
  tickets : list Ticket;
  users : list CustomUser;
  rules : list TriggerRule;
  history : list TicketHistory;
  notifications : list Notification
}.

(** Computations over the world that may raise: [None] is an uncaught
    Python exception. *)
Definition M (A : Type) : Type := World -> option (A * World).

Definition ret {A} (a : A) : M A := fun w => Some (a, w).

Definition bind {A B} (m : M A) (f : A -> M B) : M B :=
  fun w => match m w with
           | Some (a, w') => f a w'
           | None => None
           end.

Definition raise {A} : M A := fun _ => None.

Definition get_world : M World := fun w => Some (w, w).

Notation "x <- m ;; k" := (bind m (fun x => k))
  (at level 61, m at next level, right associativity).
Notation "m ;;; k" := (bind m (fun _ => k))
  (at level 61, right associativity).

Fixpoint foldM {A B} (f : A -> B -> M A) (l : list B) (a : A) : M A :=
  match l with
  | [] => ret a
  | x :: l' => a' <- f a x ;; foldM f l' a'
  end.

Fixpoint forM_ {B} (f : B -> M unit) (l : list B) : M unit :=
  match l with
  | [] => ret tt
  | x :: l' => f x ;;; forM_ f l'
  end.

(** One more reading of the clock has been taken. *)
Definition tick (w : World) : World :=
  {| clock := clock w; reads := S (reads w); tickets := tickets w;
     users := users w; rules := rules w; history := history w;
     notifications := notifications w |}.

(** [timezone.now()] *)
Definition timezone_now : M datetime := fun w =>
  Some (clock w (reads w), tick w).

Definition set_tickets (l : list Ticket) (w : World) : World :=
  {| clock := clock w; reads := reads w; tickets := l; users := users w;
     rules := rules w; history := history w;
     notifications := notifications w |}.

(** [TicketHistory.objects.create(...)] *)
Definition create_history (h : TicketHistory) : M unit := fun w =>
  Some (tt, {| clock := clock w; reads := reads w; tickets := tickets w;
               users := users w; rules := rules w;
               history := history w ++ [h];
               notifications := notifications w |}).

(** [Notification.objects.create(...)] *)
Definition create_notification (n : Notification) : M unit := fun w =>
  Some (tt, {| clock := clock w; reads := reads w; tickets := tickets w;
               users := users w; rules := rules w; history := history w;
               notifications := notifications w ++ [n] |}).

(** Truth value of an optional object: [None] is false, a model instance
    or a [datetime] is true. *)
Definition is_some {A} (o : option A) : bool :=
  match o with Some _ => true | None => false end.

(** ** Ticket methods ([models.py]) *)

(** The text scanned for keywords:
    [f"{self.subject} {self.description}".lower()] *)
Definition ticket_text (t : Ticket) : string :=
  PyStr.lower (subject t ++ " " ++ description t)%string.

Definition critical_keywords : list string :=
  ["critical"; "emergency"; "outage"; "down"; "breach"; "security breach";
   "data loss"].

Definition high_keywords : list string :=
  ["urgent"; "high"; "important"; "asap"; "immediate"; "production"].

(** [any(keyword in text for keyword in keywords)] *)
Definition any_in (kws : list string) (text : string) : bool :=
  existsb (fun keyword => PyStr.contains keyword text) kws.

(** [Ticket.auto_prioritize] *)
Definition auto_prioritize (self : Ticket) : Ticket :=
  let text := ticket_text self in
  if any_in critical_keywords text then set_priority critical self
  else if any_in high_keywords text then set_priority high self
  else self.

(** The priority ladder inside [Ticket.escalate]. *)
Definition bump_priority (self : Ticket) : Ticket :=
  match priority self with
  | low => set_priority medium self
  | medium => set_priority high self
  | high => set_priority critical self
  | critical => self
  end.

(** [Ticket.escalate] *)
Definition escalate (by_ : option CustomUser) (self : Ticket) : M Ticket :=
  if negb (is_escalated self) then
    now <- timezone_now ;;
    ret (bump_priority (set_escalation true (Some now) by_ self))
  else ret self.

(** One iteration of the loop of [Ticket.check_trigger_rules]. *)
Definition apply_rule (text : string) (self : Ticket) (rule : TriggerRule)
  : M Ticket :=
  let keywords := get_keyword_list rule in
  if any_in keywords text then
    match action rule with
    | act_escalate => escalate None self
    | act_priority_high => ret (set_priority high self)
    | act_priority_critical => ret (set_priority critical self)
    | act_notify => ret self
    end
  else ret self.

(** [Ticket.check_trigger_rules] *)
Definition check_trigger_rules (self : Ticket) : M Ticket :=
  let text := ticket_text self in
  w <- get_world ;;
  foldM (apply_rule text) (filter is_active (rules w)) self.

(** [order_by('-ticket_number').first()]: a row with the greatest ticket
    number in code-point order, [None] on an empty query set. *)
Fixpoint last_by_number (l : list Ticket) : option Ticket :=
  match l with
  | [] => None
  | t :: l' =>
      match last_by_number l' with
      | None => Some t
      | Some m =>
          if String.ltb (ticket_number t) (ticket_number m) then Some m
          else Some t
      end
  end.

Definition year_prefix (y : nat) : string := ("BRTS-" ++ PyStr.str_nat y)%string.

(** [Ticket.generate_ticket_number].  Indexing a split with too few
    components and [int] of a non-number raise. *)
Definition generate_ticket_number : M string :=
  now <- timezone_now ;;
  let y := year now in
  w <- get_world ;;
  let last_ticket :=
    last_by_number
      (filter (fun t => prefix (year_prefix y) (ticket_number t)) (tickets w)) in
  new_number <-
    match last_ticket with
    | Some t =>
        match nth_error (PyStr.split "-" (ticket_number t)) 2 with
        | Some field =>
            match PyStr.int field with
            | Some last_number => ret (last_number + 1)
            | None => raise
            end
        | None => raise
        end
    | None => ret 1
    end ;;
  ret (year_prefix y ++ "-" ++ PyStr.zfill 4 new_number)%string.

(** [Ticket.save], first block: the number is generated when the
    instance has none. *)
Definition assign_number (self : Ticket) : M Ticket :=
  if negb (PyStr.truthy (ticket_number self)) then
    n <- generate_ticket_number ;; ret (set_ticket_number n self)
  else ret self.

(** [Ticket.save], second block: only for an instance without a primary
    key. *)
Definition prioritize_new (self : Ticket) : M Ticket :=
  if negb (is_some (pk self)) then
    check_trigger_rules (auto_prioritize self)
  else ret self.

(** [Ticket.save], third block: the resolved / closed timestamps. *)
Definition stamp_times (self : Ticket) : M Ticket :=
  if status_eqb (status self) resolved && negb (is_some (resolved_at self))
  then now <- timezone_now ;; ret (set_resolved_at (Some now) self)
  else if status_eqb (status self) closed && negb (is_some (closed_at self))
  then now <- timezone_now ;; ret (set_closed_at (Some now) self)
  else ret self.

(** The part of [Ticket.save] that runs before [super().save()]. *)
Definition prepare_save (self : Ticket) : M Ticket :=
  self <- assign_number self ;;
  self <- prioritize_new self ;;
  stamp_times self.

(** ** Signal handlers ([signals.py]) *)

Definition has_pk (id : positive) (r : Ticket) : bool :=
  match pk r with Some i => Pos.eqb i id | None => false end.

(** [Ticket.objects.get(pk=id)], [None] for [DoesNotExist]. *)
Definition find_ticket (id : positive) (l : list Ticket) : option Ticket :=
  find (has_pk id) l.

(** [ticket_pre_save]: the value stored in [instance._original]. *)
Definition ticket_pre_save (instance : Ticket) : M (option Ticket) :=
  match pk instance with
  | Some id => w <- get_world ;; ret (find_ticket id (tickets w))
  | None => ret None
  end.

(** The status block of [log_ticket_changes].  [created_by] is a required
    reference, so the test [if instance.created_by] always passes. *)
Definition log_status_change (instance original : Ticket) : M unit :=
  if negb (status_eqb (status instance) (status original)) then
    create_history
      {| h_ticket := pk instance;
         action_type := h_status_changed;
         actor := None;
         h_description :=
           ("Status changed from " ++ get_status_display (status original)
            ++ " to " ++ get_status_display (status instance))%string;
         old_value := Some (status_value (status original));
         new_value := Some (status_value (status instance)) |} ;;;
    create_notification
      {| recipient := created_by instance;
         notification_type := n_status_changed;
         title := ("Ticket " ++ ticket_number instance
                   ++ " Status Updated")%string;
         message :=
           ("Your ticket status has been changed from "
            ++ get_status_display (status original) ++ " to "
            ++ get_status_display (status instance))%string;
         n_ticket := pk instance;
         is_read := false |}
  else ret tt.

(** The assignment block of [log_ticket_changes]. *)
Definition log_assignment_change (instance original : Ticket) : M unit :=
  if negb (opt_user_eqb (assigned_to instance) (assigned_to original)) then
    match assigned_to instance with
    | Some assignee =>
        create_history
          {| h_ticket := pk instance;
             action_type :=
               if is_some (assigned_to original) then h_reassigned
               else h_assigned;
             actor := None;
             h_description :=
               ("Ticket assigned to " ++ full_name_or_username assignee)%string;
             old_value := option_map user_str (assigned_to original);
             new_value := Some (user_str assignee) |} ;;;
        create_notification
          {| recipient := assignee;
             notification_type := n_ticket_assigned;
             title := ("New Ticket Assigned: "
                       ++ ticket_number instance)%string;
             message := ("You have been assigned ticket: "
                         ++ subject instance)%string;
             n_ticket := pk instance;
             is_read := false |}
    | None => ret tt
    end
  else ret tt.

(** The priority block of [log_ticket_changes]. *)
Definition log_priority_change (instance original : Ticket) : M unit :=
  if negb (priority_eqb (priority instance) (priority original)) then
    create_history
      {| h_ticket := pk instance;
         action_type := h_priority_changed;
         actor := None;
         h_description :=
           ("Priority changed from "
            ++ get_priority_display (priority original) ++ " to "
            ++ get_priority_display (priority instance))%string;
         old_value := Some (priority_value (priority original));
         new_value := Some (priority_value (priority instance)) |}
  else ret tt.

(** The escalation block of [log_ticket_changes]. *)
Definition log_escalation (instance original : Ticket) : M unit :=
  if is_escalated instance && negb (is_escalated original) then
    create_history
      {| h_ticket := pk instance;
         action_type := h_escalated;
         actor := escalated_by instance;
         h_description :=
           ("Ticket escalated by "
            ++ match escalated_by instance with
               | Some u => full_name u
               | None => "System"
               end)%string;
         old_value := None;
         new_value := Some ("Priority: "
                            ++ priority_value (priority instance))%string |} ;;;
    w <- get_world ;;
    forM_ (fun adm =>
             create_notification
               {| recipient := adm;
                  notification_type := n_ticket_escalated;
                  title := ("Ticket Escalated: "
                            ++ ticket_number instance)%string;
                  message :=
                    ("Ticket has been escalated with priority: "
                     ++ get_priority_display (priority instance))%string;
                  n_ticket := pk instance;
                  is_read := false |})
          (filter is_admin (users w))
  else ret tt.

(** [log_ticket_changes] *)
Definition log_ticket_changes (instance original : Ticket) : M unit :=
  log_status_change instance original ;;;
  log_assignment_change instance original ;;;
  log_priority_change instance original ;;;
  log_escalation instance original.

(** [check_trigger_notifications] *)
Definition check_trigger_notifications (instance : Ticket) : M unit :=
  let text := ticket_text instance in
  w <- get_world ;;
  forM_ (fun rule =>
           let keywords := get_keyword_list rule in
           if any_in keywords text then
             forM_ (fun user =>
                      create_notification
                        {| recipient := user;
                           notification_type := n_trigger_activated;
                           title := ("Trigger Alert: " ++ rule_name rule)%string;
                           message :=
                             ("Ticket " ++ ticket_number instance
                              ++ " matches trigger rule '" ++ rule_name rule
                              ++ "'. Keywords detected: "
                              ++ PyStr.join ", " keywords)%string;
                           n_ticket := pk instance;
                           is_read := false |})
                   (notify_users rule)
           else ret tt)
        (filter (fun rule => is_active rule &&
                             match action rule with
                             | act_notify => true
                             | _ => false
                             end)
                (rules w)).

(** [agent.assigned_tickets.filter(status__in=['open', 'in_progress'])
    .count()] *)
Definition open_tickets (agent_ : CustomUser) (w : World) : nat :=
  length
    (filter (fun t =>
               match assigned_to t with
               | Some u => user_eqb u agent_
               | None => false
               end
               && (status_eqb (status t) open
                   || status_eqb (status t) in_progress))
            (tickets w)).

(** [n < min_tickets], where [None] stands for [float('inf')]. *)
Definition below (n : nat) (min_tickets : option nat) : bool :=
  match min_tickets with
  | None => true
  | Some m => n <? m
  end.

(** The loop of [auto_assign_ticket]: the pair [(min_tickets,
    best_agent)] after visiting [agents]. *)
Definition least_loaded (w : World) (agents : list CustomUser)
  : option nat * option CustomUser :=
  fold_left
    (fun st agent_ =>
       let n := open_tickets agent_ w in
       if below n (fst st) then (Some n, Some agent_) else st)
    agents (None, None).

(** [auto_assign_ticket]; [save] is
    [instance.save(update_fields=['assigned_to'])]. *)
Definition auto_assign_ticket (save : Ticket -> M Ticket) (instance : Ticket)
  : M Ticket :=
  if negb (is_some (assigned_to instance)) && is_some (category instance) then
    w <- get_world ;;
    let agents := filter is_agent (users w) in
    match agents with
    | _ :: _ =>
        match snd (least_loaded w agents) with
        | Some best_agent => save (set_assigned_to (Some best_agent) instance)
        | None => ret instance
        end
    | [] => ret instance
    end
  else ret instance.

(** The record written by the [created] branch of [ticket_post_save]. *)
Definition creation_entry (instance : Ticket) : TicketHistory :=
  {| h_ticket := pk instance;
     action_type := h_created;
     actor := Some (created_by instance);
     h_description := ("Ticket created with subject: "
                       ++ subject instance)%string;
     old_value := None;
     new_value := Some ("Status: " ++ status_value (status instance)
                        ++ ", Priority: "
                        ++ priority_value (priority instance))%string |}.

(** [ticket_post_save]; returns the instance as the handlers leave it. *)
Definition ticket_post_save (save : Ticket -> M Ticket) (instance : Ticket)
    (original : option Ticket) (created : bool) : M Ticket :=
  if created then
    create_history (creation_entry instance) ;;;
    check_trigger_notifications instance ;;;
    auto_assign_ticket save instance
  else
    match original with
    | Some o => log_ticket_changes instance o ;;; ret instance
    | None => ret instance
    end.

(** ** Persisting a ticket *)

(** The largest primary key in use, 0 for an empty table. *)
Definition max_pk (l : list Ticket) : N :=
  fold_right (fun r m => match pk r with
                         | Some i => N.max (Npos i) m
                         | None => m
                         end) 0%N l.

(** The next automatic primary key: one above the largest in use. *)
Definition fresh_pk (l : list Ticket) : positive := N.succ_pos (max_pk l).

(** The row [r] after an update of the row keyed [id] from [instance]:
    all columns, or only [assigned_to] under
    [update_fields=['assigned_to']]. *)
Definition write_row (only_assigned_to : bool) (id : positive)
    (instance r : Ticket) : Ticket :=
  if has_pk id r then
    if only_assigned_to then set_assigned_to (assigned_to instance) r
    else instance
  else r.

(** The framework's write of the row, between the [pre_save] and
    [post_save] signals.  A row with the instance's key is updated;
    otherwise the row is inserted, under a fresh key when the instance
    has none.  Returns the instance and the [created] flag.  A save
    restricted to some fields that finds no row to update raises. *)
Definition save_table (only_assigned_to : bool) (instance : Ticket)
  : M (Ticket * bool) := fun w =>
  match pk instance with
  | Some id =>
      if existsb (has_pk id) (tickets w) then
        Some ((instance, false),
              set_tickets
                (map (write_row only_assigned_to id instance) (tickets w)) w)
      else if only_assigned_to then None
      else Some ((instance, true), set_tickets (tickets w ++ [instance]) w)
  | None =>
      if only_assigned_to then None
      else
        let instance' := set_pk (Some (fresh_pk (tickets w))) instance in
        Some ((instance', true), set_tickets (tickets w ++ [instance']) w)
  end.

(** [Ticket.save].  [only_assigned_to] is the call with
    [update_fields=['assigned_to']].  The handler of [post_save] may save
    the instance again; [fuel] bounds that nesting, and running out of it
    is reported as [None]. *)
Fixpoint save_fuel (fuel : nat) (only_assigned_to : bool) (self : Ticket)
  : M Ticket :=
  match fuel with
  | 0 => raise
  | S fuel' =>
      self <- prepare_save self ;;
      original <- ticket_pre_save self ;;
      r <- save_table only_assigned_to self ;;
      ticket_post_save (save_fuel fuel' true) (fst r) original (snd r)
  end.

(** Two levels of nesting are all the code ever uses (see
    [save_fuel_enough] below). *)
Definition Ticket_save (only_assigned_to : bool) (self : Ticket) : M Ticket :=
  save_fuel 2 only_assigned_to self.

(** [comment_post_save] *)
Definition comment_post_save (instance : TicketComment) (created : bool)
  : M unit :=
  if created then
    create_history
      {| h_ticket := pk (c_ticket instance);
         action_type := h_comment_added;
         actor := Some (author instance);
         h_description := ("Comment added by "
                           ++ full_name_or_username (author instance))%string;
         old_value := None;
         new_value :=
           Some (if 100 <? String.length (content instance)
                 then (substring 0 100 (content instance) ++ "...")%string
                 else content instance) |} ;;;
    let users_to_notify := [] in
    let users_to_notify :=
      if negb (user_eqb (created_by (c_ticket instance)) (author instance))
      then users_to_notify ++ [created_by (c_ticket instance)]
      else users_to_notify in
    let users_to_notify :=
      match assigned_to (c_ticket instance) with
      | Some assignee =>
          if negb (user_eqb assignee (author instance))
          then users_to_notify ++ [assignee]
          else users_to_notify
      | None => users_to_notify
      end in
    let users_to_notify :=
      if is_internal instance
      then filter (fun user => negb (is_client user)) users_to_notify
      else users_to_notify in
    forM_ (fun user =>
             create_notification
               {| recipient := user;
                  notification_type := n_new_comment;
                  title := ("New Comment on Ticket "
                            ++ ticket_number (c_ticket instance))%string;
                  message := ("New comment by "
                              ++ full_name_or_username (author instance))%string;
                  n_ticket := pk (c_ticket instance);
                  is_read := false |})
          users_to_notify
  else ret tt.

(** ** Attachments ([models.py], [signals.py]) *)

(** [TicketAttachment.ATTACHMENT_TYPES] *)
Inductive AttachmentType :=
  att_general | att_rca | att_screenshot | att_log | att_report.

Definition attachment_type_value (a : AttachmentType) : string :=
  match a with
  | att_general => "general"
  | att_rca => "rca"
  | att_screenshot => "screenshot"
  | att_log => "log"
  | att_report => "report"
  end.

Definition get_attachment_type_display (a : AttachmentType) : string :=
  match a with
  | att_general => "General Document"
  | att_rca => "Root Cause Analysis"
  | att_screenshot => "Screenshot"
  | att_log => "Log File"
  | att_report => "Report"
  end.

(** The uploaded file behind the [file] field: its name and its size.
    The field is true when the name is not empty. *)
Record FieldFile := { ff_name : string; ff_size : nat }.

Record TicketAttachment := {
  a_ticket : Ticket;
  uploaded_by : CustomUser;
  file : FieldFile;
  file_name : string;
  file_size : nat;
  attachment_type : AttachmentType;
  a_description : string
}.

(** The part of [TicketAttachment.save] that runs before
    [super().save()]. *)
Definition attachment_prepare_save (self : TicketAttachment)
  : TicketAttachment :=
  if PyStr.truthy (ff_name (file self)) then
    {| a_ticket := a_ticket self; uploaded_by := uploaded_by self;
       file := file self; file_name := ff_name (file self);
       file_size := ff_size (file self);
       attachment_type := attachment_type self;
       a_description := a_description self |}
  else self.

(** [attachment_post_save].  [size_mb] renders the floating-point
    property [file_size_mb] of a size in bytes; it only feeds the
    [new_value] text. *)
Definition attachment_post_save (size_mb : nat -> string)
    (instance : TicketAttachment) (created : bool) : M unit :=
  if created then
    create_history
      {| h_ticket := pk (a_ticket instance);
         action_type := h_file_attached;
         actor := Some (uploaded_by instance);
         h_description :=
           ("File attached: " ++ file_name instance ++ " ("
            ++ attachment_type_value (attachment_type instance)
            ++ ")")%string;
         old_value := None;
         new_value := Some ("File: " ++ file_name instance ++ ", Size: "
                            ++ size_mb (file_size instance)
                            ++ "MB")%string |} ;;;
    let users_to_notify := [] in
    let users_to_notify :=
      if negb (user_eqb (created_by (a_ticket instance))
                        (uploaded_by instance))
      then users_to_notify ++ [created_by (a_ticket instance)]
      else users_to_notify in
    let users_to_notify :=
      match assigned_to (a_ticket instance) with
      | Some assignee =>
          if negb (user_eqb assignee (uploaded_by instance))
          then users_to_notify ++ [assignee]
          else users_to_notify
      | None => users_to_notify
      end in
    forM_ (fun user =>
             create_notification
               {| recipient := user;
                  notification_type := n_ticket_updated;
                  title := ("File Attached to Ticket "
                            ++ ticket_number (a_ticket instance))%string;
                  message :=
                    ("New "
                     ++ PyStr.lower (get_attachment_type_display
                                       (attachment_type instance))
                     ++ " attached: " ++ file_name instance)%string;
                  n_ticket := pk (a_ticket instance);
                  is_read := false |})
          users_to_notify
  else ret tt.

(** ** Views ([views.py]) *)

Inductive Method := GET | POST | OTHER_METHOD.

(** What the views read of a request: the user ([None] is the
    anonymous user) and the method. *)
Record Request := { req_user : option CustomUser; req_method : Method }.

(** The responses of the views under study.  A redirect to the ticket
    page carries the flash message and whether it is a success
    message. *)
Inductive Response :=
  | redirect_to_login
  | response_not_allowed
  | response_not_found
  | response_forbidden (body : string)
  | render_page (template : string)
  | redirect_ticket_detail (ticket_id : option positive) (success : bool)
                           (flash : string).

(** [views.is_agent_or_admin] *)
Definition is_agent_or_admin (user : option CustomUser) : bool :=
  match user with
  | Some u => role_eqb (role u) agent || role_eqb (role u) admin
  | None => false
  end.

(** [@login_required] *)
Definition login_required (view : Request -> M Response) (request : Request)
  : M Response :=
  if is_some (req_user request) then view request else ret redirect_to_login.

(** [@user_passes_test(test)] *)
Definition user_passes_test (test : option CustomUser -> bool)
    (view : Request -> M Response) (request : Request) : M Response :=
  if test (req_user request) then view request else ret redirect_to_login.

(** [@require_http_methods(["POST"])] *)
Definition require_POST (view : Request -> M Response) (request : Request)
  : M Response :=
  match req_method request with
  | POST => view request
  | _ => ret response_not_allowed
  end.

(** [get_object_or_404(Ticket, id=ticket_id)] for the value of an
    [<int:ticket_id>] path segment; [None] is [Http404]. *)
Definition get_ticket_or_404 (ticket_id : N) (w : World) : option Ticket :=
  match ticket_id with
  | Npos p => find_ticket p (tickets w)
  | N0 => None
  end.

(** [int(s)] with an optional sign; [None] is [ValueError]. *)
Definition int_signed (s : string) : option Z :=
  match PyStr.strip s with
  | String "-" r =>
      option_map (fun n => Z.opp (Z.of_nat n)) (PyStr.parse_digits r 0 false)
  | String "+" r => option_map Z.of_nat (PyStr.parse_digits r 0 false)
  | s' => option_map Z.of_nat (PyStr.parse_digits s' 0 false)
  end.

(** The body of [views.escalate_ticket]. *)
Definition escalate_ticket_body (ticket_id : N) (request : Request)
  : M Response :=
  w <- get_world ;;
  match get_ticket_or_404 ticket_id w with
  | None => ret response_not_found
  | Some ticket =>
      ticket <- escalate (req_user request) ticket ;;
      ticket <- Ticket_save false ticket ;;
      ret (redirect_ticket_detail
             (pk ticket) true
             ("Ticket " ++ ticket_number ticket
              ++ " has been escalated!")%string)
  end.

(** [views.escalate_ticket] *)
Definition escalate_ticket (ticket_id : N) : Request -> M Response :=
  login_required
    (user_passes_test is_agent_or_admin
       (require_POST (escalate_ticket_body ticket_id))).

(** [get_object_or_404(User, id=agent_id, role__in=['agent', 'admin'])]:
    the outer [None] is the [ValueError] of a key that is not a number,
    the inner one is [Http404]. *)
Definition get_agent_or_404 (agent_id : string) (w : World)
  : option (option CustomUser) :=
  match int_signed agent_id with
  | None => None
  | Some id =>
      Some (find (fun u => Z.eqb (Zpos (user_pk u)) id
                           && (role_eqb (role u) agent
                               || role_eqb (role u) admin))
                 (users w))
  end.

(** The body of [views.assign_ticket]; [agent_id] is
    [request.POST.get('agent_id')]. *)
Definition assign_ticket_body (ticket_id : N) (agent_id : option string)
    (request : Request) : M Response :=
  w <- get_world ;;
  match get_ticket_or_404 ticket_id w with
  | None => ret response_not_found
  | Some ticket =>
      match agent_id with
      | Some (String c r) =>
          match get_agent_or_404 (String c r) w with
          | None => raise
          | Some None => ret response_not_found
          | Some (Some agent_) =>
              ticket <- Ticket_save false
                          (set_assigned_to (Some agent_) ticket) ;;
              ret (redirect_ticket_detail
                     (pk ticket) true
                     ("Ticket assigned to " ++ full_name_or_username agent_
                      ++ "!")%string)
          end
      | _ =>
          ticket <- Ticket_save false (set_assigned_to None ticket) ;;
          ret (redirect_ticket_detail (pk ticket) true "Ticket unassigned!")
      end
  end.

(** [views.assign_ticket] *)
Definition assign_ticket (ticket_id : N) (agent_id : option string)
  : Request -> M Response :=
  login_required
    (user_passes_test is_agent_or_admin
       (require_POST (assign_ticket_body ticket_id agent_id))).

(** The body of [views.add_comment].  [form] is the outcome of
    [TicketCommentForm(request.POST)]: the cleaned [content] and
    [is_internal] when the form is valid.  The insertion of the comment
    row is represented by the [post_save] handler it triggers. *)
Definition add_comment_body (ticket_id : N) (form : option (string * bool))
    (request : Request) : M Response :=
  w <- get_world ;;
  match get_ticket_or_404 ticket_id w, req_user request with
  | None, _ => ret response_not_found
  | Some _, None => raise
  | Some ticket, Some user =>
      if is_client user && negb (user_eqb (created_by ticket) user) then
        ret (response_forbidden
               "You don't have permission to comment on this ticket.")
      else
        match form with
        | Some (text, internal) =>
            let comment :=
              {| c_ticket := ticket; author := user; content := text;
                 is_internal := if is_client user then false else internal |}
            in
            comment_post_save comment true ;;;
            ret (redirect_ticket_detail (pk ticket) true
                                        "Comment added successfully!")
        | None =>
            ret (redirect_ticket_detail (pk ticket) false
                                        "Error adding comment.")
        end
  end.

(** [views.add_comment] *)
Definition add_comment (ticket_id : N) (form : option (string * bool))
  : Request -> M Response :=
  login_required (require_POST (add_comment_body ticket_id form)).

(** The body of [views.upload_attachment].  [form] is the outcome of
    [TicketAttachmentForm(request.POST, request.FILES)]: the uploaded
    file, the attachment type and the description when the form is
    valid. *)
Definition upload_attachment_body (size_mb : nat -> string) (ticket_id : N)
    (form : option (FieldFile * AttachmentType * string))
    (request : Request) : M Response :=
  w <- get_world ;;
  match get_ticket_or_404 ticket_id w, req_user request with
  | None, _ => ret response_not_found
  | Some _, None => raise
  | Some ticket, Some user =>
      if is_client user && negb (user_eqb (created_by ticket) user) then
        ret (response_forbidden
               "You don't have permission to upload files to this ticket.")
      else
        match form with
        | Some (f, ty, text) =>
            let attachment :=
              {| a_ticket := ticket; uploaded_by := user; file := f;
                 file_name := EmptyString; file_size := 0;
                 attachment_type := ty; a_description := text |} in
            attachment_post_save size_mb (attachment_prepare_save attachment)
                                 true ;;;
            ret (redirect_ticket_detail (pk ticket) true
                                        "File uploaded successfully!")
        | None =>
            ret (redirect_ticket_detail (pk ticket) false
                                        "Error uploading file.")
        end
  end.

(** [views.upload_attachment] *)
Definition upload_attachment (size_mb : nat -> string) (ticket_id : N)
    (form : option (FieldFile * AttachmentType * string))
  : Request -> M Response :=
  login_required
    (require_POST (upload_attachment_body size_mb ticket_id form)).

(** The instance built by [TicketForm.save(commit=False)] from the
    cleaned [subject], [description], [category] and [severity], with
    the model's defaults for the other fields, after the view has set
    [created_by]. *)
Definition new_ticket (subject_ description_ : string) (category_ : positive)
    (severity_ : Priority) (user : CustomUser) : Ticket :=
  {| pk := None; ticket_number := EmptyString;
     subject := subject_; description := description_;
     category := Some category_; severity := severity_;
     priority := medium; status := open; created_by := user;
     assigned_to := None; resolved_at := None; closed_at := None;
     is_escalated := false; escalated_at := None; escalated_by := None |}.

(** The body of [views.create_ticket].  [form] is the outcome of
    [TicketForm(request.POST)]: the cleaned fields when the form is
    valid. *)
Definition create_ticket_body
    (form : option (string * string * positive * Priority))
    (request : Request) : M Response :=
  match req_method request with
  | POST =>
      match form with
      | Some (subject_, description_, category_, severity_) =>
          match req_user request with
          | Some user =>
              ticket <- Ticket_save false
                          (new_ticket subject_ description_ category_
                                      severity_ user) ;;
              ret (redirect_ticket_detail
                     (pk ticket) true
                     ("Ticket " ++ ticket_number ticket
                      ++ " created successfully!")%string)
          | None => raise
          end
      | None => ret (render_page "helpdesk/create_ticket.html")
      end
  | _ => ret (render_page "helpdesk/create_ticket.html")
  end.

(** [views.create_ticket] *)
Definition create_ticket
    (form : option (string * string * positive * Priority))
  : Request -> M Response :=
  login_required (create_ticket_body form).

(** The instance of [TicketUpdateForm(request.POST, instance=ticket)]
    once the cleaned [status], [priority], [severity], [assigned_to] and
    [category] are written to it. *)
Definition apply_update_form (status_ : Status) (priority_ severity_ : Priority)
    (assigned_to_ : option CustomUser) (category_ : positive) (t : Ticket)
  : Ticket :=
  {| pk := pk t; ticket_number := ticket_number t; subject := subject t;
     description := description t; category := Some category_;
     severity := severity_; priority := priority_; status := status_;
     created_by := created_by t; assigned_to := assigned_to_;
     resolved_at := resolved_at t; closed_at := closed_at t;
     is_escalated := is_escalated t; escalated_at := escalated_at t;
     escalated_by := escalated_by t |}.

(** The body of [views.update_ticket].  [form] is the outcome of the
    update form: the cleaned fields when the form is valid. *)
Definition update_ticket_body (ticket_id : N)
    (form : option (Status * Priority * Priority * option CustomUser
                    * positive))
    (request : Request) : M Response :=
  w <- get_world ;;
  match get_ticket_or_404 ticket_id w, req_user request with
  | None, _ => ret response_not_found
  | Some _, None => raise
  | Some ticket, Some user =>
      match form with
      | Some (status_, priority_, severity_, assigned_to_, category_) =>
          updated_ticket <-
            Ticket_save false
              (apply_update_form status_ priority_ severity_ assigned_to_
                                 category_ ticket) ;;
          create_history
            {| h_ticket := pk updated_ticket;
               action_type := h_updated;
               actor := Some user;
               h_description := ("Ticket updated by "
                                 ++ full_name_or_username user)%string;
               old_value := None;
               new_value := None |} ;;;
          ret (redirect_ticket_detail (pk ticket) true
                                      "Ticket updated successfully!")
      | None =>
          ret (redirect_ticket_detail (pk ticket) false
                                      "Error updating ticket.")
      end
  end.

(** [views.update_ticket] *)
Definition update_ticket (ticket_id : N)
    (form : option (Status * Priority * Priority * option CustomUser
                    * positive))
  : Request -> M Response :=
  login_required
    (user_passes_test is_agent_or_admin
       (require_POST (update_ticket_body ticket_id form))).

(** ** Vocabulary of the statements *)

(** Appending records to the two logs. *)
Definition emit (hs : list TicketHistory) (ns : list Notification)
    (w : World) : World :=
  {| clock := clock w; reads := reads w; tickets := tickets w;
     users := users w; rules := rules w;
     history := history w ++ hs;
     notifications := notifications w ++ ns |}.

(** A keyword occurs in a text as a case-insensitive substring. *)
Definition icontains (kw text : string) : bool :=
  PyStr.contains (PyStr.lower kw) (PyStr.lower text).

(** [k] more readings of the clock have been taken. *)
Definition ticks (k : nat) (w : World) : World := Nat.iter k tick w.

(** The fields of a ticket that [Ticket.save] never assigns before the
    row is written. *)
Definition same_core (a b : Ticket) : Prop :=
  pk a = pk b /\ subject a = subject b /\ description a = description b /\
  category a = category b /\ severity a = severity b /\
  status a = status b /\ created_by a = created_by b /\
  assigned_to a = assigned_to b.

(** The priority and the three escalation fields. *)
Definition same_urgency (a b : Ticket) : Prop :=
  priority a = priority b /\ is_escalated a = is_escalated b /\
  escalated_at a = escalated_at b /\ escalated_by a = escalated_by b.

(** The timestamp of the current status, if it has one, is set. *)
Definition stamps_done (s : Ticket) : Prop :=
  (status s = resolved -> is_some (resolved_at s) = true) /\
  (status s = closed -> is_some (closed_at s) = true).

(** What the status block of the change log writes for an update from
    [original] to [instance]. *)
Definition status_log (instance original : Ticket)
    (hs : list TicketHistory) (ns : list Notification) : Prop :=
  Forall (fun h => action_type h = h_status_changed) hs /\
  Forall (fun n => notification_type n = n_status_changed) ns /\
  (status instance <> status original ->
   exists h n,
     hs = [h] /\ ns = [n] /\
     h_ticket h = pk instance /\
     old_value h = Some (status_value (status original)) /\
     new_value h = Some (status_value (status instance)) /\
     recipient n = created_by instance /\
     n_ticket n = pk instance) /\
  (status instance = status original -> hs = [] /\ ns = []).

(** What the assignment block writes. *)
Definition assignment_log (instance original : Ticket)
    (hs : list TicketHistory) (ns : list Notification) : Prop :=
  Forall (fun h => action_type h = h_assigned \/ action_type h = h_reassigned)
         hs /\
  Forall (fun n => notification_type n = n_ticket_assigned) ns /\
  (forall assignee,
     assigned_to instance = Some assignee ->
     opt_user_eqb (assigned_to instance) (assigned_to original) = false ->
     exists h n,
       hs = [h] /\ ns = [n] /\
       h_ticket h = pk instance /\
       action_type h
       = (if is_some (assigned_to original) then h_reassigned
          else h_assigned) /\
       actor h = None /\
       old_value h = option_map user_str (assigned_to original) /\
       new_value h = Some (user_str assignee) /\
       recipient n = assignee /\
       n_ticket n = pk instance) /\
  (assigned_to instance = None \/
   opt_user_eqb (assigned_to instance) (assigned_to original) = true ->
   hs = [] /\ ns = []).

(** What the priority block writes. *)
Definition priority_log (instance original : Ticket)
    (hs : list TicketHistory) : Prop :=
  Forall (fun h => action_type h = h_priority_changed) hs /\
  (priority instance = priority original -> hs = []).

(** What the escalation block writes. *)
Definition escalation_log (instance original : Ticket)
    (hs : list TicketHistory) (ns : list Notification) : Prop :=
  Forall (fun h => action_type h = h_escalated) hs /\
  Forall (fun n => notification_type n = n_ticket_escalated) ns /\
  (is_escalated instance = is_escalated original -> hs = [] /\ ns = []).

(** A notice sent by [check_trigger_notifications] for [instance]: a
    [trigger_activated] notification to a member of the notify list of an
    active [notify] rule that matches the ticket text. *)
Definition trigger_notice (w : World) (instance : Ticket) (n : Notification)
  : Prop :=
  notification_type n = n_trigger_activated /\
  exists rule,
    In rule (rules w) /\ is_active rule = true /\ action rule = act_notify /\
    any_in (get_keyword_list rule) (ticket_text instance) = true /\
    In (recipient n) (notify_users rule).

(** Two instances agree on every field but the key and the assignee,
    the two fields assigned after the first part of [save]. *)
Definition same_but_key_and_assignee (a b : Ticket) : Prop :=
  set_pk None (set_assigned_to None a) = set_pk None (set_assigned_to None b).

(** Selecting log records by their tag. *)
Definition is_action (ty : ActionType) (h : TicketHistory) : bool :=
  action_type_eqb (action_type h) ty.

Definition is_notice (ty : NotificationType) (n : Notification) : bool :=
  notification_type_eqb (notification_type n) ty.

(** A run of later updates of one ticket: before each save the status
    is set to the next element of [steps]. *)
Fixpoint resave (steps : list Status) (self : Ticket) : M Ticket :=
  match steps with
  | [] => ret self
  | s :: steps' =>
      self' <- Ticket_save false (set_status s self) ;; resave steps' self'
  end.

(** A rule matches a text when one of its comma-separated keywords,
    trimmed and not empty, occurs in it as a case-insensitive
    substring. *)
Definition rule_matches (rule : TriggerRule) (text : string) : bool :=
  existsb (fun kw => icontains (PyStr.strip kw) text)
          (filter (fun kw => PyStr.truthy (PyStr.strip kw))
                  (PyStr.split "," (keywords rule))).

(** The ticket number [BRTS-y-NNNN] of sequence number [n] in year [y],
    [NNNN] being [n] in decimal, padded with zeros to four digits. *)
Definition numbered (y n : nat) : string :=
  (year_prefix y ++ "-" ++ PyStr.zfill 4 n)%string.

(** The four decimal digits of a number below 10000. *)
Definition four_digits (n : nat) : string :=
  String (PyStr.digit_char (n / 1000))
    (String (PyStr.digit_char (n / 100 mod 10))
       (String (PyStr.digit_char (n / 10 mod 10))
          (String (PyStr.digit_char (n mod 10)) EmptyString))).

(** No character of [s] is [sep]. *)
Fixpoint no_sep (sep : ascii) (s : string) : bool :=
  match s with
  | EmptyString => true
  | String c r => negb (Ascii.eqb c sep) && no_sep sep r
  end.

(** Whom a new comment is announced to: the ticket's creator unless the
    author, then the assignee if there is one unless the author; for an
    internal comment, users with the client role are left out. *)
Definition comment_recipients (instance : TicketComment) : list CustomUser :=
  filter (fun u => negb (is_internal instance && is_client u))
         ((if user_eqb (created_by (c_ticket instance)) (author instance)
           then [] else [created_by (c_ticket instance)])
          ++ match assigned_to (c_ticket instance) with
             | Some assignee =>
                 if user_eqb assignee (author instance) then []
                 else [assignee]
             | None => []
             end).

(** Position of a priority on the ladder. *)
Definition rank (p : Priority) : nat :=
  match p with low => 0 | medium => 1 | high => 2 | critical => 3 end.

(** One step up the ladder, the top staying where it is. *)
Definition step_up (p : Priority) : Priority :=
  match p with
  | low => medium
  | medium => high
  | high => critical
  | critical => critical
  end.

(** What the priority block of the change log writes when the priority
    differs. *)
Definition priority_detail (instance original : Ticket)
    (hs : list TicketHistory) : Prop :=
  priority instance <> priority original ->
  exists h,
    hs = [h] /\ h_ticket h = pk instance /\ actor h = None /\
    old_value h = Some (priority_value (priority original)) /\
    new_value h = Some (priority_value (priority instance)).

(** What the escalation block writes: on a change of the flag from false
    to true, one record and one notification for each of [admins]. *)
Definition escalation_detail (instance original : Ticket)
    (admins : list CustomUser)
    (hs : list TicketHistory) (ns : list Notification) : Prop :=
  (is_escalated instance = true -> is_escalated original = false ->
   exists h,
     hs = [h] /\ h_ticket h = pk instance /\
     actor h = escalated_by instance /\
     new_value h
     = Some ("Priority: " ++ priority_value (priority instance))%string /\
     map recipient ns = admins /\
     Forall (fun n => n_ticket n = pk instance) ns) /\
  (is_escalated instance = false -> hs = [] /\ ns = []).

(** Whom [check_trigger_notifications] writes to for [instance]: the
    notify lists of the active [notify] rules that match its text, rule
    after rule. *)
Definition trigger_recipients (w : World) (instance : Ticket)
  : list CustomUser :=
  flat_map notify_users
    (filter (fun rule =>
               is_active rule
               && match action rule with act_notify => true | _ => false end
               && rule_matches rule
                    (subject instance ++ " " ++ description instance))
            (rules w)).

(** Two instances agree on every field but the priority. *)
Definition same_but_priority (a b : Ticket) : Prop :=
  same_core a b /\ ticket_number a = ticket_number b /\
  resolved_at a = resolved_at b /\ closed_at a = closed_at b /\
  is_escalated a = is_escalated b /\ escalated_at a = escalated_at b /\
  escalated_by a = escalated_by b.

(** ** Sample data for the worked examples *)

Definition demo_client : CustomUser :=
  {| user_pk := 1; username := "john_client"; full_name := "John Smith";
     role := client |}.

Definition demo_agent : CustomUser :=
  {| user_pk := 2; username := "mike_agent"; full_name := "Mike Johnson";
     role := agent |}.

Definition demo_admin : CustomUser :=
  {| user_pk := 3; username := "admin"; full_name := "";
     role := admin |}.

Definition demo_ticket : Ticket :=
  {| pk := None; ticket_number := EmptyString;
     subject := "Printer needs toner";
     description := "Please replace it";
     category := None; severity := medium; priority := medium;
     status := open; created_by := demo_client; assigned_to := None;
     resolved_at := None; closed_at := None; is_escalated := false;
     escalated_at := None; escalated_by := None |}.

Definition demo_world : World :=
  {| clock := fun k => {| year := 2024; instant := k |}; reads := 0;
     tickets := []; users := [demo_client; demo_agent; demo_admin];
     rules := []; history := []; notifications := [] |}.

(** A stored ticket, open and unassigned, and a store that holds it. *)
Definition demo_stored : Ticket :=
  {| pk := Some 1%positive; ticket_number := "BRTS-2024-0001";
     subject := "Printer needs toner";
     description := "Please replace it";
     category := None; severity := medium; priority := medium;
     status := open; created_by := demo_client; assigned_to := None;
     resolved_at := None; closed_at := None; is_escalated := false;
     escalated_at := None; escalated_by := None |}.

Definition demo_store : World :=
  {| clock := fun k => {| year := 2024; instant := k |}; reads := 5;
     tickets := [demo_stored];
     users := [demo_client; demo_agent; demo_admin];
     rules := []; history := []; notifications := [] |}.

Definition demo_agent2 : CustomUser :=
  {| user_pk := 4; username := "sarah_agent"; full_name := "Sarah Wilson";
     role := agent |}.

(** The same store with the ticket assigned to the first agent. *)
Definition demo_store_assigned : World :=
  {| clock := fun k => {| year := 2024; instant := k |}; reads := 5;
     tickets := [set_assigned_to (Some demo_agent) demo_stored];
     users := [demo_client; demo_agent; demo_admin; demo_agent2];
     rules := []; history := []; notifications := [] |}.

(** A new ticket supplied as critical whose text holds a keyword of the
    high set and none of the critical set. *)
Definition demo_urgent_critical : Ticket :=
  {| pk := None; ticket_number := EmptyString;
     subject := "Urgent: invoice missing";
     description := "Please send it again";
     category := None; severity := medium; priority := critical;
     status := open; created_by := demo_client; assigned_to := None;
     resolved_at := None; closed_at := None; is_escalated := false;
     escalated_at := None; escalated_by := None |}.

(** Two rules on the keyword "outage", one active and one not, and a
    store that holds them. *)
Definition demo_rule_high : TriggerRule :=
  {| rule_name := "Outage is high"; keywords := " Outage , offline,,";
     action := act_priority_high; rule_category := None;
     notify_users := []; is_active := true |}.

Definition demo_rule_off : TriggerRule :=
  {| rule_name := "Old rule"; keywords := "outage";
     action := act_escalate; rule_category := None;
     notify_users := []; is_active := false |}.

Definition demo_ruled_world : World :=
  {| clock := fun k => {| year := 2024; instant := k |}; reads := 0;
     tickets := []; users := [demo_client; demo_agent; demo_admin];
     rules := [demo_rule_off; demo_rule_high];
     history := []; notifications := [] |}.

Definition demo_outage : Ticket :=
  {| pk := None; ticket_number := EmptyString;
     subject := "Mail OUTAGE";
     description := "nothing goes through";
     category := None; severity := medium; priority := low;
     status := open; created_by := demo_client; assigned_to := None;
     resolved_at := None; closed_at := None; is_escalated := false;
     escalated_at := None; escalated_by := None |}.

(** Stores of the year 2024 holding the numbers 9999, and 9999 with
    10000. *)
Definition demo_numbered (id : positive) (number : string) : Ticket :=
  set_pk (Some id) (set_ticket_number number demo_ticket).

Definition demo_year_end : World :=
  {| clock := fun k => {| year := 2024; instant := k |}; reads := 0;
     tickets := [demo_numbered 9999 "BRTS-2024-9999"];
     users := [demo_client]; rules := []; history := [];
     notifications := [] |}.

Definition demo_overflow : World :=
  {| clock := fun k => {| year := 2024; instant := k |}; reads := 0;
     tickets := [demo_numbered 9999 "BRTS-2024-9999";
                 demo_numbered 10000 "BRTS-2024-10000"];
     users := [demo_client]; rules := []; history := [];
     notifications := [] |}.

(** A store with two agents, the first of them loaded with the stored
    ticket, and a new ticket that has a category. *)
Definition demo_busy_store : World :=
  {| clock := fun k => {| year := 2024; instant := k |}; reads := 0;
     tickets := [set_assigned_to (Some demo_agent) demo_stored];
     users := [demo_client; demo_agent; demo_admin; demo_agent2];
     rules := []; history := []; notifications := [] |}.

Definition demo_categorised : Ticket :=
  {| pk := None; ticket_number := EmptyString;
     subject := "Cannot print";
     description := "The printer shows a paper jam";
     category := Some 1%positive; severity := medium; priority := medium;
     status := open; created_by := demo_client; assigned_to := None;
     resolved_at := None; closed_at := None; is_escalated := false;
     escalated_at := None; escalated_by := None |}.

(** An active escalation rule and an active notify rule, both on the
    keyword "outage", the second addressed to the administrator. *)
Definition demo_rule_escalate : TriggerRule :=
  {| rule_name := "System Outage Alert";
     keywords := "outage, down, offline, crash";
     action := act_escalate; rule_category := None;
     notify_users := []; is_active := true |}.

Definition demo_rule_notify : TriggerRule :=
  {| rule_name := "Outage Notification"; keywords := "outage";
     action := act_notify; rule_category := None;
     notify_users := [demo_admin]; is_active := true |}.

Definition demo_alert_world : World :=
  {| clock := fun k => {| year := 2024; instant := k |}; reads := 0;
     tickets := []; users := [demo_client; demo_agent; demo_admin];
     rules := [demo_rule_escalate; demo_rule_notify];
     history := []; notifications := [] |}.

Definition demo_escalating_world : World :=
  {| clock := fun k => {| year := 2024; instant := k |}; reads := 0;
     tickets := []; users := [demo_client; demo_agent; demo_admin];
     rules := [demo_rule_escalate];
     history := []; notifications := [] |}.

(** A store with two agents and no ticket: both agents are idle. *)
Definition demo_idle_world : World :=
  {| clock := fun k => {| year := 2024; instant := k |}; reads := 0;
     tickets := [];
     users := [demo_client; demo_agent; demo_admin; demo_agent2];
     rules := []; history := []; notifications := [] |}.

(** A store of the year 2024 whose only ticket carries a number that was
    not generated by the application. *)
Definition demo_legacy_store : World :=
  {| clock := fun k => {| year := 2024; instant := k |}; reads := 0;
     tickets := [demo_numbered 1 "BRTS-2024-A17"];
     users := [demo_client]; rules := []; history := [];
     notifications := [] |}.

(** Two active escalation rules that both match the word "outage". *)
Definition demo_rule_escalate_too : TriggerRule :=
  {| rule_name := "Outage, again"; keywords := "OUTAGE";
     action := act_escalate; rule_category := None;
     notify_users := []; is_active := true |}.

Definition demo_twice_escalating_world : World :=
  {| clock := fun k => {| year := 2024; instant := k |}; reads := 0;
     tickets := []; users := [demo_client; demo_agent; demo_admin];
     rules := [demo_rule_escalate; demo_rule_escalate_too];
     history := []; notifications := [] |}.

(** A second client. *)
Definition demo_client2 : CustomUser :=
  {| user_pk := 5; username := "jane_client"; full_name := "Jane Doe";
     role := client |}.

(** A file as uploaded, and a rendering of sizes in megabytes used in
    the examples (the text itself is immaterial). *)
Definition demo_file : FieldFile :=
  {| ff_name := "rca.pdf"; ff_size := 2048 |}.

Definition demo_size_mb (n : nat) : string := "0.0".

(** The outage ticket supplied as critical. *)
Definition demo_outage_critical : Ticket :=
  {| pk := None; ticket_number := EmptyString;
     subject := "Mail OUTAGE";
     description := "nothing goes through";
     category := None; severity := medium; priority := critical;
     status := open; created_by := demo_client; assigned_to := None;
     resolved_at := None; closed_at := None; is_escalated := false;
     escalated_at := None; escalated_by := None |}.

(** A stored ticket created by the agent, open and unassigned, and a
    store that holds it. *)
Definition demo_agent_stored : Ticket :=
  {| pk := Some 1%positive; ticket_number := "BRTS-2024-0001";
     subject := "Replace my keyboard";
     description := "Two keys are stuck";
     category := None; severity := medium; priority := medium;
     status := open; created_by := demo_agent; assigned_to := None;
     resolved_at := None; closed_at := None; is_escalated := false;
     escalated_at := None; escalated_by := None |}.

Definition demo_agent_store : World :=
  {| clock := fun k => {| year := 2024; instant := k |}; reads := 5;
     tickets := [demo_agent_stored];
     users := [demo_client; demo_agent; demo_admin];
     rules := []; history := []; notifications := [] |}.

(** * Properties *)

(** ** Monad and world lemmas *)

Lemma bind_Some {A B} (m : M A) (f : A -> M B) w b w' :
  bind m f w = Some (b, w') <->
  exists a w1, m w = Some (a, w1) /\ f a w1 = Some (b, w').
Proof.
  unfold bind. split.
  - destruct (m w) as [[a w1]|]; [|discriminate].
    intros H. exists a, w1. split; [reflexivity | exact H].
  - intros (a & w1 & Hm & Hf). rewrite Hm. exact Hf.
Qed.

Lemma bind_eq {A B} (m : M A) (f : A -> M B) w a w1 :
  m w = Some (a, w1) -> bind m f w = f a w1.
Proof. unfold bind. intros ->. reflexivity. Qed.

Lemma emit_nil w : emit [] [] w = w.
Proof. destruct w. unfold emit. simpl. now rewrite !app_nil_r. Qed.

Lemma emit_emit hs1 ns1 hs2 ns2 w :
  emit hs2 ns2 (emit hs1 ns1 w) = emit (hs1 ++ hs2) (ns1 ++ ns2) w.
Proof. unfold emit. simpl. now rewrite !app_assoc. Qed.

Lemma create_history_emit h w : create_history h w = Some (tt, emit [h] [] w).
Proof. unfold create_history, emit. now rewrite app_nil_r. Qed.

Lemma create_notification_emit n w :
  create_notification n w = Some (tt, emit [] [n] w).
Proof. unfold create_notification, emit. now rewrite app_nil_r. Qed.

Lemma forM_notify_emit {B} (mk : B -> Notification) (l : list B) w :
  forM_ (fun x => create_notification (mk x)) l w
  = Some (tt, emit [] (map mk l) w).
Proof.
  revert w. induction l as [|x l IH]; intros w; simpl.
  - unfold ret. now rewrite emit_nil.
  - erewrite bind_eq by apply create_notification_emit.
    rewrite IH, emit_emit. reflexivity.
Qed.

(** ** Equality tests *)

Lemma status_eqb_eq a b : status_eqb a b = true <-> a = b.
Proof. destruct a, b; simpl; split; congruence. Qed.

Lemma priority_eqb_eq a b : priority_eqb a b = true <-> a = b.
Proof. destruct a, b; simpl; split; congruence. Qed.

Lemma role_eqb_eq a b : role_eqb a b = true <-> a = b.
Proof. destruct a, b; simpl; split; congruence. Qed.

(** ** Substring search *)

Lemma prefix_app kw text :
  prefix kw text = true <-> exists b, text = (kw ++ b)%string.
Proof.
  revert text. induction kw as [|c kw IH]; intros text; simpl.
  - split; [intros _; now exists text | destruct text; reflexivity].
  - destruct text as [|d text]; simpl.
    + split; [discriminate | intros [b Hb]; discriminate].
    + destruct (ascii_dec c d) as [->|Hcd].
      * rewrite IH. split; intros [b Hb]; exists b; congruence.
      * split; [discriminate | intros [b Hb]; congruence].
Qed.

Lemma contains_cons kw d text :
  PyStr.contains kw (String d text)
  = prefix kw (String d text) || PyStr.contains kw text.
Proof. reflexivity. Qed.

(** [contains] is substring search. *)
Lemma contains_spec kw text :
  PyStr.contains kw text = true <->
  exists a b, text = (a ++ kw ++ b)%string.
Proof.
  induction text as [|d text IH].
  - change (PyStr.contains kw EmptyString)
      with (prefix kw EmptyString || false).
    rewrite orb_false_r, prefix_app. split.
    + intros [b Hb]. now exists EmptyString, b.
    + intros (a & b & H). destruct a; simpl in H; [now exists b|discriminate].
  - rewrite contains_cons, orb_true_iff, IH, prefix_app. split.
    + intros [[b Hb]|(a & b & Hab)].
      * now exists EmptyString, b.
      * exists (String d a), b. simpl. now rewrite Hab.
    + intros (a & b & H). destruct a as [|c a]; simpl in H.
      * left. now exists b.
      * right. exists a, b. congruence.
Qed.

Lemma icontains_spec kw text :
  icontains kw text = true <->
  exists a b, PyStr.lower text = (a ++ PyStr.lower kw ++ b)%string.
Proof. apply contains_spec. Qed.

(** ** Escalation *)

Lemma escalate_escalated by_ self w :
  is_escalated self = true -> escalate by_ self w = Some (self, w).
Proof. unfold escalate. intros ->. reflexivity. Qed.

Lemma priority_bump self :
  priority (bump_priority self) = step_up (priority self).
Proof. unfold bump_priority. destruct self as [? ? ? ? ? ? p]; destruct p; reflexivity. Qed.

Lemma escalate_fresh by_ self w :
  is_escalated self = false ->
  escalate by_ self w
  = Some (bump_priority (set_escalation true (Some (clock w (reads w))) by_ self),
          tick w).
Proof. unfold escalate. intros ->. reflexivity. Qed.

Lemma bump_keeps_escalation self :
  is_escalated (bump_priority self) = is_escalated self /\
  escalated_at (bump_priority self) = escalated_at self /\
  escalated_by (bump_priority self) = escalated_by self.
Proof.
  unfold bump_priority. destruct (priority self); repeat split; reflexivity.
Qed.

(** C2.  Escalating an escalated ticket returns the same ticket in the
    same world, so the flag, the escalation time, the escalating actor
    and the priority are unchanged.  Escalating a ticket that is not
    escalated sets the flag, stamps the current clock reading, records
    the given actor ([None] included), moves the priority one step up
    the ladder low, medium, high, critical with critical staying
    critical, and a second call on the result changes nothing. *)
Theorem escalate_idempotent_one_step
    (by_ by' : option CustomUser) (self : Ticket) (w : World) :
  (is_escalated self = true -> escalate by_ self w = Some (self, w)) /\
  (is_escalated self = false ->
   exists self' w',
     escalate by_ self w = Some (self', w') /\
     is_escalated self' = true /\
     escalated_at self' = Some (clock w (reads w)) /\
     escalated_by self' = by_ /\
     priority self' = step_up (priority self) /\
     rank (priority self') = Nat.min 3 (S (rank (priority self))) /\
     escalate by' self' w' = Some (self', w')).
Proof.
  split; [apply escalate_escalated|].
  intros Hne. rewrite (escalate_fresh by_ self w Hne).
  eexists _, _. split; [reflexivity|].
  destruct (bump_keeps_escalation
              (set_escalation true (Some (clock w (reads w))) by_ self))
    as (Hf & Ha & Hb).
  rewrite Hf, Ha, Hb, priority_bump. simpl.
  repeat split.
  - destruct (priority self); reflexivity.
  - apply escalate_escalated. rewrite Hf. reflexivity.
Qed.

(** Escalating a medium ticket by hand makes it high; the second call is
    a no-op. *)
Lemma escalate_idempotent_one_step_witness :
  exists self' w',
    escalate (Some demo_agent) demo_ticket demo_world = Some (self', w') /\
    is_escalated self' = true /\
    escalated_at self' = Some {| year := 2024; instant := 0 |} /\
    escalated_by self' = Some demo_agent /\
    priority self' = high /\
    rank (priority self') = 2 /\
    escalate None self' w' = Some (self', w').
Proof.
  exact (proj2 (escalate_idempotent_one_step
                  (Some demo_agent) None demo_ticket demo_world) eq_refl).
Defined.

(** ** Auto-prioritization *)

Lemma lower_fixed_keywords :
  map PyStr.lower critical_keywords = critical_keywords /\
  map PyStr.lower high_keywords = high_keywords.
Proof. split; reflexivity. Qed.

Lemma existsb_map_ext {A} (f g : A -> bool) (h : A -> A) l :
  (forall x, f (h x) = g x) -> existsb f (map h l) = existsb g l.
Proof.
  intros E. induction l as [|x l IH]; simpl; [reflexivity|].
  now rewrite E, IH.
Qed.

(** Matching of the two fixed keyword sets is case-insensitive substring
    search in [subject + " " + description]. *)
Lemma any_in_fixed_icontains self :
  any_in critical_keywords (ticket_text self)
  = existsb (fun kw => icontains kw (subject self ++ " " ++ description self))
            critical_keywords /\
  any_in high_keywords (ticket_text self)
  = existsb (fun kw => icontains kw (subject self ++ " " ++ description self))
            high_keywords.
Proof.
  destruct lower_fixed_keywords as [Hc Hh]. unfold any_in, ticket_text.
  split.
  - rewrite <- Hc at 1. now apply existsb_map_ext.
  - rewrite <- Hh at 1. now apply existsb_map_ext.
Qed.

Lemma auto_prioritize_cases self :
  let text := ticket_text self in
  (any_in critical_keywords text = true ->
   auto_prioritize self = set_priority critical self) /\
  (any_in critical_keywords text = false ->
   any_in high_keywords text = true ->
   auto_prioritize self = set_priority high self) /\
  (any_in critical_keywords text = false ->
   any_in high_keywords text = false ->
   auto_prioritize self = self).
Proof.
  unfold auto_prioritize. cbv zeta.
  destruct (any_in critical_keywords (ticket_text self));
    destruct (any_in high_keywords (ticket_text self));
    repeat split; intros; congruence.
Qed.

(** ** What the clock-only steps leave alone *)

Lemma ticks_fields k w :
  clock (ticks k w) = clock w /\ reads (ticks k w) = k + reads w /\
  tickets (ticks k w) = tickets w /\ users (ticks k w) = users w /\
  rules (ticks k w) = rules w /\ history (ticks k w) = history w /\
  notifications (ticks k w) = notifications w.
Proof.
  induction k as [|k IH]; simpl; [repeat split|].
  destruct IH as (? & ? & ? & ? & ? & ? & ?). repeat split; simpl; congruence.
Qed.

Lemma ticks_add j k w : ticks j (ticks k w) = ticks (j + k) w.
Proof. unfold ticks. now rewrite Nat.iter_add. Qed.

Lemma same_core_trans a b c : same_core a b -> same_core b c -> same_core a c.
Proof.
  unfold same_core. intros (?&?&?&?&?&?&?&?) (?&?&?&?&?&?&?&?).
  repeat split; congruence.
Qed.

Lemma same_urgency_trans a b c :
  same_urgency a b -> same_urgency b c -> same_urgency a c.
Proof.
  unfold same_urgency. intros (?&?&?&?) (?&?&?&?). repeat split; congruence.
Qed.

Lemma escalate_frame by_ self w self' w' :
  escalate by_ self w = Some (self', w') ->
  same_core self self' /\ ticket_number self' = ticket_number self /\
  resolved_at self' = resolved_at self /\ closed_at self' = closed_at self /\
  is_escalated self' = true /\
  exists k, w' = ticks k w.
Proof.
  unfold escalate. destruct (is_escalated self) eqn:E; simpl.
  - intros [= <- <-]. repeat split; trivial. now exists 0.
  - unfold bind, timezone_now, ret. intros [= <- <-].
    unfold bump_priority. simpl.
    destruct (priority self); repeat split; try reflexivity; now exists 1.
Qed.

Lemma apply_rule_frame text self rule w self' w' :
  apply_rule text self rule w = Some (self', w') ->
  same_core self self' /\ ticket_number self' = ticket_number self /\
  resolved_at self' = resolved_at self /\ closed_at self' = closed_at self /\
  exists k, w' = ticks k w.
Proof.
  unfold apply_rule.
  destruct (any_in (get_keyword_list rule) text).
  - destruct (action rule).
    + intros H. apply escalate_frame in H. tauto.
    + intros [= <- <-]. repeat split; trivial. now exists 0.
    + intros [= <- <-]. repeat split; trivial. now exists 0.
    + intros [= <- <-]. repeat split; trivial. now exists 0.
  - intros [= <- <-]. repeat split; trivial. now exists 0.
Qed.

Lemma fold_rules_frame text l self w self' w' :
  foldM (apply_rule text) l self w = Some (self', w') ->
  same_core self self' /\ ticket_number self' = ticket_number self /\
  resolved_at self' = resolved_at self /\ closed_at self' = closed_at self /\
  exists k, w' = ticks k w.
Proof.
  revert self w. induction l as [|r l IH]; intros self w; simpl.
  - intros [= <- <-]. repeat split; trivial. now exists 0.
  - intros H. apply bind_Some in H. destruct H as (s1 & w1 & H1 & H2).
    apply apply_rule_frame in H1. apply IH in H2.
    destruct H1 as (C1 & N1 & R1 & L1 & k1 & ->).
    destruct H2 as (C2 & N2 & R2 & L2 & k2 & ->).
    split; [eapply same_core_trans; eassumption|].
    repeat split; try congruence.
    exists (k2 + k1). apply ticks_add.
Qed.

Lemma auto_prioritize_frame self :
  same_core self (auto_prioritize self) /\
  ticket_number (auto_prioritize self) = ticket_number self /\
  resolved_at (auto_prioritize self) = resolved_at self /\
  closed_at (auto_prioritize self) = closed_at self /\
  is_escalated (auto_prioritize self) = is_escalated self.
Proof.
  unfold auto_prioritize. cbv zeta.
  destruct (any_in critical_keywords (ticket_text self));
    [|destruct (any_in high_keywords (ticket_text self))];
    repeat split.
Qed.

Lemma generate_ticket_number_frame w n w' :
  generate_ticket_number w = Some (n, w') ->
  PyStr.truthy n = true /\ w' = ticks 1 w.
Proof.
  unfold generate_ticket_number. intros H.
  apply bind_Some in H. destruct H as (now & w1 & [= <- <-] & H).
  unfold get_world in H. rewrite bind_eq with (a := tick w) (w1 := tick w) in H
    by reflexivity.
  apply bind_Some in H. destruct H as (m & w2 & Hm & [= <- <-]).
  split; [reflexivity|].
  destruct (last_by_number _) as [t|]; [|now inversion Hm].
  destruct (nth_error _ 2) as [f|]; [|discriminate].
  destruct (PyStr.int f); [now inversion Hm | discriminate].
Qed.

Lemma stamp_times_frame self w :
  exists s' k,
    stamp_times self w = Some (s', ticks k w) /\
    same_core self s' /\ same_urgency self s' /\
    ticket_number s' = ticket_number self /\ stamps_done s'.
Proof.
  assert (Fin : forall s' k,
             stamp_times self w = Some (s', ticks k w) ->
             same_core self s' -> same_urgency self s' ->
             ticket_number s' = ticket_number self -> stamps_done s' ->
             exists s' k,
               stamp_times self w = Some (s', ticks k w) /\
               same_core self s' /\ same_urgency self s' /\
               ticket_number s' = ticket_number self /\ stamps_done s').
  { intros s' k ? ? ? ? ?. exists s', k. tauto. }
  unfold stamp_times, stamps_done in *.
  destruct (status self) eqn:Es; destruct (resolved_at self) eqn:Er;
    destruct (closed_at self) eqn:Ec; simpl in *;
    unfold bind, timezone_now, ret in *.
  all: first
    [ apply (Fin self 0);
      [ reflexivity | repeat split | repeat split | reflexivity
      | rewrite Es, ?Er, ?Ec; split; intros; simpl; congruence ]
    | eapply (Fin _ 1);
      [ reflexivity | repeat split | repeat split | reflexivity
      | simpl; rewrite Es; split; intros; simpl; congruence ] ].
Qed.

Lemma stamp_times_done self w :
  stamps_done self -> stamp_times self w = Some (self, w).
Proof.
  unfold stamp_times, stamps_done. intros [Hr Hc].
  destruct (status self); simpl; try reflexivity.
  - rewrite Hr by reflexivity. reflexivity.
  - rewrite Hc by reflexivity. reflexivity.
Qed.

Lemma assign_number_frame self w s1 w1 :
  assign_number self w = Some (s1, w1) ->
  same_core self s1 /\ same_urgency self s1 /\
  resolved_at s1 = resolved_at self /\ closed_at s1 = closed_at self /\
  PyStr.truthy (ticket_number s1) = true /\
  (PyStr.truthy (ticket_number self) = true -> s1 = self /\ w1 = w) /\
  exists k, w1 = ticks k w.
Proof.
  unfold assign_number.
  destruct (PyStr.truthy (ticket_number self)) eqn:E; simpl.
  - intros [= <- <-]. repeat split; trivial. now exists 0.
  - intros H. apply bind_Some in H. destruct H as (n & w2 & Hg & [= <- <-]).
    apply generate_ticket_number_frame in Hg. destruct Hg as [Hn ->].
    repeat split; trivial; try discriminate. now exists 1.
Qed.

Lemma prioritize_new_frame self w s1 w1 :
  prioritize_new self w = Some (s1, w1) ->
  same_core self s1 /\ ticket_number s1 = ticket_number self /\
  resolved_at s1 = resolved_at self /\ closed_at s1 = closed_at self /\
  (is_some (pk self) = true -> s1 = self /\ w1 = w) /\
  exists k, w1 = ticks k w.
Proof.
  unfold prioritize_new. destruct (is_some (pk self)) eqn:E; simpl.
  - intros [= <- <-]. repeat split; trivial. now exists 0.
  - unfold check_trigger_rules, get_world. rewrite bind_eq with (a := w) (w1 := w)
      by reflexivity.
    intros H. apply fold_rules_frame in H.
    destruct (auto_prioritize_frame self) as (C0 & N0 & R0 & L0 & _).
    destruct H as (C1 & N1 & R1 & L1 & K).
    split; [eapply same_core_trans; eassumption|].
    repeat (split; [congruence|]). exact K.
Qed.

Lemma prepare_save_frame self w s1 w1 :
  prepare_save self w = Some (s1, w1) ->
  same_core self s1 /\
  PyStr.truthy (ticket_number s1) = true /\
  (PyStr.truthy (ticket_number self) = true ->
   ticket_number s1 = ticket_number self) /\
  (is_some (pk self) = true -> same_urgency self s1) /\
  stamps_done s1 /\
  exists k, w1 = ticks k w.
Proof.
  unfold prepare_save. intros H.
  apply bind_Some in H. destruct H as (a & wa & Ha & H).
  apply bind_Some in H. destruct H as (b & wb & Hb & H).
  apply assign_number_frame in Ha.
  destruct Ha as (Ca & Ua & Ra & La & Ta & Ida & ka & ->).
  apply prioritize_new_frame in Hb.
  destruct Hb as (Cb & Nb & Rb & Lb & Idb & kb & ->).
  destruct (stamp_times_frame b (ticks kb (ticks ka w)))
    as (s' & k & Hs & Cs & Us & Ns & Ds).
  rewrite Hs in H. injection H as <- <-.
  split; [eauto using same_core_trans|].
  split; [congruence|].
  split; [intros Ht; destruct (Ida Ht) as [-> _]; congruence|].
  split.
  - intros Hpk. assert (Hpa : is_some (pk a) = true).
    { destruct Ca as (E & _). now rewrite <- E. }
    destruct (Idb Hpa) as [-> _].
    eauto using same_urgency_trans.
  - split; [exact Ds|]. exists (k + kb + ka). now rewrite !ticks_add.
Qed.

(** A ticket that has its number, its key and its timestamps passes
    through the first part of [save] untouched. *)
Lemma prepare_save_settled self w :
  PyStr.truthy (ticket_number self) = true -> is_some (pk self) = true ->
  stamps_done self -> prepare_save self w = Some (self, w).
Proof.
  intros Ht Hp Hd. unfold prepare_save, assign_number, prioritize_new.
  rewrite Ht. simpl. rewrite bind_eq with (a := self) (w1 := w) by reflexivity.
  rewrite Hp. simpl. rewrite bind_eq with (a := self) (w1 := w) by reflexivity.
  now apply stamp_times_done.
Qed.

(** Saving a ticket that has a number and a key never raises before the
    row is written. *)
Lemma prepare_save_update self w :
  PyStr.truthy (ticket_number self) = true -> is_some (pk self) = true ->
  prepare_save self w = stamp_times self w.
Proof.
  intros Ht Hp. unfold prepare_save, assign_number, prioritize_new.
  rewrite Ht. simpl. rewrite bind_eq with (a := self) (w1 := w) by reflexivity.
  rewrite Hp. simpl. now rewrite bind_eq with (a := self) (w1 := w) by reflexivity.
Qed.

(** ** The change log of an update *)

Lemma filter_none {A} (p : A -> bool) l :
  Forall (fun x => p x = false) l -> filter p l = [].
Proof.
  induction 1 as [|x l Hx _ IH]; simpl; [reflexivity|]. now rewrite Hx.
Qed.

Lemma log_status_change_emit instance original w :
  exists hs ns,
    log_status_change instance original w = Some (tt, emit hs ns w) /\
    status_log instance original hs ns.
Proof.
  unfold log_status_change, status_log.
  destruct (status_eqb (status instance) (status original)) eqn:E; simpl.
  - exists [], []. rewrite emit_nil. apply status_eqb_eq in E.
    split; [reflexivity|]. repeat split; auto; congruence.
  - erewrite bind_eq by apply create_history_emit.
    rewrite create_notification_emit, emit_emit. simpl.
    eexists _, _. split; [reflexivity|].
    split; [repeat constructor|]. split; [repeat constructor|]. split.
    + intros _. eexists _, _. repeat split.
    + intros Hs. apply status_eqb_eq in Hs. congruence.
Qed.

Lemma log_assignment_change_emit instance original w :
  exists hs ns,
    log_assignment_change instance original w = Some (tt, emit hs ns w) /\
    assignment_log instance original hs ns.
Proof.
  unfold log_assignment_change, assignment_log.
  destruct (opt_user_eqb (assigned_to instance) (assigned_to original)) eqn:E;
    simpl.
  - exists [], []. rewrite emit_nil. split; [reflexivity|].
    repeat split; auto; discriminate.
  - destruct (assigned_to instance) as [a|] eqn:Ea.
    + erewrite bind_eq by apply create_history_emit.
      rewrite create_notification_emit, emit_emit. simpl.
      eexists _, _. split; [reflexivity|].
      split.
      { constructor; [|constructor]. simpl.
        destruct (assigned_to original); simpl; auto. }
      split; [repeat constructor|]. split.
      * intros assignee [= <-] _. eexists _, _. repeat split.
      * intros [?|?]; discriminate.
    + exists [], []. rewrite emit_nil. split; [reflexivity|].
      repeat split; auto; discriminate.
Qed.

Lemma log_priority_change_emit instance original w :
  exists hs,
    log_priority_change instance original w = Some (tt, emit hs [] w) /\
    priority_log instance original hs.
Proof.
  unfold log_priority_change, priority_log.
  destruct (priority_eqb (priority instance) (priority original)) eqn:E; simpl.
  - exists []. rewrite emit_nil. repeat split; auto.
  - rewrite create_history_emit. eexists. split; [reflexivity|].
    split; [repeat constructor|].
    intros Hp. apply priority_eqb_eq in Hp. congruence.
Qed.

Lemma log_escalation_emit instance original w :
  exists hs ns,
    log_escalation instance original w = Some (tt, emit hs ns w) /\
    escalation_log instance original hs ns.
Proof.
  unfold log_escalation, escalation_log.
  destruct (is_escalated instance) eqn:Ei;
    destruct (is_escalated original) eqn:Eo; simpl;
    try (exists [], []; rewrite emit_nil; repeat split; auto; discriminate).
  erewrite bind_eq by apply create_history_emit.
  unfold get_world. erewrite bind_eq by reflexivity.
  rewrite forM_notify_emit, emit_emit. simpl.
  eexists _, _. split; [reflexivity|]. split; [repeat constructor|].
  split; [|discriminate].
  apply Forall_forall. intros n Hn. apply in_map_iff in Hn.
  destruct Hn as (u & <- & _). reflexivity.
Qed.

(** The change log of an update is the concatenation of what its four
    blocks write, in the order status, assignment, priority,
    escalation. *)
Lemma log_ticket_changes_emit instance original w :
  exists hs1 ns1 hs2 ns2 hs3 hs4 ns4,
    log_ticket_changes instance original w
    = Some (tt, emit (hs1 ++ hs2 ++ hs3 ++ hs4) (ns1 ++ ns2 ++ ns4) w) /\
    status_log instance original hs1 ns1 /\
    assignment_log instance original hs2 ns2 /\
    priority_log instance original hs3 /\
    escalation_log instance original hs4 ns4.
Proof.
  unfold log_ticket_changes.
  destruct (log_status_change_emit instance original w)
    as (hs1 & ns1 & E1 & L1).
  destruct (log_assignment_change_emit instance original (emit hs1 ns1 w))
    as (hs2 & ns2 & E2 & L2).
  destruct (log_priority_change_emit instance original
              (emit hs2 ns2 (emit hs1 ns1 w))) as (hs3 & E3 & L3).
  destruct (log_escalation_emit instance original
              (emit hs3 [] (emit hs2 ns2 (emit hs1 ns1 w))))
    as (hs4 & ns4 & E4 & L4).
  exists hs1, ns1, hs2, ns2, hs3, hs4, ns4.
  split; [|tauto].
  erewrite bind_eq by exact E1. erewrite bind_eq by exact E2.
  erewrite bind_eq by exact E3. rewrite E4, !emit_emit.
  reflexivity.
Qed.

(** ** The two paths of [save] *)

Lemma find_ticket_exists id l o :
  find_ticket id l = Some o -> existsb (has_pk id) l = true.
Proof.
  unfold find_ticket. intros H. apply find_some in H.
  apply existsb_exists. exists o. exact H.
Qed.

Lemma find_ticket_none id l :
  find_ticket id l = None -> existsb (has_pk id) l = false.
Proof.
  unfold find_ticket. intros H.
  destruct (existsb (has_pk id) l) eqn:E; [|reflexivity].
  apply existsb_exists in E. destruct E as (x & Hx & Hp).
  now rewrite (find_none _ _ H x Hx) in Hp.
Qed.

Lemma is_some_pk self id : pk self = Some id -> is_some (pk self) = true.
Proof. now intros ->. Qed.

(** Saving a ticket whose key names a stored row: the row is written,
    and the change log compares the instance with the row as it was. *)
Lemma save_fuel_update_gen fuel uf self w id original s1 w1 :
  pk self = Some id -> find_ticket id (tickets w) = Some original ->
  prepare_save self w = Some (s1, w1) ->
  exists hs1 ns1 hs2 ns2 hs3 hs4 ns4,
    save_fuel (S fuel) uf self w
    = Some (s1,
            emit (hs1 ++ hs2 ++ hs3 ++ hs4) (ns1 ++ ns2 ++ ns4)
                 (set_tickets (map (write_row uf id s1) (tickets w)) w1)) /\
    status_log s1 original hs1 ns1 /\
    assignment_log s1 original hs2 ns2 /\
    priority_log s1 original hs3 /\
    escalation_log s1 original hs4 ns4.
Proof.
  intros Hpk Hfind Hprep.
  destruct (prepare_save_frame _ _ Hprep) as (Cs & _ & _ & _ & _ & k & ->).
  destruct (ticks_fields k w) as (_ & _ & Ht & _).
  set (W := set_tickets (map (write_row uf id s1) (tickets w)) (ticks k w)).
  destruct (log_ticket_changes_emit s1 original W)
    as (hs1 & ns1 & hs2 & ns2 & hs3 & hs4 & ns4 & El & L1 & L2 & L3 & L4).
  exists hs1, ns1, hs2, ns2, hs3, hs4, ns4.
  split; [|tauto].
  assert (Hpk1 : pk s1 = Some id) by (destruct Cs as (E & _); congruence).
  cbn [save_fuel].
  erewrite bind_eq by exact Hprep.
  unfold ticket_pre_save. rewrite Hpk1.
  erewrite bind_eq by (unfold get_world; erewrite bind_eq; reflexivity).
  rewrite Ht, Hfind.
  erewrite bind_eq.
  2:{ unfold save_table. rewrite Hpk1, Ht.
      rewrite (find_ticket_exists _ _ Hfind). reflexivity. }
  cbn [fst snd ticket_post_save].
  fold W. erewrite bind_eq by exact El. reflexivity.
Qed.

(** The same for a ticket that already has its number: nothing before
    the write can raise, and only the timestamps are touched. *)
Lemma save_fuel_update fuel uf self w id original :
  pk self = Some id -> find_ticket id (tickets w) = Some original ->
  PyStr.truthy (ticket_number self) = true ->
  exists s1 k hs1 ns1 hs2 ns2 hs3 hs4 ns4,
    stamp_times self w = Some (s1, ticks k w) /\
    save_fuel (S fuel) uf self w
    = Some (s1,
            emit (hs1 ++ hs2 ++ hs3 ++ hs4) (ns1 ++ ns2 ++ ns4)
                 (set_tickets (map (write_row uf id s1) (tickets w))
                              (ticks k w))) /\
    same_core self s1 /\ same_urgency self s1 /\
    ticket_number s1 = ticket_number self /\ stamps_done s1 /\
    status_log s1 original hs1 ns1 /\
    assignment_log s1 original hs2 ns2 /\
    priority_log s1 original hs3 /\
    escalation_log s1 original hs4 ns4.
Proof.
  intros Hpk Hfind Hnum.
  destruct (stamp_times_frame self w) as (s1 & k & Hs & Cs & Us & Ns & Ds).
  assert (Hprep : prepare_save self w = Some (s1, ticks k w))
    by (rewrite prepare_save_update; eauto using is_some_pk).
  destruct (save_fuel_update_gen fuel uf _ _ Hpk Hfind Hprep)
    as (hs1 & ns1 & hs2 & ns2 & hs3 & hs4 & ns4 & E & L).
  exists s1, k, hs1, ns1, hs2, ns2, hs3, hs4, ns4. tauto.
Qed.

Lemma check_trigger_notifications_emit instance w :
  exists ns,
    check_trigger_notifications instance w = Some (tt, emit [] ns w) /\
    Forall (trigger_notice w instance) ns.
Proof.
  unfold check_trigger_notifications, get_world.
  erewrite bind_eq by reflexivity.
  set (sel := fun rule => is_active rule &&
                          match action rule with
                          | act_notify => true
                          | _ => false
                          end).
  assert (Hsel : forall r, In r (filter sel (rules w)) ->
                           In r (rules w) /\ is_active r = true /\
                           action r = act_notify).
  { intros r Hr. apply filter_In in Hr. destruct Hr as [Hin Hs].
    unfold sel in Hs. apply andb_true_iff in Hs. destruct Hs as [Ha Hn].
    destruct (action r); try discriminate. auto. }
  revert Hsel. generalize (filter sel (rules w)) as l. clear sel.
  intros l. generalize w at 2 3 as w0.
  induction l as [|r l IH]; intros w0 Hsel.
  - exists []. simpl. unfold ret. now rewrite emit_nil.
  - destruct (IH (emit [] (if any_in (get_keyword_list r) (ticket_text instance)
                           then map (fun user =>
                             {| recipient := user;
                                notification_type := n_trigger_activated;
                                title := ("Trigger Alert: " ++ rule_name r)%string;
                                message :=
                                  ("Ticket " ++ ticket_number instance
                                   ++ " matches trigger rule '" ++ rule_name r
                                   ++ "'. Keywords detected: "
                                   ++ PyStr.join ", " (get_keyword_list r))%string;
                                n_ticket := pk instance;
                                is_read := false |}) (notify_users r)
                           else []) w0))
      as (ns & E & F).
    { intros r' Hr'. apply Hsel. now right. }
    cbn [forM_].
    destruct (Hsel r (or_introl eq_refl)) as (Hin & Hact & Hnot).
    destruct (any_in (get_keyword_list r) (ticket_text instance)) eqn:Em.
    + erewrite bind_eq by apply forM_notify_emit.
      rewrite E, emit_emit. eexists. split; [reflexivity|].
      apply Forall_app. split; [|exact F].
      apply Forall_forall. intros n Hn. apply in_map_iff in Hn.
      destruct Hn as (u & <- & Hu). split; [reflexivity|].
      exists r. auto.
    + erewrite bind_eq by reflexivity.
      rewrite emit_nil in E. rewrite E. exists ns. auto.
Qed.

(** ** Fresh keys *)

Lemma max_pk_bound l r i :
  In r l -> pk r = Some i -> (Npos i <= max_pk l)%N.
Proof.
  induction l as [|x l IH]; simpl; [tauto|].
  intros [->|Hin] Hpk.
  - rewrite Hpk. apply N.le_max_l.
  - specialize (IH Hin Hpk). destruct (pk x); [|exact IH].
    etransitivity; [exact IH | apply N.le_max_r].
Qed.

Lemma fresh_pk_unused l : existsb (has_pk (fresh_pk l)) l = false.
Proof.
  destruct (existsb (has_pk (fresh_pk l)) l) eqn:E; [|reflexivity].
  apply existsb_exists in E. destruct E as (r & Hin & Hp).
  unfold has_pk in Hp. destruct (pk r) as [i|] eqn:Hi; [|discriminate].
  apply Pos.eqb_eq in Hp. subst i.
  pose proof (max_pk_bound _ _ Hin Hi) as Hb.
  unfold fresh_pk in Hb. rewrite N.succ_pos_spec in Hb. lia.
Qed.

Lemma has_pk_self r i : pk r = Some i -> has_pk i r = true.
Proof. unfold has_pk. intros ->. apply Pos.eqb_refl. Qed.

Lemma find_ticket_appended l r i :
  existsb (has_pk i) l = false -> pk r = Some i ->
  find_ticket i (l ++ [r]) = Some r.
Proof.
  unfold find_ticket. intros Hl Hr.
  induction l as [|x l IH]; simpl in *.
  - now rewrite (has_pk_self _ Hr).
  - apply orb_false_iff in Hl. destruct Hl as [-> Hl]. auto.
Qed.

Lemma write_row_appended uf l r i inst :
  existsb (has_pk i) l = false -> pk r = Some i ->
  map (write_row uf i inst) (l ++ [r])
  = l ++ [if uf then set_assigned_to (assigned_to inst) r else inst].
Proof.
  intros Hl Hr. rewrite map_app. simpl. unfold write_row at 2.
  rewrite (has_pk_self _ Hr). f_equal.
  induction l as [|x l IH]; simpl in *; [reflexivity|].
  apply orb_false_iff in Hl. destruct Hl as [Hx Hl].
  unfold write_row at 1. rewrite Hx. now rewrite IH.
Qed.

(** ** The least loaded agent *)

Lemma least_loaded_min w agents :
  agents <> [] ->
  exists best,
    least_loaded w agents = (Some (open_tickets best w), Some best) /\
    In best agents /\
    forall a, In a agents -> open_tickets best w <= open_tickets a w.
Proof.
  unfold least_loaded.
  set (f := fun (st : option nat * option CustomUser) agent_ =>
              if below (open_tickets agent_ w) (fst st)
              then (Some (open_tickets agent_ w), Some agent_) else st).
  assert (Step : forall l seen best,
             In best seen ->
             (forall a, In a seen -> open_tickets best w <= open_tickets a w) ->
             exists best',
               fold_left f l (Some (open_tickets best w), Some best)
               = (Some (open_tickets best' w), Some best') /\
               In best' (seen ++ l) /\
               forall a, In a (seen ++ l) ->
                         open_tickets best' w <= open_tickets a w).
  { induction l as [|x l IH]; intros seen best Hin Hmin; simpl.
    - exists best. rewrite app_nil_r. auto.
    - unfold f at 2. cbn [fst below].
      destruct (Nat.ltb_spec (open_tickets x w) (open_tickets best w)) as [Hlt|Hge].
      + destruct (IH (seen ++ [x]) x) as (b & E & I & Mn).
        * apply in_or_app. right. now left.
        * intros a Ha. apply in_app_or in Ha. destruct Ha as [Ha|[<-|[]]].
          -- specialize (Hmin a Ha). lia.
          -- lia.
        * exists b. rewrite <- app_assoc in I, Mn. auto.
      + destruct (IH (seen ++ [x]) best) as (b & E & I & Mn).
        * apply in_or_app. now left.
        * intros a Ha. apply in_app_or in Ha. destruct Ha as [Ha|[<-|[]]];
            [auto | lia].
        * exists b. rewrite <- app_assoc in I, Mn. auto. }
  destruct agents as [|x l]; [congruence|]. intros _.
  simpl. unfold f at 2. cbn [fst below].
  destruct (Step l [x] x) as (b & E & I & Mn).
  - now left.
  - intros a [<-|[]]. lia.
  - exists b. auto.
Qed.

(** ** Fuel *)

Lemma ticket_pre_save_world instance w :
  exists o, ticket_pre_save instance w = Some (o, w).
Proof.
  unfold ticket_pre_save. destruct (pk instance); eexists; reflexivity.
Qed.

Lemma bind_ext {A B} (m : M A) (f g : A -> M B) w :
  (forall a w1, m w = Some (a, w1) -> f a w1 = g a w1) ->
  bind m f w = bind m g w.
Proof.
  intros H. unfold bind. destruct (m w) as [[a w1]|]; [|reflexivity].
  now apply H.
Qed.

Lemma save_table_row uf instance w r w' :
  save_table uf instance w = Some (r, w') ->
  exists id, pk (fst r) = Some id /\
             existsb (has_pk id) (tickets w') = true /\
             (snd r = false -> pk instance = Some id /\
                               existsb (has_pk id) (tickets w) = true).
Proof.
  unfold save_table. intros Hs. destruct (pk instance) as [id|] eqn:Hpk.
  - destruct (existsb (has_pk id) (tickets w)) eqn:Hex.
    + injection Hs as <- <-. exists id. split; [exact Hpk|]. split; [|auto].
      simpl. rewrite existsb_exists in *.
      destruct Hex as (x & Hin & Hx).
      exists (write_row uf id instance x). split; [now apply in_map|].
      unfold write_row. rewrite Hx.
      destruct uf; [exact Hx | now apply has_pk_self].
    + destruct uf; [discriminate|]. injection Hs as <- <-.
      exists id. split; [exact Hpk|]. split; [|discriminate]. simpl.
      rewrite existsb_app. simpl. rewrite (has_pk_self _ Hpk).
      now rewrite orb_true_r.
  - destruct uf; [discriminate|]. injection Hs as <- <-.
    eexists. split; [reflexivity|]. split; [|discriminate]. simpl.
    rewrite existsb_app. simpl. erewrite has_pk_self by reflexivity.
    now rewrite orb_true_r.
Qed.

(** On the update path the nested save of the handlers is never
    called. *)
Lemma save_fuel_update_any fuel fuel' uf self w id :
  pk self = Some id -> existsb (has_pk id) (tickets w) = true ->
  save_fuel (S fuel) uf self w = save_fuel (S fuel') uf self w.
Proof.
  intros Hpk Hex. cbn [save_fuel].
  apply bind_ext. intros s1 w1 Hp.
  destruct (prepare_save_frame _ _ Hp) as (Cs & _ & _ & _ & _ & k & ->).
  destruct (ticks_fields k w) as (_ & _ & Ht & _).
  assert (Hpk1 : pk s1 = Some id) by (destruct Cs as (E & _); congruence).
  apply bind_ext. intros o w2 Ho.
  destruct (ticket_pre_save_world s1 (ticks k w)) as (o' & Ho').
  rewrite Ho' in Ho. injection Ho as -> <-.
  apply bind_ext. intros r w3 Hs.
  unfold save_table in Hs. rewrite Hpk1, Ht, Hex in Hs.
  injection Hs as <- <-. reflexivity.
Qed.

Lemma auto_assign_ticket_any fuel fuel' instance w id :
  pk instance = Some id -> existsb (has_pk id) (tickets w) = true ->
  auto_assign_ticket (save_fuel (S fuel) true) instance w
  = auto_assign_ticket (save_fuel (S fuel') true) instance w.
Proof.
  intros Hpk Hex. unfold auto_assign_ticket.
  destruct (negb (is_some (assigned_to instance)) && is_some (category instance));
    [|reflexivity].
  unfold get_world. rewrite !bind_eq with (a := w) (w1 := w) by reflexivity.
  destruct (filter is_agent (users w)); [reflexivity|].
  destruct (snd (least_loaded w (c :: l))); [|reflexivity].
  now apply save_fuel_update_any with (id := id).
Qed.

Lemma ticket_post_save_any fuel fuel' instance original created w id :
  pk instance = Some id -> existsb (has_pk id) (tickets w) = true ->
  ticket_post_save (save_fuel (S fuel) true) instance original created w
  = ticket_post_save (save_fuel (S fuel') true) instance original created w.
Proof.
  intros Hpk Hex. unfold ticket_post_save.
  destruct created; [|reflexivity].
  apply bind_ext. intros [] w1 H1.
  rewrite create_history_emit in H1. injection H1 as <-.
  apply bind_ext. intros [] w2 H2.
  destruct (check_trigger_notifications_emit
              instance (emit [creation_entry instance] [] w)) as (ns & E & _).
  rewrite E in H2. injection H2 as <-.
  now apply auto_assign_ticket_any with (id := id).
Qed.

(** Two levels of nesting are enough: more fuel never changes the
    outcome of a save. *)
Lemma save_fuel_enough n uf self w :
  save_fuel (S (S n)) uf self w = Ticket_save uf self w.
Proof.
  unfold Ticket_save. cbn [save_fuel].
  apply bind_ext. intros s1 w1 _.
  apply bind_ext. intros o w2 _.
  apply bind_ext. intros r w3 Hs.
  destruct (save_table_row _ _ _ Hs) as (id & Hpk & Hex & _).
  apply (ticket_post_save_any n 0) with (id := id); assumption.
Qed.

(** ** Creation *)

Lemma trigger_notice_rules w w' instance n :
  rules w' = rules w -> trigger_notice w' instance n ->
  trigger_notice w instance n.
Proof. unfold trigger_notice. intros ->. auto. Qed.

Lemma trigger_notice_text w a b n :
  subject a = subject b -> description a = description b ->
  trigger_notice w a n -> trigger_notice w b n.
Proof.
  unfold trigger_notice, ticket_text. intros -> ->. auto.
Qed.

(** Saving a ticket without a key: the row is inserted under a fresh
    key, the creation is logged, the notify rules are served, and
    auto-assignment runs. *)
Lemma Ticket_save_create self w s1 w1 :
  pk self = None -> prepare_save self w = Some (s1, w1) ->
  exists ns,
    Forall (trigger_notice w self) ns /\
    Ticket_save false self w
    = auto_assign_ticket
        (save_fuel 1 true)
        (set_pk (Some (fresh_pk (tickets w))) s1)
        (emit [creation_entry (set_pk (Some (fresh_pk (tickets w))) s1)] ns
              (set_tickets
                 (tickets w ++ [set_pk (Some (fresh_pk (tickets w))) s1]) w1)).
Proof.
  intros Hpk Hp.
  destruct (prepare_save_frame _ _ Hp) as (Cs & _ & _ & _ & _ & k & ->).
  destruct (ticks_fields k w) as (_ & _ & Ht & _ & Hr & _).
  set (s2 := set_pk (Some (fresh_pk (tickets w))) s1).
  set (W := set_tickets (tickets w ++ [s2]) (ticks k w)).
  destruct (check_trigger_notifications_emit s2 (emit [creation_entry s2] [] W))
    as (ns & E & F).
  exists ns. split.
  - eapply Forall_impl; [|exact F]. intros n Hn.
    destruct Cs as (_ & Hs & Hd & _).
    apply trigger_notice_text with (a := s2); [symmetry; exact Hs
                                               | symmetry; exact Hd |].
    eapply trigger_notice_rules; [|exact Hn]. exact Hr.
  - assert (Hpk1 : pk s1 = None) by (destruct Cs as (E0 & _); congruence).
    unfold Ticket_save. cbn [save_fuel].
    erewrite bind_eq by exact Hp.
    unfold ticket_pre_save. rewrite Hpk1.
    erewrite bind_eq by reflexivity.
    erewrite bind_eq
      by (unfold save_table; rewrite Hpk1, Ht; reflexivity).
    cbn [fst snd ticket_post_save]. fold s2. fold W.
    erewrite bind_eq by apply create_history_emit.
    erewrite bind_eq by exact E.
    rewrite emit_emit. reflexivity.
Qed.

Lemma auto_assign_ticket_skips save instance w :
  is_some (assigned_to instance) = true \/ category instance = None \/
  filter is_agent (users w) = [] ->
  auto_assign_ticket save instance w = Some (instance, w).
Proof.
  unfold auto_assign_ticket. intros [H|[H|H]].
  - now rewrite H.
  - rewrite H, andb_false_r. reflexivity.
  - destruct (negb _ && _); [|reflexivity].
    unfold get_world. erewrite bind_eq by reflexivity. now rewrite H.
Qed.


(** The nested save of auto-assignment: the ticket as just inserted is
    the original, only the assignee differs. *)
Lemma save_assignment fuel s2 best l i w :
  tickets w = l ++ [s2] -> existsb (has_pk i) l = false ->
  pk s2 = Some i -> PyStr.truthy (ticket_number s2) = true ->
  stamps_done s2 -> assigned_to s2 = None ->
  exists h n,
    save_fuel (S fuel) true (set_assigned_to (Some best) s2) w
    = Some (set_assigned_to (Some best) s2,
            emit [h] [n]
                 (set_tickets (l ++ [set_assigned_to (Some best) s2]) w)) /\
    h_ticket h = Some i /\ action_type h = h_assigned /\ actor h = None /\
    old_value h = None /\ new_value h = Some (user_str best) /\
    recipient n = best /\ notification_type n = n_ticket_assigned /\
    n_ticket n = Some i.
Proof.
  intros Ht Hl Hpk Hnum Hd Hna.
  set (s3 := set_assigned_to (Some best) s2).
  assert (Hf : find_ticket i (tickets w) = Some s2)
    by (rewrite Ht; now apply find_ticket_appended).
  assert (Hp : prepare_save s3 w = Some (s3, w))
    by (apply prepare_save_settled;
        [exact Hnum | simpl; now rewrite Hpk | exact Hd]).
  destruct (save_fuel_update_gen fuel true s3 w (id := i) Hpk Hf Hp)
    as (hs1 & ns1 & hs2 & ns2 & hs3 & hs4 & ns4 & E & L1 & L2 & L3 & L4).
  destruct L1 as (_ & _ & _ & L1). destruct (L1 eq_refl) as [-> ->].
  destruct L3 as (_ & L3). rewrite (L3 eq_refl) in E.
  destruct L4 as (_ & _ & L4). destruct (L4 eq_refl) as [-> ->].
  destruct L2 as (_ & Hn2 & L2 & _).
  destruct (L2 best eq_refl) as (h & n & -> & -> & P).
  { simpl. now rewrite Hna. }
  exists h, n. rewrite E. simpl.
  rewrite Ht, (write_row_appended true _ _ s3 Hl Hpk). simpl.
  split; [reflexivity|].
  rewrite Hna in P. simpl in P. rewrite Hpk in P.
  inversion Hn2 as [|? ? Hty _]; subst. tauto.
Qed.

(** ** The instance returned by [save] *)

Lemma save_table_instance uf instance w r w' :
  save_table uf instance w = Some (r, w') ->
  same_but_key_and_assignee instance (fst r) /\
  assigned_to (fst r) = assigned_to instance /\
  (is_some (pk instance) = true -> fst r = instance) /\
  reads w' = reads w /\ clock w' = clock w /\ users w' = users w /\
  rules w' = rules w /\ history w' = history w /\
  notifications w' = notifications w.
Proof.
  unfold save_table. destruct (pk instance) as [id|] eqn:Hpk.
  - destruct (existsb (has_pk id) (tickets w)).
    + intros [= <- <-]. repeat split.
    + destruct uf; [discriminate|]. intros [= <- <-]. repeat split.
  - destruct uf; [discriminate|]. intros [= <- <-].
    repeat split. discriminate.
Qed.

Lemma same_bka_fields a b :
  same_but_key_and_assignee a b ->
  ticket_number a = ticket_number b /\ subject a = subject b /\
  description a = description b /\ category a = category b /\
  severity a = severity b /\ status a = status b /\
  created_by a = created_by b /\ resolved_at a = resolved_at b /\
  closed_at a = closed_at b /\ same_urgency a b.
Proof.
  unfold same_but_key_and_assignee, same_urgency. intros H.
  repeat split;
    [ apply (f_equal ticket_number) in H | apply (f_equal subject) in H
    | apply (f_equal description) in H | apply (f_equal category) in H
    | apply (f_equal severity) in H | apply (f_equal status) in H
    | apply (f_equal created_by) in H | apply (f_equal resolved_at) in H
    | apply (f_equal closed_at) in H | apply (f_equal priority) in H
    | apply (f_equal is_escalated) in H | apply (f_equal escalated_at) in H
    | apply (f_equal escalated_by) in H ]; exact H.
Qed.

Lemma same_bka_trans a b c :
  same_but_key_and_assignee a b -> same_but_key_and_assignee b c ->
  same_but_key_and_assignee a c.
Proof. unfold same_but_key_and_assignee. congruence. Qed.

(** Whatever path a save takes, the instance it returns is the one left
    by the first part of [save], up to the key given at insertion and
    the assignee given by auto-assignment. *)
Lemma Ticket_save_instance uf self w self' w' :
  Ticket_save uf self w = Some (self', w') ->
  exists s1 w1,
    prepare_save self w = Some (s1, w1) /\
    same_but_key_and_assignee s1 self'.
Proof.
  unfold Ticket_save. cbn [save_fuel]. intros H.
  apply bind_Some in H. destruct H as (s1 & w1 & Hp & H).
  exists s1, w1. split; [exact Hp|].
  apply bind_Some in H. destruct H as (o & w2 & Ho & H).
  apply bind_Some in H. destruct H as (r & w3 & Hs & H).
  destruct (save_table_instance _ _ _ Hs) as (Hsame & _).
  destruct (save_table_row _ _ _ Hs) as (id & Hpk & Hex & _).
  destruct (prepare_save_frame _ _ Hp) as (_ & Hnum & _ & _ & Hd & _).
  destruct r as [i c]. cbn [fst snd] in *.
  unfold ticket_post_save in H. destruct c.
  - apply bind_Some in H. destruct H as ([] & w4 & H4 & H).
    apply bind_Some in H. destruct H as ([] & w5 & H5 & H).
    unfold auto_assign_ticket in H.
    destruct (negb (is_some (assigned_to i)) && is_some (category i));
      [|injection H as <- <-; exact Hsame].
    unfold get_world in H. erewrite bind_eq in H by reflexivity.
    destruct (filter is_agent (users w5)); [injection H as <- <-; exact Hsame|].
    destruct (snd (least_loaded w5 (c :: l))) as [best|];
      [|injection H as <- <-; exact Hsame].
    set (s3 := set_assigned_to (Some best) i) in *.
    destruct (same_bka_fields Hsame) as (En & _ & _ & _ & _ & Es & _ & Er & Ec & _).
    assert (Hp3 : prepare_save s3 w5 = Some (s3, w5)).
    { apply prepare_save_settled.
      - simpl. now rewrite <- En.
      - simpl. now rewrite Hpk.
      - unfold stamps_done in *. simpl. rewrite <- Es, <- Er, <- Ec. exact Hd. }
    cbn [save_fuel] in H. erewrite bind_eq in H by exact Hp3.
    apply bind_Some in H. destruct H as (o' & w6 & _ & H).
    apply bind_Some in H. destruct H as (r' & w7 & Hs' & H).
    destruct (save_table_instance _ _ _ Hs') as (_ & _ & Hid & _).
    rewrite Hid in H by (simpl; now rewrite Hpk).
    unfold save_table in Hs'. simpl in Hs'. rewrite Hpk in Hs'.
    destruct (existsb (has_pk id) (tickets w6)); [|discriminate].
    injection Hs' as <- <-. cbn [snd ticket_post_save] in H.
    assert (self' = s3) as ->.
    { destruct o'; [|now injection H as <- _].
      apply bind_Some in H. destruct H as (? & ? & _ & H).
      now injection H as <- _. }
    eapply same_bka_trans; [exact Hsame|]. reflexivity.
  - destruct o.
    + apply bind_Some in H. destruct H as (? & ? & _ & H).
      injection H as <- _. exact Hsame.
    + injection H as <- _. exact Hsame.
Qed.

(** ** Resolved and closed timestamps *)

Lemma stamp_times_spec self w s' w' :
  stamp_times self w = Some (s', w') ->
  resolved_at s'
  = match status self, resolved_at self with
    | resolved, None => Some (clock w (reads w))
    | _, r => r
    end /\
  closed_at s'
  = match status self, closed_at self with
    | closed, None => Some (clock w (reads w))
    | _, c => c
    end.
Proof.
  unfold stamp_times.
  destruct (status self) eqn:Es; destruct (resolved_at self) eqn:Er;
    destruct (closed_at self) eqn:Ec; simpl; unfold bind, timezone_now, ret;
    intros [= <- <-]; simpl; rewrite ?Er, ?Ec; split; reflexivity.
Qed.

Lemma prepare_save_stamps self w s1 w1 :
  prepare_save self w = Some (s1, w1) ->
  exists k,
    reads w <= k /\
    resolved_at s1
    = match status self, resolved_at self with
      | resolved, None => Some (clock w k)
      | _, r => r
      end /\
    closed_at s1
    = match status self, closed_at self with
      | closed, None => Some (clock w k)
      | _, c => c
      end.
Proof.
  unfold prepare_save. intros H.
  apply bind_Some in H. destruct H as (a & wa & Ha & H).
  apply bind_Some in H. destruct H as (b & wb & Hb & H).
  apply assign_number_frame in Ha.
  destruct Ha as (Ca & _ & Ra & La & _ & _ & ka & ->).
  apply prioritize_new_frame in Hb.
  destruct Hb as (Cb & _ & Rb & Lb & _ & kb & ->).
  apply stamp_times_spec in H. rewrite ticks_add in H.
  destruct (ticks_fields (kb + ka) w) as (Hc & Hr & _).
  rewrite Hc, Hr in H.
  destruct Ca as (_ & _ & _ & _ & _ & Sa & _).
  destruct Cb as (_ & _ & _ & _ & _ & Sb & _).
  rewrite <- Sb, <- Sa, Rb, Ra, Lb, La in H.
  exists (kb + ka + reads w). split; [lia | exact H].
Qed.

Lemma Ticket_save_stamps uf self w self' w' :
  Ticket_save uf self w = Some (self', w') ->
  exists k,
    reads w <= k /\
    resolved_at self'
    = match status self, resolved_at self with
      | resolved, None => Some (clock w k)
      | _, r => r
      end /\
    closed_at self'
    = match status self, closed_at self with
      | closed, None => Some (clock w k)
      | _, c => c
      end.
Proof.
  intros H. apply Ticket_save_instance in H.
  destruct H as (s1 & w1 & Hp & Hs).
  destruct (same_bka_fields Hs) as (_ & _ & _ & _ & _ & _ & _ & Er & Ec & _).
  rewrite <- Er, <- Ec. eapply prepare_save_stamps; eassumption.
Qed.

Lemma resave_keeps_stamps steps self w self' w' :
  resave steps self w = Some (self', w') ->
  (forall d, resolved_at self = Some d -> resolved_at self' = Some d) /\
  (forall d, closed_at self = Some d -> closed_at self' = Some d).
Proof.
  revert self w. induction steps as [|s steps IH]; intros self w; simpl.
  - intros [= <- <-]. auto.
  - intros H. apply bind_Some in H. destruct H as (t & w1 & Hs & H).
    apply IH in H. destruct H as [Hr Hc].
    apply Ticket_save_stamps in Hs. destruct Hs as (k & _ & Er & Ec).
    simpl in Er, Ec. split; intros d Hd.
    + apply Hr. rewrite Er, Hd. now destruct s.
    + apply Hc. rewrite Ec, Hd. now destruct s.
Qed.

(** C7.  A save of a ticket whose status is resolved and whose
    [resolved_at] is unset stamps [resolved_at] with a reading of the
    clock taken during that save; likewise [closed_at] for the status
    closed.  A save in any other status leaves the timestamp as it was,
    a timestamp that is set is returned unchanged, and it stays
    unchanged through every later run of saves, whatever statuses the
    ticket passes through (leaving and re-entering resolved or closed
    included). *)
Theorem timestamps_stamped_once
    (uf : bool) (self self' : Ticket) (w w' : World) :
  Ticket_save uf self w = Some (self', w') ->
  (status self = resolved -> resolved_at self = None ->
   exists k, reads w <= k /\ resolved_at self' = Some (clock w k)) /\
  (status self = closed -> closed_at self = None ->
   exists k, reads w <= k /\ closed_at self' = Some (clock w k)) /\
  (status self <> resolved -> resolved_at self' = resolved_at self) /\
  (status self <> closed -> closed_at self' = closed_at self) /\
  (forall d, resolved_at self = Some d -> resolved_at self' = Some d) /\
  (forall d, closed_at self = Some d -> closed_at self' = Some d) /\
  (forall steps self'' w'',
     resave steps self' w' = Some (self'', w'') ->
     (forall d, resolved_at self' = Some d -> resolved_at self'' = Some d) /\
     (forall d, closed_at self' = Some d -> closed_at self'' = Some d)).
Proof.
  intros H. destruct (Ticket_save_stamps _ _ _ H) as (k & Hk & Er & Ec).
  split; [intros Hs Hn; rewrite Hs, Hn in Er; eauto|].
  split; [intros Hs Hn; rewrite Hs, Hn in Ec; eauto|].
  split; [intros Hs; rewrite Er; destruct (status self); try reflexivity;
          congruence|].
  split; [intros Hs; rewrite Ec; destruct (status self); try reflexivity;
          congruence|].
  split; [intros d Hd; rewrite Er, Hd; now destruct (status self)|].
  split; [intros d Hd; rewrite Ec, Hd; now destruct (status self)|].
  intros steps self'' w''. apply resave_keeps_stamps.
Qed.

(** A ticket created as resolved is stamped by its first save, and no
    later run of saves moves the stamp. *)
Lemma timestamps_stamped_once_witness :
  exists self' w',
    Ticket_save false (set_status resolved demo_ticket) demo_world
    = Some (self', w') /\
    (exists k, reads demo_world <= k /\
               resolved_at self' = Some (clock demo_world k)) /\
    closed_at self' = None /\
    (forall steps self'' w'',
       resave steps self' w' = Some (self'', w'') ->
       (forall d, resolved_at self' = Some d -> resolved_at self'' = Some d) /\
       (forall d, closed_at self' = Some d -> closed_at self'' = Some d)).
Proof.
  destruct (Ticket_save false (set_status resolved demo_ticket) demo_world)
    as [[t w1]|] eqn:E; [|vm_compute in E; discriminate].
  exists t, w1. split; [reflexivity|].
  destruct (timestamps_stamped_once _ _ _ E) as (Hr & _ & _ & Hc & _ & _ & Hl).
  split; [apply Hr; reflexivity|].
  split; [rewrite Hc; [reflexivity | discriminate]|].
  exact Hl.
Defined.

(** ** History and notifications of an update *)

Lemma filter_all {A} (p : A -> bool) l :
  Forall (fun x => p x = true) l -> filter p l = l.
Proof.
  induction 1 as [|x l Hx _ IH]; simpl; [reflexivity|]. now rewrite Hx, IH.
Qed.

Lemma Forall_is_action ty ty' hs :
  ty <> ty' ->
  Forall (fun h => action_type h = ty) hs ->
  Forall (fun h => is_action ty' h = false) hs.
Proof.
  intros Hne. apply Forall_impl. intros h Hh. unfold is_action. rewrite Hh.
  destruct ty, ty'; try reflexivity; congruence.
Qed.

Lemma Forall_is_notice ty ty' ns :
  ty <> ty' ->
  Forall (fun n => notification_type n = ty) ns ->
  Forall (fun n => is_notice ty' n = false) ns.
Proof.
  intros Hne. apply Forall_impl. intros n Hn. unfold is_notice. rewrite Hn.
  destruct ty, ty'; try reflexivity; congruence.
Qed.

Lemma Forall_assign_not ty hs :
  ty <> h_assigned -> ty <> h_reassigned ->
  Forall (fun h => action_type h = h_assigned \/ action_type h = h_reassigned)
         hs ->
  Forall (fun h => is_action ty h = false) hs.
Proof.
  intros H1 H2. apply Forall_impl. intros h [Hh|Hh]; unfold is_action;
    rewrite Hh; destruct ty; try reflexivity; congruence.
Qed.

(** An update that resolves a ticket and assigns it to the agent who
    created it sends the creator two notifications, one for the status
    and one for the assignment; and an update that only assigns the
    ticket to its creator sends the creator a notification although the
    status did not change. *)
Lemma status_change_notifies_creator_twice :
  find_ticket 1 (tickets demo_agent_store) = Some demo_agent_stored /\
  created_by demo_agent_stored = demo_agent /\
  status demo_agent_stored = open /\
  (exists self' w' n1 n2,
     Ticket_save false
       (set_status resolved
          (set_assigned_to (Some demo_agent) demo_agent_stored))
       demo_agent_store
     = Some (self', w') /\
     status self' = resolved /\
     notifications w' = notifications demo_agent_store ++ [n1; n2] /\
     recipient n1 = demo_agent /\ notification_type n1 = n_status_changed /\
     recipient n2 = demo_agent /\ notification_type n2 = n_ticket_assigned) /\
  (exists self' w' n,
     Ticket_save false (set_assigned_to (Some demo_agent) demo_agent_stored)
                 demo_agent_store
     = Some (self', w') /\
     status self' = open /\
     notifications w' = notifications demo_agent_store ++ [n] /\
     recipient n = demo_agent /\ notification_type n = n_ticket_assigned).
Proof.
  split; [reflexivity|]. split; [reflexivity|]. split; [reflexivity|].
  split.
  - eexists _, _, _, _. repeat split; vm_compute; reflexivity.
  - eexists _, _, _. repeat split; vm_compute; reflexivity.
Qed.

(** C5, as the code has it.  An update (a save of a ticket whose key
    names a stored row) whose status differs from the stored status
    appends exactly one history record tagged [status_changed], carrying
    the stored status as old value and the new status as new value, and
    exactly one [status_changed] notification, addressed to the ticket's
    creator; an update with the same status appends neither of the two.
    The other blocks of the change log may append records of their own
    in the same update and may notify the creator for their own reasons;
    when the assignee, the priority and the escalation flag are as
    stored, the status record and the status notification are all that
    the update appends. *)
Theorem status_change_logged
    (uf : bool) (self original : Ticket) (w : World) (id : positive) :
  pk self = Some id -> find_ticket id (tickets w) = Some original ->
  PyStr.truthy (ticket_number self) = true ->
  exists self' w' hs ns,
    Ticket_save uf self w = Some (self', w') /\
    history w' = history w ++ hs /\
    notifications w' = notifications w ++ ns /\
    (status self <> status original ->
     exists h n,
       filter (is_action h_status_changed) hs = [h] /\
       h_ticket h = Some id /\
       old_value h = Some (status_value (status original)) /\
       new_value h = Some (status_value (status self)) /\
       filter (is_notice n_status_changed) ns = [n] /\
       recipient n = created_by self /\ n_ticket n = Some id) /\
    (status self = status original ->
     filter (is_action h_status_changed) hs = [] /\
     filter (is_notice n_status_changed) ns = []) /\
    (opt_user_eqb (assigned_to self) (assigned_to original) = true ->
     priority self = priority original ->
     is_escalated self = is_escalated original ->
     hs = filter (is_action h_status_changed) hs /\
     ns = filter (is_notice n_status_changed) ns).
Proof.
  intros Hpk Hfind Hnum.
  destruct (save_fuel_update 1 uf self w Hpk Hfind Hnum)
    as (s1 & k & hs1 & ns1 & hs2 & ns2 & hs3 & hs4 & ns4
        & _ & E & Cs & Us & _ & _ & L1 & L2 & L3 & L4).
  exists s1. eexists. exists (hs1 ++ hs2 ++ hs3 ++ hs4), (ns1 ++ ns2 ++ ns4).
  split; [exact E|].
  destruct (ticks_fields k w) as (_ & _ & _ & _ & _ & Hh & Hn).
  split; [simpl; now rewrite Hh|]. split; [simpl; now rewrite Hn|].
  destruct Cs as (Epk & _ & _ & _ & _ & Est & Ecr & Eas).
  destruct Us as (Epr & Eesc & _ & _).
  destruct L1 as (F1 & G1 & Ch1 & Sm1).
  destruct L2 as (F2 & G2 & _ & Sm2).
  destruct L3 as (F3 & Sm3).
  destruct L4 as (F4 & G4 & Sm4).
  assert (Fh : filter (is_action h_status_changed) (hs1 ++ hs2 ++ hs3 ++ hs4)
               = hs1).
  { rewrite !filter_app.
    rewrite (filter_all (is_action h_status_changed) (l := hs1)).
    2:{ eapply Forall_impl; [|exact F1]. intros h Hh'. unfold is_action.
        now rewrite Hh'. }
    rewrite (filter_none (is_action h_status_changed) (l := hs2))
      by (apply Forall_assign_not; [discriminate | discriminate | exact F2]).
    rewrite (filter_none (is_action h_status_changed) (l := hs3))
      by (eapply Forall_is_action; [|exact F3]; discriminate).
    rewrite (filter_none (is_action h_status_changed) (l := hs4))
      by (eapply Forall_is_action; [|exact F4]; discriminate).
    now rewrite !app_nil_r. }
  assert (Fn : filter (is_notice n_status_changed) (ns1 ++ ns2 ++ ns4) = ns1).
  { rewrite !filter_app.
    rewrite (filter_all (is_notice n_status_changed) (l := ns1)).
    2:{ eapply Forall_impl; [|exact G1]. intros n Hn'. unfold is_notice.
        now rewrite Hn'. }
    rewrite (filter_none (is_notice n_status_changed) (l := ns2))
      by (eapply Forall_is_notice; [|exact G2]; discriminate).
    rewrite (filter_none (is_notice n_status_changed) (l := ns4))
      by (eapply Forall_is_notice; [|exact G4]; discriminate).
    now rewrite !app_nil_r. }
  rewrite Fh, Fn. rewrite <- Est, <- Epk, <- Ecr in *.
  split.
  - intros Hs. destruct (Ch1 Hs) as (h & n & -> & -> & P).
    exists h, n. rewrite Hpk in P. tauto.
  - split; [exact Sm1|].
    intros Ha Hp He.
    rewrite <- Eas in Sm2. rewrite <- Epr in Sm3. rewrite <- Eesc in Sm4.
    destruct (Sm2 (or_intror Ha)) as [-> ->]. rewrite (Sm3 Hp).
    destruct (Sm4 He) as [-> ->]. now rewrite !app_nil_r.
Qed.

(** Resolving the stored open ticket: one [status_changed] record from
    open to resolved, one notification to the client who created it,
    and nothing else. *)
Lemma status_change_logged_witness :
  exists self' w' hs ns,
    Ticket_save false (set_status resolved demo_stored) demo_store
    = Some (self', w') /\
    history w' = history demo_store ++ hs /\
    notifications w' = notifications demo_store ++ ns /\
    (exists h n,
       filter (is_action h_status_changed) hs = [h] /\
       h_ticket h = Some 1%positive /\
       old_value h = Some "open" /\ new_value h = Some "resolved" /\
       filter (is_notice n_status_changed) ns = [n] /\
       recipient n = demo_client /\ n_ticket n = Some 1%positive) /\
    hs = filter (is_action h_status_changed) hs /\
    ns = filter (is_notice n_status_changed) ns.
Proof.
  destruct (@status_change_logged
              false (set_status resolved demo_stored) demo_stored demo_store
              1%positive eq_refl eq_refl eq_refl)
    as (self' & w' & hs & ns & E & Hh & Hn & Hc & _ & Ho).
  exists self', w', hs, ns.
  split; [exact E|]. split; [exact Hh|]. split; [exact Hn|].
  split; [apply Hc; discriminate|].
  apply Ho; reflexivity.
Defined.

(** An update that reassigns the stored ticket from the first agent to
    the second and resolves it appends two history records and also
    notifies the client who created it; an update that clears the
    assignee and resolves the ticket still appends a history record and
    a notification. *)
Lemma assignment_change_with_status_change :
  find_ticket 1 (tickets demo_store_assigned)
  = Some (set_assigned_to (Some demo_agent) demo_stored) /\
  (exists self' w' h1 h2 n1 n2,
     Ticket_save false
       (set_status resolved (set_assigned_to (Some demo_agent2) demo_stored))
       demo_store_assigned
     = Some (self', w') /\
     assigned_to self' = Some demo_agent2 /\
     history w' = history demo_store_assigned ++ [h1; h2] /\
     action_type h1 = h_status_changed /\ action_type h2 = h_reassigned /\
     notifications w' = notifications demo_store_assigned ++ [n1; n2] /\
     recipient n1 = demo_client /\ recipient n2 = demo_agent2) /\
  (exists self' w' h n,
     Ticket_save false
       (set_status resolved (set_assigned_to None demo_stored))
       demo_store_assigned
     = Some (self', w') /\
     assigned_to self' = None /\
     history w' = history demo_store_assigned ++ [h] /\
     action_type h = h_status_changed /\
     notifications w' = notifications demo_store_assigned ++ [n] /\
     recipient n = demo_client).
Proof.
  split; [reflexivity|]. split.
  - eexists _, _, _, _, _, _. repeat split; vm_compute; reflexivity.
  - eexists _, _, _, _. repeat split; vm_compute; reflexivity.
Qed.

(** C6, as the code has it.  An update whose assignee differs from the
    stored assignee and is not null appends exactly one assignment
    record to the history, tagged [assigned] when the stored assignee
    was null and [reassigned] otherwise, and exactly one
    [ticket_assigned] notification, addressed to the new assignee.  An
    update that clears the assignee (or leaves it as stored) appends no
    assignment record and no [ticket_assigned] notification.  The other
    blocks of the change log may append records and notifications of
    their own in the same update; when the status, the priority and the
    escalation flag are as stored, the assignment record and the
    assignment notification are all that the update appends. *)
Theorem assignment_change_logged
    (uf : bool) (self original : Ticket) (w : World) (id : positive) :
  pk self = Some id -> find_ticket id (tickets w) = Some original ->
  PyStr.truthy (ticket_number self) = true ->
  exists self' w' hs ns,
    Ticket_save uf self w = Some (self', w') /\
    history w' = history w ++ hs /\
    notifications w' = notifications w ++ ns /\
    let assign_hs :=
      filter (fun h => is_action h_assigned h || is_action h_reassigned h) hs in
    let assign_ns := filter (is_notice n_ticket_assigned) ns in
    (forall assignee,
       assigned_to self = Some assignee ->
       opt_user_eqb (assigned_to self) (assigned_to original) = false ->
       exists h n,
         assign_hs = [h] /\
         h_ticket h = Some id /\
         action_type h
         = (if is_some (assigned_to original) then h_reassigned
            else h_assigned) /\
         assign_ns = [n] /\ recipient n = assignee /\ n_ticket n = Some id) /\
    (assigned_to self = None \/
     opt_user_eqb (assigned_to self) (assigned_to original) = true ->
     assign_hs = [] /\ assign_ns = []) /\
    (status self = status original ->
     priority self = priority original ->
     is_escalated self = is_escalated original ->
     hs = assign_hs /\ ns = assign_ns).
Proof.
  intros Hpk Hfind Hnum.
  destruct (save_fuel_update 1 uf self w Hpk Hfind Hnum)
    as (s1 & k & hs1 & ns1 & hs2 & ns2 & hs3 & hs4 & ns4
        & _ & E & Cs & Us & _ & _ & L1 & L2 & L3 & L4).
  exists s1. eexists. exists (hs1 ++ hs2 ++ hs3 ++ hs4), (ns1 ++ ns2 ++ ns4).
  split; [exact E|].
  destruct (ticks_fields k w) as (_ & _ & _ & _ & _ & Hh & Hn).
  split; [simpl; now rewrite Hh|]. split; [simpl; now rewrite Hn|].
  destruct Cs as (Epk & _ & _ & _ & _ & Est & Ecr & Eas).
  destruct Us as (Epr & Eesc & _ & _).
  destruct L1 as (F1 & G1 & _ & Sm1).
  destruct L2 as (F2 & G2 & Ch2 & Sm2).
  destruct L3 as (F3 & Sm3).
  destruct L4 as (F4 & G4 & Sm4).
  set (sel := fun h => is_action h_assigned h || is_action h_reassigned h).
  assert (Hsel : forall ty l, ty <> h_assigned -> ty <> h_reassigned ->
                   Forall (fun h => action_type h = ty) l ->
                   filter sel l = []).
  { intros ty l N1 N2 Fl. apply filter_none.
    eapply Forall_impl; [|exact Fl]. intros h Hh'. unfold sel, is_action.
    rewrite Hh'. destruct ty; try reflexivity; congruence. }
  assert (Fh : filter sel (hs1 ++ hs2 ++ hs3 ++ hs4) = hs2).
  { rewrite !filter_app.
    rewrite (Hsel h_status_changed hs1) by (discriminate || exact F1).
    rewrite (Hsel h_priority_changed hs3) by (discriminate || exact F3).
    rewrite (Hsel h_escalated hs4) by (discriminate || exact F4).
    rewrite (filter_all sel (l := hs2)); [now rewrite !app_nil_r|].
    eapply Forall_impl; [|exact F2]. intros h [Hh'|Hh']; unfold sel, is_action;
      rewrite Hh'; reflexivity. }
  assert (Fn : filter (is_notice n_ticket_assigned) (ns1 ++ ns2 ++ ns4) = ns2).
  { rewrite !filter_app.
    rewrite (filter_all (is_notice n_ticket_assigned) (l := ns2)).
    2:{ eapply Forall_impl; [|exact G2]. intros n Hn'. unfold is_notice.
        now rewrite Hn'. }
    rewrite (filter_none (is_notice n_ticket_assigned) (l := ns1))
      by (eapply Forall_is_notice; [|exact G1]; discriminate).
    rewrite (filter_none (is_notice n_ticket_assigned) (l := ns4))
      by (eapply Forall_is_notice; [|exact G4]; discriminate).
    now rewrite !app_nil_r. }
  cbv zeta. fold sel. rewrite Fh, Fn. rewrite <- Eas, <- Epk in *.
  split.
  - intros assignee Ha Hd. destruct (Ch2 assignee Ha Hd) as (h & n & -> & -> & P).
    exists h, n. rewrite Hpk in P. tauto.
  - split; [exact Sm2|].
    intros Hs Hp He.
    rewrite <- Est in Sm1. rewrite <- Epr in Sm3. rewrite <- Eesc in Sm4.
    destruct (Sm1 Hs) as [-> ->]. rewrite (Sm3 Hp).
    destruct (Sm4 He) as [-> ->]. now rewrite !app_nil_r.
Qed.

(** Reassigning the stored ticket from the first agent to the second:
    one [reassigned] record, one notification to the second agent, and
    nothing else. *)
Lemma assignment_change_logged_witness :
  exists self' w' hs ns,
    Ticket_save false (set_assigned_to (Some demo_agent2) demo_stored)
                demo_store_assigned
    = Some (self', w') /\
    history w' = history demo_store_assigned ++ hs /\
    notifications w' = notifications demo_store_assigned ++ ns /\
    (exists h n,
       hs = [h] /\ action_type h = h_reassigned /\
       ns = [n] /\ recipient n = demo_agent2).
Proof.
  destruct (@assignment_change_logged
              false (set_assigned_to (Some demo_agent2) demo_stored)
              (set_assigned_to (Some demo_agent) demo_stored)
              demo_store_assigned 1%positive eq_refl eq_refl eq_refl)
    as (self' & w' & hs & ns & E & Hh & Hn & Hc & _ & Ho).
  exists self', w', hs, ns.
  split; [exact E|]. split; [exact Hh|]. split; [exact Hn|].
  cbv zeta in Hc, Ho.
  destruct (Hc demo_agent2 eq_refl eq_refl) as (h & n & Eh & _ & Ht & En & Hr & _).
  destruct (Ho eq_refl eq_refl eq_refl) as [Hhs Hns].
  exists h, n. rewrite Hhs, Hns. auto.
Defined.

(** ** Auto-prioritization at creation *)

Lemma prepare_save_new self w s1 w1 :
  pk self = None -> prepare_save self w = Some (s1, w1) ->
  exists a wa b wb,
    assign_number self w = Some (a, wa) /\
    check_trigger_rules (auto_prioritize a) wa = Some (b, wb) /\
    stamp_times b wb = Some (s1, w1).
Proof.
  unfold prepare_save. intros Hpk H.
  apply bind_Some in H. destruct H as (a & wa & Ha & H).
  apply bind_Some in H. destruct H as (b & wb & Hb & H).
  exists a, wa, b, wb. split; [exact Ha|]. split; [|exact H].
  destruct (assign_number_frame _ _ Ha) as ((Epk & _) & _).
  unfold prioritize_new in Hb. rewrite <- Epk, Hpk in Hb. exact Hb.
Qed.

Lemma auto_prioritize_congr a b :
  subject a = subject b -> description a = description b ->
  priority a = priority b ->
  priority (auto_prioritize a) = priority (auto_prioritize b).
Proof.
  intros Hs Hd Hp. unfold auto_prioritize, ticket_text. rewrite Hs, Hd.
  cbv zeta.
  destruct (any_in critical_keywords _); [reflexivity|].
  destruct (any_in high_keywords _); [reflexivity | exact Hp].
Qed.

Lemma stamp_times_urgency self w s' w' :
  stamp_times self w = Some (s', w') -> same_urgency self s'.
Proof.
  intros H. destruct (stamp_times_frame self w) as (s & k & E & _ & U & _).
  rewrite E in H. now injection H as <- _.
Qed.

(** A supplied priority of critical is lowered to high when the text
    holds a keyword of the high set and none of the critical set, by
    [auto_prioritize] and hence by the creating save. *)
Lemma auto_prioritize_lowers_critical :
  priority demo_urgent_critical = critical /\
  existsb (fun kw => icontains kw "Urgent: invoice missing Please send it again")
          critical_keywords = false /\
  existsb (fun kw => icontains kw "Urgent: invoice missing Please send it again")
          high_keywords = true /\
  priority (auto_prioritize demo_urgent_critical) = high /\
  rank (priority (auto_prioritize demo_urgent_critical))
  < rank (priority demo_urgent_critical) /\
  exists self' w',
    Ticket_save false demo_urgent_critical demo_world = Some (self', w') /\
    priority self' = high.
Proof.
  split; [reflexivity|]. split; [vm_compute; reflexivity|].
  split; [vm_compute; reflexivity|]. split; [vm_compute; reflexivity|].
  split; [change (rank high < rank critical); simpl; lia|].
  eexists _, _. split; vm_compute; reflexivity.
Qed.

(** C1, as the code has it.  [auto_prioritize] sets the priority to
    critical when a keyword of the fixed critical set occurs as a
    case-insensitive substring of [subject + " " + description], else to
    high when a keyword of the fixed high set occurs, else it leaves the
    ticket untouched.  The priority is never lowered except in one case:
    a supplied critical whose text matches the high set only becomes
    high.  The step is not run by a save of a ticket that has a key, and
    it is run by a creating save: with no active trigger rule the created
    ticket has exactly the priority [auto_prioritize] computes. *)
Theorem auto_prioritize_sets_priority (self : Ticket) :
  let text := (subject self ++ " " ++ description self)%string in
  let crit := existsb (fun kw => icontains kw text) critical_keywords in
  let hi := existsb (fun kw => icontains kw text) high_keywords in
  priority (auto_prioritize self)
  = (if crit then critical else if hi then high else priority self) /\
  (crit = false -> hi = false -> auto_prioritize self = self) /\
  (rank (priority self) <= rank (priority (auto_prioritize self)) \/
   (priority self = critical /\ crit = false /\ hi = true /\
    priority (auto_prioritize self) = high)) /\
  (forall uf w self' w',
     is_some (pk self) = true ->
     Ticket_save uf self w = Some (self', w') ->
     priority self' = priority self) /\
  (forall w self' w',
     pk self = None -> filter is_active (rules w) = [] ->
     Ticket_save false self w = Some (self', w') ->
     priority self' = priority (auto_prioritize self)).
Proof.
  cbv zeta.
  destruct (any_in_fixed_icontains self) as [<- <-].
  destruct (auto_prioritize_cases self) as (Hc & Hh & Hn). cbv zeta in *.
  destruct (any_in critical_keywords (ticket_text self)) eqn:Ec;
    [|destruct (any_in high_keywords (ticket_text self)) eqn:Eh].
  1: rewrite (Hc eq_refl). 2: rewrite (Hh eq_refl eq_refl).
  3: rewrite (Hn eq_refl eq_refl).
  all: split; [reflexivity|]; split; [try discriminate; auto|]; split.
  1,3,5: destruct (priority self) eqn:Ep; simpl; rewrite ?Ep; simpl;
    try (left; lia); right; auto.
  all: split.
  1,3,5: intros uf w self' w' Hpk H;
    apply Ticket_save_instance in H; destruct H as (s1 & w1 & Hp & Hs);
    destruct (prepare_save_frame _ _ Hp) as (_ & _ & _ & Hu & _);
    destruct (Hu Hpk) as (E1 & _);
    destruct (same_bka_fields Hs) as (_ & _ & _ & _ & _ & _ & _ & _ & _ & E2 & _);
    congruence.
  all: intros w self' w' Hpk Hnr H;
    apply Ticket_save_instance in H; destruct H as (s1 & w1 & Hp & Hs);
    destruct (same_bka_fields Hs)
      as (_ & _ & _ & _ & _ & _ & _ & _ & _ & E2 & _);
    destruct (prepare_save_new _ _ Hpk Hp) as (a & wa & b & wb & Ha & Hb & Ht);
    destruct (assign_number_frame _ _ Ha)
      as ((_ & Sa & Da & _) & (Pa & _) & _ & _ & _ & _ & ka & ->);
    destruct (ticks_fields ka w) as (_ & _ & _ & _ & Hr & _);
    unfold check_trigger_rules, get_world in Hb;
    erewrite bind_eq in Hb by reflexivity;
    rewrite Hr, Hnr in Hb; simpl in Hb; injection Hb as <- <-;
    destruct (stamp_times_urgency _ _ Ht) as (E1 & _);
    rewrite <- E2, <- E1;
    rewrite (auto_prioritize_congr a self) by congruence.
  - now rewrite (Hc eq_refl).
  - now rewrite (Hh eq_refl eq_refl).
  - now rewrite (Hn eq_refl eq_refl).
Qed.

(** ** Trigger rules *)

Lemma existsb_map {A B} (f : B -> bool) (h : A -> B) l :
  existsb f (map h l) = existsb (fun x => f (h x)) l.
Proof.
  induction l as [|x l IH]; [reflexivity|].
  cbn [map existsb]. now rewrite IH.
Qed.

Lemma any_in_rule_matches rule self :
  any_in (get_keyword_list rule) (ticket_text self)
  = rule_matches rule (subject self ++ " " ++ description self).
Proof.
  unfold any_in, get_keyword_list, rule_matches, ticket_text.
  apply existsb_map.
Qed.

Lemma filter_filter {A} (p q : A -> bool) l :
  filter p (filter q l) = filter (fun x => q x && p x) l.
Proof.
  induction l as [|x l IH]; simpl; [reflexivity|].
  destruct (q x); simpl; [destruct (p x)|]; now rewrite IH.
Qed.

Lemma apply_rule_cases self0 self rule w :
  apply_rule (ticket_text self0) self rule w
  = if rule_matches rule (subject self0 ++ " " ++ description self0)
    then match action rule with
         | act_escalate => escalate None self w
         | act_priority_high => Some (set_priority high self, w)
         | act_priority_critical => Some (set_priority critical self, w)
         | act_notify => Some (self, w)
         end
    else Some (self, w).
Proof.
  unfold apply_rule. rewrite any_in_rule_matches.
  destruct (rule_matches _ _); [destruct (action rule)|]; reflexivity.
Qed.

Lemma same_but_priority_refl t : same_but_priority t t.
Proof. unfold same_but_priority, same_core. tauto. Qed.

(** What one matching rule does to a ticket, field by field. *)
Lemma apply_rule_effect text t rule w0 t1 w1 :
  apply_rule text t rule w0 = Some (t1, w1) ->
  (any_in (get_keyword_list rule) text = false -> t1 = t /\ w1 = w0) /\
  (any_in (get_keyword_list rule) text = true ->
   match action rule with
   | act_priority_high =>
       priority t1 = high /\ same_but_priority t t1 /\ w1 = w0
   | act_priority_critical =>
       priority t1 = critical /\ same_but_priority t t1 /\ w1 = w0
   | act_notify => t1 = t /\ w1 = w0
   | act_escalate =>
       is_escalated t1 = true /\
       (is_escalated t = true -> t1 = t /\ w1 = w0) /\
       (is_escalated t = false ->
        escalated_by t1 = None /\
        escalated_at t1 = Some (clock w0 (reads w0)) /\
        priority t1 = step_up (priority t) /\ w1 = tick w0)
   end).
Proof.
  unfold apply_rule. intros H.
  destruct (any_in (get_keyword_list rule) text).
  - split; [discriminate|]. intros _.
    destruct (action rule).
    + destruct (is_escalated t) eqn:Ei.
      * rewrite escalate_escalated in H by exact Ei. injection H as <- <-.
        split; [exact Ei|]. split; [auto | discriminate].
      * rewrite escalate_fresh in H by exact Ei. injection H as <- <-.
        split; [|split; [discriminate|]].
        -- unfold bump_priority.
           destruct (priority (set_escalation _ _ _ t)); reflexivity.
        -- intros _. unfold bump_priority. cbn [priority set_escalation].
           destruct (priority t) eqn:Ep; cbn; rewrite ?Ep; auto.
    + injection H as <- <-. auto.
    + injection H as <- <-.
      split; [reflexivity|]. split; [|reflexivity].
      unfold same_but_priority, same_core. cbn. tauto.
    + injection H as <- <-.
      split; [reflexivity|]. split; [|reflexivity].
      unfold same_but_priority, same_core. cbn. tauto.
  - injection H as <- <-. split; [auto | discriminate].
Qed.

(** The priority and the escalation flag after the loop, read off the
    last rule applied that is not a [notify] rule. *)
Lemma fold_rules_last text pre r post t w t' w' :
  Forall (fun q => any_in (get_keyword_list q) text = true) (pre ++ r :: post) ->
  Forall (fun q => action q = act_notify) post ->
  foldM (apply_rule text) (pre ++ r :: post) t w = Some (t', w') ->
  (action r = act_priority_high -> priority t' = high) /\
  (action r = act_priority_critical -> priority t' = critical) /\
  (action r = act_escalate -> is_escalated t' = true).
Proof.
  revert t w. induction pre as [|p pre IH]; intros t w Hm Hn H.
  - cbn [app foldM] in H. apply bind_Some in H.
    destruct H as (t1 & w1 & Hr & Hp).
    assert (Hpost : t' = t1).
    { clear - Hm Hn Hp. inversion Hm as [|? ? _ Hm']. subst. clear Hm.
      revert t1 w1 Hp. induction post as [|q post IHp]; intros t1 w1 Hp.
      - cbn in Hp. now injection Hp as <- _.
      - cbn [foldM] in Hp. apply bind_Some in Hp.
        destruct Hp as (t2 & w2 & Hq & Hp).
        inversion Hm' as [|? ? Hq1 Hm'']. inversion Hn as [|? ? Hq2 Hn'].
        subst. destruct (apply_rule_effect _ _ _ _ Hq) as (_ & E).
        specialize (E Hq1). rewrite Hq2 in E. destruct E as [-> ->].
        exact (IHp Hn' Hm'' _ _ Hp). }
    subst t'. inversion Hm as [|? ? Hr1 _]. subst.
    destruct (apply_rule_effect _ _ _ _ Hr) as (_ & E). specialize (E Hr1).
    split; [|split]; intros Ha; rewrite Ha in E; tauto.
  - cbn [app foldM] in H. apply bind_Some in H.
    destruct H as (t1 & w1 & _ & Hp).
    inversion Hm. subst. eapply IH; eauto.
Qed.

(** Rules without a matching keyword do nothing: the loop may skip
    them. *)
Lemma fold_rules_matching text l t w :
  foldM (apply_rule text) l t w
  = foldM (apply_rule text)
          (filter (fun rule => any_in (get_keyword_list rule) text) l) t w.
Proof.
  revert t w. induction l as [|r l IH]; intros t w; [reflexivity|].
  cbn [foldM filter].
  destruct (any_in (get_keyword_list r) text) eqn:Em.
  - cbn [foldM]. apply bind_ext. intros a w1 _. apply IH.
  - unfold bind at 1. unfold apply_rule. rewrite Em. unfold ret. apply IH.
Qed.

Lemma check_trigger_rules_applied self w :
  check_trigger_rules self w
  = foldM (apply_rule (ticket_text self))
          (filter (fun rule =>
                     is_active rule
                     && rule_matches rule
                          (subject self ++ " " ++ description self))
                  (rules w)) self w.
Proof.
  unfold check_trigger_rules, get_world. erewrite bind_eq by reflexivity.
  rewrite fold_rules_matching, filter_filter.
  f_equal. apply filter_ext_in. intros r _.
  now rewrite any_in_rule_matches.
Qed.

Lemma applied_rules_match self l :
  Forall (fun q => any_in (get_keyword_list q) (ticket_text self) = true)
         (filter (fun rule =>
                    is_active rule
                    && rule_matches rule
                         (subject self ++ " " ++ description self)) l).
Proof.
  apply Forall_forall. intros q Hq. apply filter_In in Hq.
  destruct Hq as [_ Hq]. apply andb_prop in Hq.
  rewrite any_in_rule_matches. tauto.
Qed.

(** C3.  [check_trigger_rules] applies, in the store's order, the action
    of exactly those rules that are active and have a keyword occurring
    as a case-insensitive substring of [subject + " " + description]; a
    rule without such a keyword changes nothing.  Applied to a ticket, a
    [priority_high] rule leaves it with priority high whatever the
    priority was, every other field and the world unchanged; a
    [priority_critical] rule leaves it with priority critical; an
    [escalate] rule leaves it escalated: untouched if it was escalated
    already, and otherwise escalated with no actor at the current clock
    reading, one step up the priority ladder; a [notify] rule changes
    nothing here.  Hence after the loop the priority is high (critical)
    when the last applied rule that is not a [notify] rule is a
    [priority_high] ([priority_critical]) rule, and the ticket is
    escalated when that rule is an [escalate] rule; with no applied rule
    the ticket is returned as it is.  A save of a ticket that has a key
    leaves the priority and the escalation fields alone; a creating save
    returns the ticket with the priority and escalation fields that the
    rules produce from the auto-prioritized ticket. *)
Theorem trigger_rules_applied (self : Ticket) (w : World) :
  let text := (subject self ++ " " ++ description self)%string in
  let applied :=
    filter (fun rule => is_active rule && rule_matches rule text) (rules w) in
  check_trigger_rules self w
  = foldM (fun t rule =>
             match action rule with
             | act_escalate => escalate None t
             | act_priority_high => ret (set_priority high t)
             | act_priority_critical => ret (set_priority critical t)
             | act_notify => ret t
             end)
          applied self w /\
  (forall t w0 rule,
     rule_matches rule text = false ->
     apply_rule (ticket_text self) t rule w0 = Some (t, w0)) /\
  (forall t w0 rule t1 w1,
     rule_matches rule text = true ->
     apply_rule (ticket_text self) t rule w0 = Some (t1, w1) ->
     match action rule with
     | act_priority_high =>
         priority t1 = high /\ same_but_priority t t1 /\ w1 = w0
     | act_priority_critical =>
         priority t1 = critical /\ same_but_priority t t1 /\ w1 = w0
     | act_notify => t1 = t /\ w1 = w0
     | act_escalate =>
         is_escalated t1 = true /\
         (is_escalated t = true -> t1 = t /\ w1 = w0) /\
         (is_escalated t = false ->
          escalated_by t1 = None /\
          escalated_at t1 = Some (clock w0 (reads w0)) /\
          priority t1 = step_up (priority t) /\ w1 = tick w0)
     end) /\
  (applied = [] -> check_trigger_rules self w = Some (self, w)) /\
  (forall pre r post self' w',
     applied = pre ++ r :: post ->
     Forall (fun q => action q = act_notify) post ->
     check_trigger_rules self w = Some (self', w') ->
     (action r = act_priority_high -> priority self' = high) /\
     (action r = act_priority_critical -> priority self' = critical) /\
     (action r = act_escalate -> is_escalated self' = true)) /\
  (forall uf self' w',
     is_some (pk self) = true ->
     Ticket_save uf self w = Some (self', w') ->
     same_urgency self self') /\
  (forall self' w',
     pk self = None ->
     Ticket_save false self w = Some (self', w') ->
     (exists a wa b wb,
        assign_number self w = Some (a, wa) /\
        check_trigger_rules (auto_prioritize a) wa = Some (b, wb) /\
        same_urgency b self') /\
     (forall pre r post,
        applied = pre ++ r :: post ->
        Forall (fun q => action q = act_notify) post ->
        (action r = act_priority_high -> priority self' = high) /\
        (action r = act_priority_critical -> priority self' = critical) /\
        (action r = act_escalate -> is_escalated self' = true))).
Proof.
  cbv zeta. split; [|split; [|split; [|split; [|split; [|split]]]]].
  - unfold check_trigger_rules, get_world. erewrite bind_eq by reflexivity.
    rewrite <- filter_filter.
    generalize (filter is_active (rules w)) as l.
    generalize self at 2 5 as t.
    intros t l. revert t w. intros t w0. revert t w0.
    induction l as [|r l IH]; intros t w0; [reflexivity|].
    cbn [foldM filter]. unfold bind at 1. rewrite apply_rule_cases.
    destruct (rule_matches r _).
    + cbn [foldM]. unfold bind.
      destruct (action r); unfold ret;
        try (destruct (escalate None t w0) as [[t1 w1]|]; [|reflexivity]);
        apply IH.
    + apply IH.
  - intros t w0 rule Hm. unfold apply_rule.
    now rewrite any_in_rule_matches, Hm.
  - intros t w0 rule t1 w1 Hm H.
    destruct (apply_rule_effect _ _ _ _ H) as (_ & E).
    apply E. now rewrite any_in_rule_matches.
  - intros Hnil. rewrite check_trigger_rules_applied, Hnil. reflexivity.
  - intros pre r post self' w' Hl Hn H.
    rewrite check_trigger_rules_applied, Hl in H.
    eapply fold_rules_last; [|exact Hn|exact H].
    rewrite <- Hl. apply applied_rules_match.
  - intros uf self' w' Hpk H.
    apply Ticket_save_instance in H. destruct H as (s1 & w1 & Hp & Hs).
    destruct (prepare_save_frame _ _ Hp) as (_ & _ & _ & Hu & _).
    destruct (same_bka_fields Hs) as (_ & _ & _ & _ & _ & _ & _ & _ & _ & U).
    eauto using same_urgency_trans.
  - intros self' w' Hpk H.
    apply Ticket_save_instance in H. destruct H as (s1 & w1 & Hp & Hs).
    destruct (prepare_save_new _ _ Hpk Hp) as (a & wa & b & wb & Ha & Hb & Ht).
    destruct (same_bka_fields Hs) as (_ & _ & _ & _ & _ & _ & _ & _ & _ & U).
    assert (Ub : same_urgency b self')
      by eauto using same_urgency_trans, stamp_times_urgency.
    split; [exists a, wa, b, wb; auto|].
    intros pre r post Hl Hn.
    destruct (@assign_number_frame _ _ _ _ Ha)
      as ((_ & Esu & Ede & _) & _ & _ & _ & _ & _ & k & ->).
    destruct (auto_prioritize_frame a) as ((_ & Esu' & Ede' & _) & _).
    destruct (ticks_fields k w) as (_ & _ & _ & _ & Hr & _).
    rewrite check_trigger_rules_applied in Hb.
    rewrite Hr, <- Esu', <- Ede', <- Esu, <- Ede, Hl in Hb.
    assert (Hm : Forall (fun q => any_in (get_keyword_list q)
                                         (ticket_text (auto_prioritize a)) = true)
                        (pre ++ r :: post)).
    { rewrite <- Hl.
      replace (ticket_text (auto_prioritize a)) with (ticket_text self)
        by (unfold ticket_text; now rewrite <- Esu', <- Ede', <- Esu, <- Ede).
      apply applied_rules_match. }
    destruct (@fold_rules_last _ _ _ _ _ _ _ _ Hm Hn Hb) as (F1 & F2 & F3).
    destruct Ub as (Epr & Eesc & _).
    rewrite <- Epr, <- Eesc. auto.
Qed.

(** In the store with an inactive escalation rule and an active
    [priority_high] rule, both matching "outage", the ticket supplied as
    critical leaves the rules as high and not escalated. *)
Lemma trigger_rules_applied_witness :
  exists self' w',
    check_trigger_rules demo_outage_critical demo_ruled_world
    = Some (self', w') /\
    priority demo_outage_critical = critical /\
    priority self' = high /\ is_escalated self' = false.
Proof.
  destruct (check_trigger_rules demo_outage_critical demo_ruled_world)
    as [[t w1]|] eqn:E; [|vm_compute in E; discriminate].
  exists t, w1. split; [reflexivity|]. split; [reflexivity|].
  destruct (trigger_rules_applied demo_outage_critical demo_ruled_world)
    as (_ & _ & _ & _ & H & _).
  cbv zeta in H.
  destruct (H [] demo_rule_high [] t w1 eq_refl (Forall_nil _) E)
    as (Hh & _).
  split; [exact (Hh eq_refl)|].
  vm_compute in E. injection E as <- _. reflexivity.
Defined.

(** ** Auto-assignment at creation *)

Lemma auto_assign_ticket_assigns fuel s2 l i c w :
  tickets w = l ++ [s2] -> existsb (has_pk i) l = false ->
  pk s2 = Some i -> PyStr.truthy (ticket_number s2) = true ->
  stamps_done s2 ->
  assigned_to s2 = None -> category s2 = Some c ->
  filter is_agent (users w) <> [] ->
  exists best h n,
    auto_assign_ticket (save_fuel (S fuel) true) s2 w
    = Some (set_assigned_to (Some best) s2,
            emit [h] [n]
                 (set_tickets (l ++ [set_assigned_to (Some best) s2]) w)) /\
    In best (filter is_agent (users w)) /\
    (forall a, In a (filter is_agent (users w)) ->
               open_tickets best w <= open_tickets a w) /\
    h_ticket h = Some i /\ action_type h = h_assigned /\ actor h = None /\
    old_value h = None /\ new_value h = Some (user_str best) /\
    recipient n = best /\ notification_type n = n_ticket_assigned /\
    n_ticket n = Some i.
Proof.
  intros Ht Hl Hpk Hnum Hd Hna Hcat Hag.
  destruct (@least_loaded_min w _ Hag) as (best & El & Hin & Hmin).
  destruct (@save_assignment fuel s2 best l i w Ht Hl Hpk Hnum Hd Hna)
    as (h & n & E & P).
  exists best, h, n. split; [|tauto].
  unfold auto_assign_ticket. rewrite Hna, Hcat. simpl.
  unfold get_world. erewrite bind_eq by reflexivity.
  destruct (filter is_agent (users w)) as [|x xs] eqn:Ef; [congruence|].
  rewrite El. simpl. exact E.
Qed.

Lemma escalate_total by_ self w :
  exists s' k, escalate by_ self w = Some (s', ticks k w).
Proof.
  unfold escalate. destruct (is_escalated self); simpl.
  - now exists self, 0.
  - eexists _, 1. reflexivity.
Qed.

Lemma check_trigger_rules_total self w :
  exists s' k, check_trigger_rules self w = Some (s', ticks k w).
Proof.
  unfold check_trigger_rules, get_world. erewrite bind_eq by reflexivity.
  generalize (filter is_active (rules w)) as l.
  generalize (ticket_text self) as text. intros text l.
  change w with (ticks 0 w) at 1. generalize 0 as k0. revert self.
  induction l as [|r l IH]; intros self k0; simpl.
  - now exists self, k0.
  - assert (Hr : exists s1 k1, apply_rule text self r (ticks k0 w)
                               = Some (s1, ticks k1 w)).
    { unfold apply_rule. destruct (any_in _ _); [|now exists self, k0].
      destruct (action r); try (now eexists _, k0).
      destruct (escalate_total None self (ticks k0 w)) as (s1 & k & E).
      rewrite E, ticks_add. eauto. }
    destruct Hr as (s1 & k1 & E). erewrite bind_eq by exact E. apply IH.
Qed.

(** A creating save raises only if generating the number does. *)
Lemma prepare_save_total self w a wa :
  assign_number self w = Some (a, wa) ->
  exists s1 w1, prepare_save self w = Some (s1, w1).
Proof.
  intros Ha. unfold prepare_save. erewrite bind_eq by exact Ha.
  assert (Hb : exists b wb, prioritize_new a wa = Some (b, wb)).
  { unfold prioritize_new. destruct (negb (is_some (pk a))); [|eexists _, _; reflexivity].
    destruct (check_trigger_rules_total (auto_prioritize a) wa) as (b & k & E).
    eauto. }
  destruct Hb as (b & wb & Hb). erewrite bind_eq by exact Hb.
  destruct (stamp_times_frame b wb) as (s1 & k & E & _). eauto.
Qed.

Lemma Ticket_save_new_total self w s1 w1 :
  pk self = None -> prepare_save self w = Some (s1, w1) ->
  exists self' w', Ticket_save false self w = Some (self', w').
Proof.
  intros Hpk Hp.
  destruct (Ticket_save_create _ _ Hpk Hp) as (ns & _ & E). rewrite E.
  destruct (prepare_save_frame _ _ Hp) as (Cs & Hnum & _ & _ & Hd & k & ->).
  set (s2 := set_pk (Some (fresh_pk (tickets w))) s1).
  set (W := emit _ _ _).
  destruct (assigned_to s2) as [u|] eqn:Ea.
  { rewrite auto_assign_ticket_skips; [eauto | left; now rewrite Ea]. }
  destruct (category s2) as [c|] eqn:Ec.
  2:{ rewrite auto_assign_ticket_skips; [eauto | right; left; exact Ec]. }
  destruct (filter is_agent (users W)) as [|x xs] eqn:Eg.
  { rewrite auto_assign_ticket_skips; [eauto | right; right; exact Eg]. }
  destruct (@auto_assign_ticket_assigns 0 s2 (tickets w)
              (fresh_pk (tickets w)) c W)
    as (best & h & n & E' & _); try assumption; try reflexivity.
  - apply fresh_pk_unused.
  - rewrite Eg. discriminate.
  - rewrite E'. eauto.
Qed.

(** ** Ticket numbers *)

Lemma below_10000 n : n <= 9999 <-> n < 100 * 100.
Proof.
  change 9999 with (99 * 100 + 99). lia.
Qed.

(** Checked by evaluation on every number up to 9999: the padded form
    is the four digits, it holds no hyphen, and [int] reads it back. *)
Lemma small_numbers_checked :
  forallb (fun n =>
             let z := PyStr.zfill 4 n in
             String.eqb z (four_digits n)
             && match PyStr.int z with
                | Some m => m =? n
                | None => false
                end
             && no_sep "-" z)
          (seq 0 10000) = true.
Proof. vm_compute. reflexivity. Qed.

Lemma small_number n :
  n <= 9999 ->
  PyStr.zfill 4 n = four_digits n /\
  PyStr.int (PyStr.zfill 4 n) = Some n /\
  no_sep "-" (PyStr.zfill 4 n) = true.
Proof.
  intros Hn.
  pose proof (proj1 (forallb_forall _ _) small_numbers_checked n) as H.
  cbv zeta in H.
  assert (Hin : In n (seq 0 10000)).
  { apply in_seq. split; [lia|]. apply (proj2 (Nat.lt_succ_r n 9999) Hn). }
  specialize (H Hin). apply andb_true_iff in H. destruct H as [H H3].
  apply andb_true_iff in H. destruct H as [H1 H2].
  split; [now apply String.eqb_eq|]. split; [|exact H3].
  destruct (PyStr.int (PyStr.zfill 4 n)) as [m|]; [|discriminate].
  apply Nat.eqb_eq in H2. now subst.
Qed.

Lemma split_no_sep sep s : no_sep sep s = true -> PyStr.split sep s = [s].
Proof.
  induction s as [|c r IH]; simpl; [reflexivity|].
  intros H. apply andb_true_iff in H. destruct H as [Hc Hr].
  apply negb_true_iff in Hc. rewrite Hc, (IH Hr). reflexivity.
Qed.

Lemma split_app_sep sep a b :
  no_sep sep a = true ->
  PyStr.split sep (a ++ String sep b) = a :: PyStr.split sep b.
Proof.
  induction a as [|c r IH]; simpl.
  - intros _. now rewrite Ascii.eqb_refl.
  - intros H. apply andb_true_iff in H. destruct H as [Hc Hr].
    apply negb_true_iff in Hc. rewrite Hc, (IH Hr). reflexivity.
Qed.

Lemma digit_char_no_hyphen d :
  d < 10 -> Ascii.eqb (PyStr.digit_char d) "-" = false.
Proof.
  intros H. do 10 (destruct d as [|d]; [reflexivity|]). lia.
Qed.

Lemma mod_10_digit n : n mod 10 < 10.
Proof. apply Nat.mod_upper_bound. discriminate. Qed.

Lemma digits_of_no_hyphen fuel n acc :
  no_sep "-" acc = true -> no_sep "-" (PyStr.digits_of fuel n acc) = true.
Proof.
  revert n acc. induction fuel as [|fuel IH]; intros n acc Hacc.
  - cbn [PyStr.digits_of no_sep].
    rewrite (digit_char_no_hyphen (mod_10_digit n)). now rewrite Hacc.
  - cbn [PyStr.digits_of].
    assert (Hd : no_sep "-" (String (PyStr.digit_char (n mod 10)) acc) = true).
    { cbn [no_sep]. rewrite (digit_char_no_hyphen (mod_10_digit n)).
      now rewrite Hacc. }
    destruct (n / 10 =? 0); [exact Hd | now apply IH].
Qed.

Lemma str_nat_no_hyphen y : no_sep "-" (PyStr.str_nat y) = true.
Proof. unfold PyStr.str_nat. now apply digits_of_no_hyphen. Qed.

(** The third hyphen-separated field of a number of the generated form
    is its sequence part. *)
Lemma year_prefix_split y z :
  no_sep "-" z = true ->
  nth_error (PyStr.split "-" (year_prefix y ++ "-" ++ z)) 2 = Some z.
Proof.
  intros Hz. unfold year_prefix.
  change (("BRTS-" ++ PyStr.str_nat y) ++ "-" ++ z)%string
    with ("BRTS" ++ String "-" (PyStr.str_nat y ++ String "-" z))%string.
  rewrite split_app_sep by reflexivity.
  rewrite split_app_sep by apply str_nat_no_hyphen.
  rewrite split_no_sep by exact Hz. reflexivity.
Qed.

Lemma compare_app p a b :
  String.compare (p ++ a) (p ++ b) = String.compare a b.
Proof.
  induction p as [|c p IH]; simpl; [reflexivity|].
  unfold Ascii.compare. now rewrite N.compare_refl.
Qed.

Lemma digit_char_compare a b :
  a < 10 -> b < 10 ->
  Ascii.compare (PyStr.digit_char a) (PyStr.digit_char b) = Nat.compare a b.
Proof.
  intros Ha Hb.
  do 10 (destruct a as [|a]; [do 10 (destruct b as [|b]; [reflexivity|]); lia|]).
  lia.
Qed.

Lemma four_digits_compare n m :
  n <= 9999 -> m <= 9999 ->
  String.compare (four_digits n) (four_digits m) = Nat.compare n m.
Proof.
  rewrite !below_10000. intros Hn Hm. unfold four_digits.
  cbn [String.compare]. rewrite !digit_char_compare by lia.
  destruct (Nat.compare_spec (n / 1000) (m / 1000)) as [E3|L3|G3];
    [destruct (Nat.compare_spec (n / 100 mod 10) (m / 100 mod 10))
       as [E2|L2|G2];
     [destruct (Nat.compare_spec (n / 10 mod 10) (m / 10 mod 10))
        as [E1|L1|G1];
      [destruct (Nat.compare_spec (n mod 10) (m mod 10)) as [E0|L0|G0]| |]
     | |]
    | |];
    symmetry;
    first [ apply Nat.compare_eq_iff; lia
          | apply Nat.compare_lt_iff; lia
          | apply Nat.compare_gt_iff; lia ].
Qed.

Lemma numbered_ltb y n m :
  n <= 9999 -> m <= 9999 ->
  String.ltb (numbered y n) (numbered y m) = (n <? m).
Proof.
  intros Hn Hm. unfold String.ltb, numbered.
  rewrite compare_app.
  change ("-" ++ PyStr.zfill 4 n)%string with (String "-" (PyStr.zfill 4 n)).
  change ("-" ++ PyStr.zfill 4 m)%string with (String "-" (PyStr.zfill 4 m)).
  cbn [String.compare]. unfold Ascii.compare at 1. rewrite N.compare_refl.
  destruct (small_number Hn) as (-> & _). destruct (small_number Hm) as (-> & _).
  rewrite four_digits_compare by assumption.
  destruct (Nat.compare_spec n m) as [E|L|G];
    symmetry; [apply Nat.ltb_ge | apply Nat.ltb_lt | apply Nat.ltb_ge]; lia.
Qed.

Lemma max_seq_bound seqs :
  Forall (fun n => n <= 9999) seqs -> fold_right Nat.max 0 seqs <= 9999.
Proof.
  induction 1 as [|n l Hn _ IH]; simpl; [apply Nat.le_0_l|].
  now apply Nat.max_lub.
Qed.

(** Among numbers of the generated form of one year, the row with the
    greatest number in code-point order is the one with the greatest
    sequence number. *)
Lemma last_by_number_max y l seqs :
  map ticket_number l = map (numbered y) seqs ->
  Forall (fun n => n <= 9999) seqs ->
  match last_by_number l with
  | Some t => l <> [] /\
              ticket_number t = numbered y (fold_right Nat.max 0 seqs)
  | None => l = [] /\ seqs = []
  end.
Proof.
  revert seqs. induction l as [|t l IH]; intros [|n seqs] Hmap Hb;
    try discriminate; [now split|].
  simpl in Hmap. injection Hmap as Ht Hl. inversion Hb as [|? ? Hn Hb']; subst.
  specialize (IH seqs Hl Hb'). cbn [last_by_number fold_right].
  destruct (last_by_number l) as [m|].
  - destruct IH as [_ Hm]. rewrite Ht, Hm.
    rewrite numbered_ltb by (auto using max_seq_bound).
    destruct (Nat.ltb_spec n (fold_right Nat.max 0 seqs)) as [Hlt|Hge].
    + split; [discriminate|]. rewrite Hm. f_equal. lia.
    + split; [discriminate|]. rewrite Ht. f_equal. lia.
  - destruct IH as [_ ->]. split; [discriminate|]. rewrite Ht. simpl.
    f_equal. lia.
Qed.

(** In a store whose numbers of the year all have the generated form
    with sequence numbers up to 9999, the generated number is the one
    after the highest, or the first. *)
Lemma generate_ticket_number_next w seqs :
  let y := year (clock w (reads w)) in
  map ticket_number
      (filter (fun t => prefix (year_prefix y) (ticket_number t)) (tickets w))
  = map (numbered y) seqs ->
  Forall (fun n => n <= 9999) seqs ->
  generate_ticket_number w
  = Some (numbered y (S (fold_right Nat.max 0 seqs)), tick w).
Proof.
  cbv zeta. intros Hmap Hb. unfold generate_ticket_number.
  erewrite bind_eq by reflexivity.
  unfold get_world. erewrite bind_eq by reflexivity.
  cbn [tickets tick].
  pose proof (last_by_number_max _ _ Hmap Hb) as Hl.
  destruct (last_by_number _) as [t|].
  - destruct Hl as [_ Ht]. rewrite Ht.
    pose proof (max_seq_bound Hb) as Hm.
    destruct (small_number Hm) as (_ & Hi & Hs).
    unfold numbered at 1. rewrite (@year_prefix_split _ _ Hs), Hi.
    unfold bind, ret. rewrite Nat.add_1_r. reflexivity.
  - destruct Hl as [_ ->]. reflexivity.
Qed.

(** After sequence number 9999 the generated number has five digits, and
    once 10000 is stored the generated number is 10000 again: the row
    with the greatest number in code-point order is still 9999. *)
Lemma generate_ticket_number_past_9999 :
  map ticket_number (tickets demo_year_end) = [numbered 2024 9999] /\
  generate_ticket_number demo_year_end
  = Some ("BRTS-2024-10000", tick demo_year_end) /\
  String.length "10000" = 5 /\
  map ticket_number (tickets demo_overflow)
  = [numbered 2024 9999; numbered 2024 10000] /\
  generate_ticket_number demo_overflow
  = Some (numbered 2024 10000, tick demo_overflow) /\
  numbered 2024 10000 = "BRTS-2024-10000" /\
  numbered 2024 (S 10000) = "BRTS-2024-10001".
Proof. repeat split; vm_compute; reflexivity. Qed.

Lemma Ticket_save_keeps_number uf t w t' w' :
  PyStr.truthy (ticket_number t) = true ->
  Ticket_save uf t w = Some (t', w') ->
  ticket_number t' = ticket_number t.
Proof.
  intros Ht H. apply Ticket_save_instance in H.
  destruct H as (s1 & w1 & Hp & Hs).
  destruct (prepare_save_frame _ _ Hp) as (_ & _ & Hk & _).
  destruct (same_bka_fields Hs) as (En & _). rewrite <- En. now apply Hk.
Qed.

Lemma numbered_truthy y n : PyStr.truthy (numbered y n) = true.
Proof. reflexivity. Qed.

(** C4, as the code has it.  In a store whose ticket numbers beginning
    with [BRTS-Y] all have the generated form with sequence numbers up
    to 9999, creating a ticket without a number in year [Y] succeeds and
    gives it the number [BRTS-Y-NNNN], [NNNN] being the decimal sequence
    number padded with zeros to at least four digits (exactly four while
    it is at most 9999), equal to the highest stored sequence number of
    the year plus 1, or 1 when there is none.  Every later save of an
    instance carrying that number returns it with the same number. *)
Theorem ticket_number_next_in_year
    (self : Ticket) (w : World) (seqs : list nat) :
  let y := year (clock w (reads w)) in
  let next := S (fold_right Nat.max 0 seqs) in
  pk self = None -> ticket_number self = EmptyString ->
  map ticket_number
      (filter (fun t => prefix (year_prefix y) (ticket_number t)) (tickets w))
  = map (numbered y) seqs ->
  Forall (fun n => n <= 9999) seqs ->
  exists self' w',
    Ticket_save false self w = Some (self', w') /\
    ticket_number self' = numbered y next /\
    (next <= 9999 ->
     ticket_number self' = (year_prefix y ++ "-" ++ four_digits next)%string) /\
    (forall uf t w0 t' w0',
       ticket_number t = ticket_number self' ->
       Ticket_save uf t w0 = Some (t', w0') ->
       ticket_number t' = ticket_number self').
Proof.
  cbv zeta. intros Hpk Hnum Hmap Hb.
  pose proof (@generate_ticket_number_next w seqs Hmap Hb) as Hg.
  cbv zeta in Hg.
  set (y := year (clock w (reads w))) in *.
  set (next := S (fold_right Nat.max 0 seqs)) in *.
  assert (Ha : assign_number self w
               = Some (set_ticket_number (numbered y next) self, tick w)).
  { unfold assign_number. rewrite Hnum. simpl.
    erewrite bind_eq by exact Hg. reflexivity. }
  destruct (@prepare_save_total _ _ _ _ Ha) as (s1 & w1 & Hp).
  destruct (@Ticket_save_new_total _ _ _ _ Hpk Hp) as (self' & w' & E).
  exists self', w'. split; [exact E|].
  assert (Hn : ticket_number self' = numbered y next).
  { destruct (@Ticket_save_instance _ _ _ _ _ E) as (s1' & w1' & Hp' & Hs).
    rewrite Hp in Hp'. injection Hp' as <- <-.
    destruct (same_bka_fields Hs) as (<- & _).
    destruct (@prepare_save_new _ _ _ _ Hpk Hp) as (a & wa & b & wb & Ha' & Hb' & Ht).
    rewrite Ha in Ha'. injection Ha' as <- <-.
    destruct (stamp_times_frame b wb) as (s & k & Es & _ & _ & Ns & _).
    rewrite Es in Ht. injection Ht as <- _. rewrite Ns.
    unfold check_trigger_rules, get_world in Hb'.
    erewrite bind_eq in Hb' by reflexivity.
    apply fold_rules_frame in Hb'. destruct Hb' as (_ & -> & _).
    destruct (auto_prioritize_frame
                (set_ticket_number (numbered y next) self)) as (_ & -> & _).
    reflexivity. }
  split; [exact Hn|]. split.
  - intros Hle. rewrite Hn. unfold numbered.
    now destruct (small_number Hle) as (-> & _).
  - intros uf t w0 t' w0' Ht H. rewrite <- Ht.
    apply (@Ticket_save_keeps_number uf t w0 t' w0'); [|exact H].
    rewrite Ht, Hn. apply numbered_truthy.
Qed.

(** In the store holding number 0001 of 2024, the next ticket created in
    2024 is numbered 0002. *)
Lemma ticket_number_next_in_year_witness :
  exists self' w',
    Ticket_save false demo_ticket demo_store = Some (self', w') /\
    ticket_number self' = "BRTS-2024-0002" /\
    (forall uf t w0 t' w0',
       ticket_number t = ticket_number self' ->
       Ticket_save uf t w0 = Some (t', w0') ->
       ticket_number t' = ticket_number self').
Proof.
  destruct (@ticket_number_next_in_year demo_ticket demo_store [1]
              eq_refl eq_refl eq_refl)
    as (self' & w' & E & Hn & _ & Hk).
  - repeat constructor.
  - exists self', w'. split; [exact E|]. split; [exact Hn | exact Hk].
Defined.

(** ** Comments *)

(** C8.  Creating a comment appends exactly one history record, tagged
    [comment_added], with the author as actor, and one [new_comment]
    notification for each of: the ticket's creator if distinct from the
    author, and the assignee if present and distinct from the author;
    when the comment is internal the recipients with the client role are
    dropped.  Saving an existing comment appends nothing. *)
Theorem comment_logged (instance : TicketComment) (w : World) :
  (exists h ns,
     comment_post_save instance true w = Some (tt, emit [h] ns w) /\
     action_type h = h_comment_added /\
     actor h = Some (author instance) /\
     h_ticket h = pk (c_ticket instance) /\
     map recipient ns = comment_recipients instance /\
     Forall (fun n => notification_type n = n_new_comment /\
                      n_ticket n = pk (c_ticket instance)) ns) /\
  comment_post_save instance false w = Some (tt, w).
Proof.
  split; [|reflexivity].
  unfold comment_post_save.
  erewrite bind_eq by apply create_history_emit.
  rewrite forM_notify_emit, emit_emit. cbn [app].
  eexists _, _. split; [reflexivity|].
  split; [reflexivity|]. split; [reflexivity|]. split; [reflexivity|].
  split.
  - rewrite map_map. cbn [recipient]. rewrite map_id.
    unfold comment_recipients.
    destruct (user_eqb (created_by (c_ticket instance)) (author instance));
      destruct (assigned_to (c_ticket instance)) as [a|];
      try destruct (user_eqb a (author instance));
      destruct (is_internal instance); cbn [negb app andb filter];
      try reflexivity;
      repeat match goal with
             | |- context [is_client ?u] => destruct (is_client u)
             end; reflexivity.
  - apply Forall_forall. intros n Hn. apply in_map_iff in Hn.
    destruct Hn as (u & <- & _). split; reflexivity.
Qed.

(** ** Creation: auto-assignment and escalation rules *)

Lemma Ticket_save_created self w self' w' :
  pk self = None -> Ticket_save false self w = Some (self', w') ->
  exists s1 k ns,
    prepare_save self w = Some (s1, ticks k w) /\
    Forall (trigger_notice w self) ns /\
    auto_assign_ticket
      (save_fuel 1 true)
      (set_pk (Some (fresh_pk (tickets w))) s1)
      (emit [creation_entry (set_pk (Some (fresh_pk (tickets w))) s1)] ns
            (set_tickets
               (tickets w ++ [set_pk (Some (fresh_pk (tickets w))) s1])
               (ticks k w)))
    = Some (self', w').
Proof.
  intros Hpk H.
  destruct (@Ticket_save_instance _ _ _ _ _ H) as (s1 & w1 & Hp & _).
  destruct (@prepare_save_frame _ _ _ _ Hp) as (_ & _ & _ & _ & _ & k & ->).
  destruct (@Ticket_save_create _ _ _ _ Hpk Hp) as (ns & F & E).
  exists s1, k, ns. split; [exact Hp|]. split; [exact F|].
  now rewrite <- E.
Qed.



Lemma apply_rule_escalated text t r w t1 w1 :
  apply_rule text t r w = Some (t1, w1) ->
  (is_escalated t = true \/
   (action r = act_escalate /\ any_in (get_keyword_list r) text = true)) ->
  is_escalated t1 = true.
Proof.
  unfold apply_rule. intros H [He|[Ha Hm]].
  - destruct (any_in _ _); [|now injection H as <- _].
    destruct (action r); try (now injection H as <- _).
    apply escalate_frame in H. tauto.
  - rewrite Hm, Ha in H. apply escalate_frame in H. tauto.
Qed.

Lemma fold_rules_escalated text l t w t' w' :
  foldM (apply_rule text) l t w = Some (t', w') ->
  (is_escalated t = true \/
   exists r, In r l /\ action r = act_escalate /\
             any_in (get_keyword_list r) text = true) ->
  is_escalated t' = true.
Proof.
  revert t w. induction l as [|x l IH]; intros t w H Hor.
  - injection H as <- _. destruct Hor as [He|(r & [] & _)]. exact He.
  - cbn [foldM] in H. apply bind_Some in H.
    destruct H as (t1 & w1 & H1 & H2).
    apply (IH _ _ H2).
    destruct Hor as [He|(r & [<-|Hin] & Ha & Hm)].
    + left. eapply apply_rule_escalated; eauto.
    + left. eapply apply_rule_escalated; eauto.
    + right. eauto.
Qed.

(** With an escalation rule and a notify rule both matching, the
    creation of a ticket without a category escalates it and sends a
    notification to the administrator named by the notify rule. *)
Lemma creation_notifies_listed_admin :
  exists self' w' n,
    Ticket_save false demo_outage demo_alert_world = Some (self', w') /\
    category demo_outage = None /\
    rule_matches demo_rule_escalate "Mail OUTAGE nothing goes through" = true /\
    is_escalated self' = true /\
    history w' = [creation_entry self'] /\
    notifications w' = [n] /\
    recipient n = demo_admin /\ role (recipient n) = admin /\
    notification_type n = n_trigger_activated.
Proof.
  eexists _, _, _. repeat split; vm_compute; reflexivity.
Qed.

(** C10, as the code has it.  When a ticket without a category is
    created and an active [escalate] rule matches it, the ticket is
    returned escalated, the creation appends exactly one history record,
    the [created] one (so no [escalated] record), and the only
    notifications it appends are the [trigger_activated] notices of the
    matching active notify rules: no [ticket_escalated] notification is
    sent, and no user with the admin role is notified unless such a rule
    lists one. *)
Theorem escalation_rule_at_creation
    (self self' : Ticket) (w w' : World) (rule : TriggerRule) :
  pk self = None -> category self = None ->
  In rule (rules w) -> is_active rule = true -> action rule = act_escalate ->
  rule_matches rule (subject self ++ " " ++ description self) = true ->
  Ticket_save false self w = Some (self', w') ->
  is_escalated self' = true /\
  history w' = history w ++ [creation_entry self'] /\
  action_type (creation_entry self') = h_created /\
  exists ns,
    notifications w' = notifications w ++ ns /\
    Forall (trigger_notice w self) ns /\
    filter (is_notice n_ticket_escalated) ns = [] /\
    ((forall r u,
        In r (rules w) -> is_active r = true -> action r = act_notify ->
        rule_matches r (subject self ++ " " ++ description self) = true ->
        In u (notify_users r) -> role u <> admin) ->
     Forall (fun n => role (recipient n) <> admin) ns).
Proof.
  intros Hpk Hcat Hin Hact Hesc Hm H.
  destruct (@Ticket_save_created _ _ _ _ Hpk H) as (s1 & k & ns & Hp & F & E).
  destruct (@prepare_save_frame _ _ _ _ Hp) as (Cs & _).
  destruct Cs as (_ & _ & _ & Ec & _).
  rewrite auto_assign_ticket_skips in E by (right; left; cbn; congruence).
  injection E as <- <-.
  destruct (ticks_fields k w) as (_ & _ & _ & _ & _ & Hh & Hn).
  split.
  - cbn [is_escalated set_pk].
    destruct (@prepare_save_new _ _ _ _ Hpk Hp)
      as (a & wa & b & wb & Ha & Hb & Ht).
    destruct (@stamp_times_urgency _ _ _ _ Ht) as (_ & <- & _).
    destruct (@assign_number_frame _ _ _ _ Ha)
      as ((_ & Sa & Da & _) & _ & _ & _ & _ & _ & ka & ->).
    destruct (ticks_fields ka w) as (_ & _ & _ & _ & Hr & _).
    unfold check_trigger_rules, get_world in Hb.
    erewrite bind_eq in Hb by reflexivity.
    apply (fold_rules_escalated _ _ _ _ Hb). right. exists rule.
    split; [apply filter_In; rewrite Hr; auto|]. split; [exact Hesc|].
    rewrite any_in_rule_matches.
    destruct (auto_prioritize_frame a) as ((_ & <- & <- & _) & _).
    now rewrite <- Sa, <- Da.
  - split; [cbn [history emit set_tickets]; now rewrite Hh|].
    split; [reflexivity|].
    exists ns. split; [cbn [notifications emit set_tickets]; now rewrite Hn|].
    split; [exact F|]. split.
    + apply filter_none. eapply Forall_impl; [|exact F].
      intros n (Hty & _). unfold is_notice. now rewrite Hty.
    + intros Hno. eapply Forall_impl; [|exact F].
      intros n (_ & r & Hr & Ha & Hnf & Hmr & Hu).
      rewrite any_in_rule_matches in Hmr. eauto.
Qed.

(** With the escalation rule alone, the ticket on the outage is created
    escalated, with the [created] record as the only history and no
    notification at all. *)
Lemma escalation_rule_at_creation_witness :
  exists self' w',
    Ticket_save false demo_outage demo_escalating_world = Some (self', w') /\
    is_escalated self' = true /\
    history w' = [creation_entry self'] /\
    notifications w' = [].
Proof.
  destruct (Ticket_save false demo_outage demo_escalating_world)
    as [[t w1]|] eqn:E; [|vm_compute in E; discriminate].
  destruct (@escalation_rule_at_creation
              demo_outage t demo_escalating_world w1 demo_rule_escalate
              eq_refl eq_refl (or_introl eq_refl) eq_refl eq_refl eq_refl E)
    as (He & Hh & _ & ns & Hn & F & _).
  exists t, w1. split; [reflexivity|]. split; [exact He|].
  split; [exact Hh|]. rewrite Hn.
  destruct ns as [|n ns]; [reflexivity|].
  inversion F as [|? ? (_ & r & [<-|[]] & _ & Hr & _) _]. discriminate.
Defined.

(** * Further properties of the code *)

Lemma emit_inj hs ns hs' ns' w :
  emit hs ns w = emit hs' ns' w -> hs = hs' /\ ns = ns'.
Proof.
  intros H. split.
  - apply (f_equal history) in H. cbn [history emit] in H.
    now apply app_inv_head in H.
  - apply (f_equal notifications) in H. cbn [notifications emit] in H.
    now apply app_inv_head in H.
Qed.

Lemma Some_emit_inj (u u' : unit) hs ns hs' ns' w :
  Some (u, emit hs ns w) = Some (u', emit hs' ns' w) -> hs = hs' /\ ns = ns'.
Proof. intros H. apply emit_inj with w. congruence. Qed.

(** ** Trigger notifications in detail *)

Lemma notify_loop (mk : TriggerRule -> CustomUser -> Notification)
    (cond : TriggerRule -> bool) l w :
  forM_ (fun rule =>
           if cond rule
           then forM_ (fun user => create_notification (mk rule user))
                      (notify_users rule)
           else ret tt) l w
  = Some (tt,
          emit [] (flat_map (fun rule => map (mk rule) (notify_users rule))
                            (filter cond l)) w).
Proof.
  revert w. induction l as [|r l IH]; intros w.
  - cbn. now rewrite emit_nil.
  - cbn [forM_ filter]. destruct (cond r).
    + erewrite bind_eq by apply forM_notify_emit.
      rewrite IH, emit_emit. reflexivity.
    + erewrite bind_eq by reflexivity. apply IH.
Qed.

Lemma map_flat_map {A B C} (f : B -> C) (g : A -> list B) l :
  map f (flat_map g l) = flat_map (fun x => map f (g x)) l.
Proof.
  induction l as [|x l IH]; [reflexivity|].
  cbn [flat_map]. now rewrite map_app, IH.
Qed.

Lemma flat_map_ext_id {A B} (g h : A -> list B) l :
  (forall x, g x = h x) -> flat_map g l = flat_map h l.
Proof.
  intros E. induction l as [|x l IH]; [reflexivity|].
  cbn [flat_map]. now rewrite E, IH.
Qed.

Lemma filter_ext_id {A} (p q : A -> bool) l :
  (forall x, p x = q x) -> filter p l = filter q l.
Proof.
  intros E. induction l as [|x l IH]; [reflexivity|].
  cbn [filter]. now rewrite E, IH.
Qed.

(** [check_trigger_notifications] writes one notification for each
    member of the notify list of each matching rule, in that order. *)
Lemma check_trigger_notifications_detail instance w :
  exists ns,
    check_trigger_notifications instance w = Some (tt, emit [] ns w) /\
    Forall (trigger_notice w instance) ns /\
    map recipient ns = trigger_recipients w instance /\
    Forall (fun n => notification_type n = n_trigger_activated /\
                     n_ticket n = pk instance) ns.
Proof.
  destruct (check_trigger_notifications_emit instance w) as (ns & E & F).
  exists ns. split; [exact E|]. split; [exact F|].
  unfold check_trigger_notifications, get_world in E.
  erewrite bind_eq in E by reflexivity.
  rewrite (notify_loop
             (fun rule user =>
                {| recipient := user;
                   notification_type := n_trigger_activated;
                   title := ("Trigger Alert: " ++ rule_name rule)%string;
                   message :=
                     ("Ticket " ++ ticket_number instance
                      ++ " matches trigger rule '" ++ rule_name rule
                      ++ "'. Keywords detected: "
                      ++ PyStr.join ", " (get_keyword_list rule))%string;
                   n_ticket := pk instance;
                   is_read := false |})
             (fun rule => any_in (get_keyword_list rule) (ticket_text instance)))
    in E.
  apply Some_emit_inj in E. destruct E as [_ <-].
  split.
  - rewrite map_flat_map. unfold trigger_recipients.
    rewrite filter_filter.
    erewrite flat_map_ext_id
      by (intros x; rewrite map_map; cbn [recipient]; apply map_id).
    f_equal. apply filter_ext_id. intros x.
    now rewrite any_in_rule_matches.
  - apply Forall_forall. intros n Hn. apply in_flat_map in Hn.
    destruct Hn as (r & _ & Hn). apply in_map_iff in Hn.
    destruct Hn as (u & <- & _). split; reflexivity.
Qed.

Lemma trigger_recipients_fields w w' a b :
  rules w' = rules w -> subject a = subject b ->
  description a = description b ->
  trigger_recipients w' a = trigger_recipients w b.
Proof. unfold trigger_recipients. now intros -> -> ->. Qed.

(** ** The paths of a save, in full *)

Lemma set_pk_same t : set_pk (pk t) t = t.
Proof. now destruct t. Qed.

(** The update path as an equation: the row is written and the change
    log runs against the row as it was. *)
Lemma save_fuel_update_eq fuel uf self w id original s1 w1 :
  pk self = Some id -> find_ticket id (tickets w) = Some original ->
  prepare_save self w = Some (s1, w1) ->
  save_fuel (S fuel) uf self w
  = (log_ticket_changes s1 original ;;; ret s1)
      (set_tickets (map (write_row uf id s1) (tickets w)) w1).
Proof.
  intros Hpk Hfind Hprep.
  destruct (@prepare_save_frame _ _ _ _ Hprep) as (Cs & _ & _ & _ & _ & k & ->).
  destruct (ticks_fields k w) as (_ & _ & Ht & _).
  assert (Hpk1 : pk s1 = Some id) by (destruct Cs as (E & _); congruence).
  cbn [save_fuel].
  erewrite bind_eq by exact Hprep.
  unfold ticket_pre_save. rewrite Hpk1.
  erewrite bind_eq by (unfold get_world; erewrite bind_eq; reflexivity).
  rewrite Ht, Hfind.
  erewrite bind_eq.
  2:{ unfold save_table. rewrite Hpk1, Ht.
      rewrite (find_ticket_exists _ _ Hfind). reflexivity. }
  reflexivity.
Qed.

(** The insert path: a ticket without a key, or with a key that names no
    row. *)
Lemma Ticket_save_insert self w s1 w1 key :
  (pk self = None /\ key = fresh_pk (tickets w)) \/
  (pk self = Some key /\ find_ticket key (tickets w) = None) ->
  prepare_save self w = Some (s1, w1) ->
  existsb (has_pk key) (tickets w) = false /\
  exists ns,
    Forall (trigger_notice w self) ns /\
    map recipient ns = trigger_recipients w self /\
    Forall (fun n => notification_type n = n_trigger_activated /\
                     n_ticket n = Some key) ns /\
    Ticket_save false self w
    = auto_assign_ticket
        (save_fuel 1 true) (set_pk (Some key) s1)
        (emit [creation_entry (set_pk (Some key) s1)] ns
              (set_tickets (tickets w ++ [set_pk (Some key) s1]) w1)).
Proof.
  intros Hkey Hp.
  destruct (@prepare_save_frame _ _ _ _ Hp) as (Cs & _ & _ & _ & _ & k & ->).
  destruct (ticks_fields k w) as (_ & _ & Ht & _ & Hr & _).
  set (s2 := set_pk (Some key) s1).
  set (W := set_tickets (tickets w ++ [s2]) (ticks k w)).
  assert (Hfresh : existsb (has_pk key) (tickets w) = false).
  { destruct Hkey as [[_ ->]|[_ Hf]];
      [apply fresh_pk_unused | now apply find_ticket_none]. }
  split; [exact Hfresh|].
  destruct (check_trigger_notifications_detail
              s2 (emit [creation_entry s2] [] W)) as (ns & E & F & R & T).
  exists ns. split; [|split; [|split]].
  - eapply Forall_impl; [|exact F]. intros n Hn.
    destruct Cs as (_ & Hs & Hd & _).
    apply trigger_notice_text with (a := s2);
      [symmetry; exact Hs | symmetry; exact Hd |].
    eapply trigger_notice_rules; [|exact Hn]. exact Hr.
  - rewrite R. destruct Cs as (_ & Hs & Hd & _).
    apply trigger_recipients_fields; [exact Hr | symmetry; exact Hs
                                     | symmetry; exact Hd].
  - exact T.
  - assert (Hst : save_table false s1 (ticks k w) = Some ((s2, true), W)).
    { unfold save_table. destruct Cs as (Epk & _).
      destruct Hkey as [[Hn ->]|[Hs Hf]].
      - rewrite <- Epk, Hn, Ht. reflexivity.
      - rewrite <- Epk, Hs, Ht, Hfresh. unfold W, s2.
        replace (set_pk (Some key) s1) with s1; [reflexivity|].
        rewrite <- Hs, Epk. symmetry. apply set_pk_same. }
    assert (Hpre : exists o, ticket_pre_save s1 (ticks k w) = Some (o, ticks k w))
      by apply ticket_pre_save_world.
    destruct Hpre as (o & Hpre).
    unfold Ticket_save. cbn [save_fuel].
    erewrite bind_eq by exact Hp.
    erewrite bind_eq by exact Hpre.
    erewrite bind_eq by exact Hst.
    cbn [fst snd ticket_post_save].
    erewrite bind_eq by apply create_history_emit.
    erewrite bind_eq by exact E.
    rewrite emit_emit. reflexivity.
Qed.

(** Every successful save is an update of a stored row or an insert. *)
Lemma Ticket_save_cases uf self w self' w' :
  Ticket_save uf self w = Some (self', w') ->
  exists s1 k,
    prepare_save self w = Some (s1, ticks k w) /\
    ((exists id original,
        pk self = Some id /\ find_ticket id (tickets w) = Some original /\
        (log_ticket_changes s1 original ;;; ret s1)
          (set_tickets (map (write_row uf id s1) (tickets w)) (ticks k w))
        = Some (self', w')) \/
     (uf = false /\
      exists key ns,
        ((pk self = None /\ key = fresh_pk (tickets w)) \/
         (pk self = Some key /\ find_ticket key (tickets w) = None)) /\
        existsb (has_pk key) (tickets w) = false /\
        Forall (trigger_notice w self) ns /\
        map recipient ns = trigger_recipients w self /\
        Forall (fun n => notification_type n = n_trigger_activated /\
                         n_ticket n = Some key) ns /\
        auto_assign_ticket
          (save_fuel 1 true) (set_pk (Some key) s1)
          (emit [creation_entry (set_pk (Some key) s1)] ns
                (set_tickets (tickets w ++ [set_pk (Some key) s1]) (ticks k w)))
        = Some (self', w'))).
Proof.
  intros H.
  destruct (@Ticket_save_instance _ _ _ _ _ H) as (s1 & w1 & Hp & _).
  destruct (@prepare_save_frame _ _ _ _ Hp) as (_ & _ & _ & _ & _ & k & ->).
  exists s1, k. split; [exact Hp|].
  destruct (pk self) as [id|] eqn:Hpk.
  - destruct (find_ticket id (tickets w)) as [original|] eqn:Hf.
    + left. exists id, original. split; [reflexivity|]. split; [exact Hf|].
      unfold Ticket_save in H.
      now rewrite (@save_fuel_update_eq 1 uf self w id original s1 _ Hpk Hf Hp)
        in H.
    + right. destruct uf.
      * exfalso. unfold Ticket_save in H. cbn [save_fuel] in H.
        erewrite bind_eq in H by exact Hp.
        destruct (ticket_pre_save_world s1 (ticks k w)) as (o & Ho).
        erewrite bind_eq in H by exact Ho.
        apply bind_Some in H. destruct H as (r & w3 & Hs & _).
        unfold save_table in Hs.
        destruct (@prepare_save_frame _ _ _ _ Hp) as ((Epk & _) & _).
        destruct (ticks_fields k w) as (_ & _ & Ht & _).
        rewrite <- Epk, Hpk, Ht, (find_ticket_none _ _ Hf) in Hs. discriminate.
      * split; [reflexivity|].
        destruct (@Ticket_save_insert self w s1 (ticks k w) id
                    (or_intror (conj Hpk Hf)) Hp)
          as (Hfr & ns & F & R & T & E).
        exists id, ns. rewrite E in H. auto 10.
  - right. destruct uf.
    + exfalso. unfold Ticket_save in H. cbn [save_fuel] in H.
      erewrite bind_eq in H by exact Hp.
      destruct (ticket_pre_save_world s1 (ticks k w)) as (o & Ho).
      erewrite bind_eq in H by exact Ho.
      apply bind_Some in H. destruct H as (r & w3 & Hs & _).
      unfold save_table in Hs.
      destruct (@prepare_save_frame _ _ _ _ Hp) as ((Epk & _) & _).
      rewrite <- Epk, Hpk in Hs. discriminate.
    + split; [reflexivity|].
      destruct (@Ticket_save_insert self w s1 (ticks k w) (fresh_pk (tickets w))
                  (or_introl (conj Hpk eq_refl)) Hp)
        as (Hfr & ns & F & R & T & E).
      exists (fresh_pk (tickets w)), ns. rewrite E in H. auto 10.
Qed.

(** ** The agent chosen by auto-assignment *)

(** The loop keeps the first agent of least load: every agent before it
    in the iteration carries strictly more. *)
Lemma least_loaded_first w agents best :
  snd (least_loaded w agents) = Some best ->
  exists pre post,
    agents = pre ++ best :: post /\
    (forall a, In a pre -> open_tickets best w < open_tickets a w) /\
    (forall a, In a post -> open_tickets best w <= open_tickets a w).
Proof.
  unfold least_loaded.
  set (f := fun (st : option nat * option CustomUser) agent_ =>
              if below (open_tickets agent_ w) (fst st)
              then (Some (open_tickets agent_ w), Some agent_) else st).
  assert (Step : forall l pre b mid,
             (forall a, In a pre -> open_tickets b w < open_tickets a w) ->
             (forall a, In a mid -> open_tickets b w <= open_tickets a w) ->
             exists pre' b' post',
               pre ++ b :: mid ++ l = pre' ++ b' :: post' /\
               fold_left f l (Some (open_tickets b w), Some b)
               = (Some (open_tickets b' w), Some b') /\
               (forall a, In a pre' -> open_tickets b' w < open_tickets a w) /\
               (forall a, In a post' -> open_tickets b' w <= open_tickets a w)).
  { induction l as [|x l IH]; intros pre b mid Hpre Hmid.
    - exists pre, b, mid. rewrite app_nil_r. auto.
    - cbn [fold_left]. unfold f at 2. cbn [fst below].
      destruct (Nat.ltb_spec (open_tickets x w) (open_tickets b w)) as [Hlt|Hge].
      + destruct (IH (pre ++ b :: mid) x []) as (pre' & b' & post' & E & R).
        * intros a Ha. apply in_app_or in Ha.
          destruct Ha as [Ha|[<-|Ha]];
            [specialize (Hpre a Ha) | | specialize (Hmid a Ha)]; lia.
        * intros a [].
        * exists pre', b', post'. split; [|exact R].
          rewrite <- E. rewrite <- !app_assoc. reflexivity.
      + destruct (IH pre b (mid ++ [x])) as (pre' & b' & post' & E & R).
        * exact Hpre.
        * intros a Ha. apply in_app_or in Ha.
          destruct Ha as [Ha|[<-|[]]]; [auto | lia].
        * exists pre', b', post'. split; [|exact R].
          rewrite <- E. rewrite <- !app_assoc. reflexivity. }
  destruct agents as [|x l]; [discriminate|].
  cbn [fold_left]. unfold f at 2. cbn [fst below].
  destruct (Step l [] x []) as (pre' & b' & post' & E & R & P1 & P2).
  - intros a [].
  - intros a [].
  - rewrite R. cbn [snd]. intros [= <-]. exists pre', post'. auto.
Qed.

Lemma auto_assign_ticket_outcome s2 l key w self' w' :
  tickets w = l ++ [s2] -> existsb (has_pk key) l = false ->
  pk s2 = Some key -> PyStr.truthy (ticket_number s2) = true ->
  stamps_done s2 ->
  auto_assign_ticket (save_fuel 1 true) s2 w = Some (self', w') ->
  (self' = s2 /\ w' = w /\
   (is_some (assigned_to s2) = true \/ category s2 = None \/
    filter is_agent (users w) = [])) \/
  (exists best h n,
     assigned_to s2 = None /\ is_some (category s2) = true /\
     snd (least_loaded w (filter is_agent (users w))) = Some best /\
     self' = set_assigned_to (Some best) s2 /\
     w' = emit [h] [n] (set_tickets (l ++ [self']) w) /\
     action_type h = h_assigned /\ h_ticket h = Some key /\
     actor h = None /\ new_value h = Some (user_str best) /\
     notification_type n = n_ticket_assigned /\ recipient n = best /\
     n_ticket n = Some key).
Proof.
  intros Ht Hl Hpk Hnum Hd H.
  destruct (assigned_to s2) as [u|] eqn:Ea.
  { rewrite auto_assign_ticket_skips in H by (left; now rewrite Ea).
    injection H as <- <-. left. auto. }
  destruct (category s2) as [c|] eqn:Ec.
  2:{ rewrite auto_assign_ticket_skips in H by (right; left; exact Ec).
      injection H as <- <-. left. auto. }
  destruct (filter is_agent (users w)) as [|x xs] eqn:Eg.
  { rewrite auto_assign_ticket_skips in H by (right; right; exact Eg).
    injection H as <- <-. left. auto. }
  right.
  assert (Hne : x :: xs <> []) by discriminate.
  destruct (@least_loaded_min w _ Hne) as (best & El & _).
  destruct (@save_assignment 0 s2 best l key w Ht Hl Hpk Hnum Hd Ea)
    as (h & n & E & P).
  unfold auto_assign_ticket in H. rewrite Ea, Ec in H. cbn [negb is_some andb] in H.
  unfold get_world in H. erewrite bind_eq in H by reflexivity.
  rewrite Eg, El in H. cbn [snd] in H. rewrite E in H. injection H as <- <-.
  exists best, h, n. rewrite El. cbn [snd]. repeat split; tauto.
Qed.

(** ** The change log in detail *)


Lemma log_priority_change_detail instance original w :
  exists hs,
    log_priority_change instance original w = Some (tt, emit hs [] w) /\
    priority_log instance original hs /\
    priority_detail instance original hs.
Proof.
  unfold log_priority_change, priority_log, priority_detail.
  destruct (priority_eqb (priority instance) (priority original)) eqn:E;
    cbn [negb].
  - exists []. rewrite emit_nil. apply priority_eqb_eq in E.
    split; [reflexivity|]. split; [split; auto|]. congruence.
  - rewrite create_history_emit. eexists. split; [reflexivity|].
    split; [split; [repeat constructor|]|].
    + intros Hp. apply priority_eqb_eq in Hp. congruence.
    + intros _. eexists. repeat split.
Qed.

Lemma log_escalation_detail instance original w :
  exists hs ns,
    log_escalation instance original w = Some (tt, emit hs ns w) /\
    escalation_log instance original hs ns /\
    escalation_detail instance original (filter is_admin (users w)) hs ns.
Proof.
  unfold log_escalation, escalation_log, escalation_detail.
  destruct (is_escalated instance) eqn:Ei;
    destruct (is_escalated original) eqn:Eo; cbn [negb andb];
    try (exists [], []; rewrite emit_nil;
         split; [reflexivity|];
         split; [repeat split; auto; discriminate|];
         split; [discriminate | auto]).
  erewrite bind_eq by apply create_history_emit.
  unfold get_world. erewrite bind_eq by reflexivity.
  rewrite forM_notify_emit, emit_emit. cbn [app users emit].
  eexists _, _. split; [reflexivity|].
  assert (Hty : forall (mk : CustomUser -> Notification) ty l,
             (forall u, notification_type (mk u) = ty) ->
             Forall (fun n => notification_type n = ty) (map mk l)).
  { intros mk ty l Hmk. apply Forall_forall. intros n Hn.
    apply in_map_iff in Hn. destruct Hn as (u & <- & _). apply Hmk. }
  split.
  - split; [repeat constructor|]. split; [|discriminate].
    apply Hty. reflexivity.
  - split; [|discriminate]. intros _ _. eexists. split; [reflexivity|].
    split; [reflexivity|]. split; [reflexivity|]. split; [reflexivity|].
    split.
    + rewrite map_map. cbn [recipient]. apply map_id.
    + apply Forall_forall. intros n Hn. apply in_map_iff in Hn.
      destruct Hn as (u & <- & _). reflexivity.
Qed.

(** The change log of an update, block by block, with the content of the
    priority and escalation records. *)
Lemma log_ticket_changes_detail instance original w :
  exists hs1 ns1 hs2 ns2 hs3 hs4 ns4,
    log_ticket_changes instance original w
    = Some (tt, emit (hs1 ++ hs2 ++ hs3 ++ hs4) (ns1 ++ ns2 ++ ns4) w) /\
    status_log instance original hs1 ns1 /\
    assignment_log instance original hs2 ns2 /\
    priority_log instance original hs3 /\
    escalation_log instance original hs4 ns4 /\
    priority_detail instance original hs3 /\
    escalation_detail instance original (filter is_admin (users w)) hs4 ns4.
Proof.
  unfold log_ticket_changes.
  destruct (log_status_change_emit instance original w)
    as (hs1 & ns1 & E1 & L1).
  destruct (log_assignment_change_emit instance original (emit hs1 ns1 w))
    as (hs2 & ns2 & E2 & L2).
  destruct (log_priority_change_detail instance original
              (emit hs2 ns2 (emit hs1 ns1 w))) as (hs3 & E3 & L3 & D3).
  destruct (log_escalation_detail instance original
              (emit hs3 [] (emit hs2 ns2 (emit hs1 ns1 w))))
    as (hs4 & ns4 & E4 & L4 & D4).
  exists hs1, ns1, hs2, ns2, hs3, hs4, ns4.
  split; [|tauto].
  erewrite bind_eq by exact E1. erewrite bind_eq by exact E2.
  erewrite bind_eq by exact E3. rewrite E4, !emit_emit.
  reflexivity.
Qed.

Lemma status_log_fields a b o hs ns :
  pk a = pk b -> status a = status b -> created_by a = created_by b ->
  status_log a o hs ns -> status_log b o hs ns.
Proof. unfold status_log. intros -> -> ->. auto. Qed.

Lemma assignment_log_fields a b o hs ns :
  pk a = pk b -> assigned_to a = assigned_to b ->
  assignment_log a o hs ns -> assignment_log b o hs ns.
Proof. unfold assignment_log. intros -> ->. auto. Qed.

Lemma priority_log_fields a b o hs :
  pk a = pk b -> priority a = priority b ->
  priority_log a o hs /\ priority_detail a o hs ->
  priority_log b o hs /\ priority_detail b o hs.
Proof. unfold priority_log, priority_detail. intros -> ->. auto. Qed.

Lemma escalation_log_fields a b o us hs ns :
  pk a = pk b -> priority a = priority b ->
  is_escalated a = is_escalated b -> escalated_by a = escalated_by b ->
  escalation_log a o hs ns /\ escalation_detail a o us hs ns ->
  escalation_log b o hs ns /\ escalation_detail b o us hs ns.
Proof.
  unfold escalation_log, escalation_detail. intros -> -> -> ->. auto.
Qed.

(** An update of a stored ticket that has its number, in full: the
    instance returned, the world left, and what each block of the change
    log wrote, in terms of the instance as passed to [save]. *)
Lemma Ticket_save_update_detail uf self original w id :
  pk self = Some id -> find_ticket id (tickets w) = Some original ->
  PyStr.truthy (ticket_number self) = true ->
  exists s1 k hs1 ns1 hs2 ns2 hs3 hs4 ns4,
    stamp_times self w = Some (s1, ticks k w) /\
    Ticket_save uf self w
    = Some (s1,
            emit (hs1 ++ hs2 ++ hs3 ++ hs4) (ns1 ++ ns2 ++ ns4)
                 (set_tickets (map (write_row uf id s1) (tickets w))
                              (ticks k w))) /\
    same_core self s1 /\ same_urgency self s1 /\
    ticket_number s1 = ticket_number self /\
    status_log self original hs1 ns1 /\
    assignment_log self original hs2 ns2 /\
    priority_log self original hs3 /\
    escalation_log self original hs4 ns4 /\
    priority_detail self original hs3 /\
    escalation_detail self original (filter is_admin (users w)) hs4 ns4.
Proof.
  intros Hpk Hfind Hnum.
  destruct (stamp_times_frame self w) as (s1 & k & Hs & Cs & Us & Ns & Ds).
  assert (Hprep : prepare_save self w = Some (s1, ticks k w))
    by (rewrite prepare_save_update; eauto using is_some_pk).
  set (W := set_tickets (map (write_row uf id s1) (tickets w)) (ticks k w)).
  destruct (log_ticket_changes_detail s1 original W)
    as (hs1 & ns1 & hs2 & ns2 & hs3 & hs4 & ns4 & El & L1 & L2 & L3 & L4
        & D3 & D4).
  exists s1, k, hs1, ns1, hs2, ns2, hs3, hs4, ns4.
  split; [exact Hs|]. split.
  { unfold Ticket_save.
    rewrite (@save_fuel_update_eq 1 uf self w id original s1 _ Hpk Hfind Hprep).
    fold W. erewrite bind_eq by exact El. reflexivity. }
  split; [exact Cs|]. split; [exact Us|]. split; [exact Ns|].
  destruct Cs as (Epk & _ & _ & _ & _ & Est & Ecr & Eas).
  destruct Us as (Epr & Eesc & _ & Eby).
  assert (Hus : users W = users w).
  { unfold W. cbn [users set_tickets]. now destruct (ticks_fields k w) as (_ & _ & _ & -> & _). }
  rewrite Hus in D4.
  split; [eapply status_log_fields; [..|exact L1]; congruence|].
  split; [eapply assignment_log_fields; [..|exact L2]; congruence|].
  destruct (@priority_log_fields s1 self original hs3) as [P1 P2];
    [congruence | congruence | auto |].
  destruct (@escalation_log_fields s1 self original
              (filter is_admin (users w)) hs4 ns4) as [Q1 Q2];
    [congruence | congruence | congruence | congruence | auto |].
  tauto.
Qed.

(** ** Trigger notifications *)

(** X1.  [check_trigger_notifications] writes no history and sends one
    [trigger_activated] notification, referring to the ticket, for each
    member of the notify list of each active [notify] rule that matches
    the ticket text, rule after rule in store order: a user listed by two
    matching rules is written to twice, and rules of another action or
    inactive or not matching contribute nothing. *)
Theorem trigger_notifications_recipients (instance : Ticket) (w : World) :
  exists ns,
    check_trigger_notifications instance w = Some (tt, emit [] ns w) /\
    map recipient ns = trigger_recipients w instance /\
    Forall (fun n => notification_type n = n_trigger_activated /\
                     n_ticket n = pk instance) ns.
Proof.
  destruct (check_trigger_notifications_detail instance w)
    as (ns & E & _ & R & T).
  exists ns. auto.
Qed.

(** ** Rows after a write *)

Lemma find_write_row id inst l :
  existsb (has_pk id) l = true -> pk inst = Some id ->
  find_ticket id (map (write_row false id inst) l) = Some inst.
Proof.
  intros Hex Hp. unfold find_ticket.
  induction l as [|r l IH]; [discriminate|].
  cbn [map find existsb] in *. unfold write_row at 1 2.
  destruct (has_pk id r) eqn:Er.
  - now rewrite (has_pk_self _ Hp).
  - rewrite Er. apply IH. exact Hex.
Qed.

Lemma has_pk_write_row uf id other inst r :
  pk inst = Some id ->
  has_pk other (write_row uf id inst r) = has_pk other r.
Proof.
  intros Hp. unfold write_row. destruct (has_pk id r) eqn:Er; [|reflexivity].
  destruct uf; [reflexivity|].
  unfold has_pk in *. rewrite Hp. destruct (pk r) as [i|]; [|discriminate].
  apply Pos.eqb_eq in Er. now subst.
Qed.

Lemma find_write_row_other uf id other inst l :
  pk inst = Some id -> other <> id ->
  find_ticket other (map (write_row uf id inst) l) = find_ticket other l.
Proof.
  intros Hp Hne. unfold find_ticket.
  induction l as [|r l IH]; [reflexivity|].
  cbn [map find]. rewrite (@has_pk_write_row uf id other inst r Hp).
  destruct (has_pk other r) eqn:Er; [|exact IH].
  unfold write_row. destruct (has_pk id r) eqn:Ei; [|reflexivity].
  exfalso. unfold has_pk in Er, Ei. destruct (pk r) as [i|]; [|discriminate].
  apply Pos.eqb_eq in Er. apply Pos.eqb_eq in Ei. congruence.
Qed.

Lemma map_pk_write_row uf id inst l :
  pk inst = Some id ->
  map pk (map (write_row uf id inst) l) = map pk l.
Proof.
  intros Hp. induction l as [|r l IH]; [reflexivity|].
  cbn [map]. rewrite IH. f_equal.
  unfold write_row. destruct (has_pk id r) eqn:Er; [|reflexivity].
  destruct uf; [reflexivity|].
  unfold has_pk in Er. destruct (pk r) as [i|]; [|discriminate].
  apply Pos.eqb_eq in Er. congruence.
Qed.

Lemma find_ticket_pk id l t : find_ticket id l = Some t -> pk t = Some id.
Proof.
  intros H. apply find_some in H. destruct H as [_ H].
  unfold has_pk in H. destruct (pk t) as [i|]; [|discriminate].
  apply Pos.eqb_eq in H. now subst.
Qed.

Lemma find_ticket_app_other other l r :
  has_pk other r = false ->
  find_ticket other (l ++ [r]) = find_ticket other l.
Proof.
  intros Hr. unfold find_ticket.
  induction l as [|x l IH]; cbn [app find]; [now rewrite Hr|].
  destruct (has_pk other x); [reflexivity | exact IH].
Qed.

(** ** Updates: what is logged and what is not *)

Lemma user_eqb_refl u : user_eqb u u = true.
Proof. apply Pos.eqb_refl. Qed.

Lemma opt_user_eqb_refl o : opt_user_eqb o o = true.
Proof. destruct o; [apply user_eqb_refl | reflexivity]. Qed.

(** X2.  An update that changes the priority and none of status,
    assignee and escalation flag appends exactly one history record,
    tagged [priority_changed], without actor, holding the stored and the
    new priority, and sends no notification. *)
Theorem priority_only_change_logged
    (uf : bool) (self original : Ticket) (w : World) (id : positive) :
  pk self = Some id -> find_ticket id (tickets w) = Some original ->
  PyStr.truthy (ticket_number self) = true ->
  status self = status original ->
  opt_user_eqb (assigned_to self) (assigned_to original) = true ->
  is_escalated self = is_escalated original ->
  priority self <> priority original ->
  exists self' w' h,
    Ticket_save uf self w = Some (self', w') /\
    history w' = history w ++ [h] /\
    notifications w' = notifications w /\
    action_type h = h_priority_changed /\
    h_ticket h = Some id /\ actor h = None /\
    old_value h = Some (priority_value (priority original)) /\
    new_value h = Some (priority_value (priority self)).
Proof.
  intros Hpk Hfind Hnum Hst Has Hesc Hpr.
  destruct (@Ticket_save_update_detail uf self original w id Hpk Hfind Hnum)
    as (s1 & k & hs1 & ns1 & hs2 & ns2 & hs3 & hs4 & ns4 & _ & E & _ & _ & _
        & L1 & L2 & L3 & L4 & D3 & _).
  destruct L1 as (_ & _ & _ & L1). destruct (L1 Hst) as [-> ->].
  destruct L2 as (_ & _ & _ & L2). destruct (L2 (or_intror Has)) as [-> ->].
  destruct L4 as (_ & _ & L4). destruct (L4 Hesc) as [-> ->].
  destruct L3 as (T3 & _).
  destruct (D3 Hpr) as (h & -> & Ht & Ha & Ho & Hn).
  eexists s1, _, h. split; [exact E|].
  destruct (ticks_fields k w) as (_ & _ & _ & _ & _ & Hh & Hno).
  cbn [history notifications emit set_tickets app].
  rewrite Hh, Hno, app_nil_r.
  split; [reflexivity|]. split; [reflexivity|].
  split; [now inversion T3|]. split; [congruence|]. tauto.
Qed.

(** Raising the stored ticket from medium to high writes one record
    "medium" to "high" and notifies no one. *)
Lemma priority_only_change_logged_witness :
  exists self' w' h,
    Ticket_save false (set_priority high demo_stored) demo_store
    = Some (self', w') /\
    history w' = [h] /\ notifications w' = [] /\
    action_type h = h_priority_changed /\
    old_value h = Some "medium" /\ new_value h = Some "high".
Proof.
  destruct (@priority_only_change_logged
              false (set_priority high demo_stored) demo_stored demo_store
              1%positive eq_refl eq_refl eq_refl eq_refl eq_refl eq_refl)
    as (self' & w' & h & E & Hh & Hn & Ht & _ & _ & Ho & Hv).
  - discriminate.
  - exists self', w', h. auto 10.
Defined.

(** X3.  An update that raises the escalation flag of a stored ticket
    appends exactly one [escalated] record, whose actor is the
    instance's [escalated_by] and whose new value names the instance's
    priority, and sends one [ticket_escalated] notification to every
    user with the administrator role, in store order, whoever escalated;
    an update that lowers the flag writes neither. *)
Theorem escalation_logged_on_update
    (uf : bool) (self original : Ticket) (w : World) (id : positive) :
  pk self = Some id -> find_ticket id (tickets w) = Some original ->
  PyStr.truthy (ticket_number self) = true ->
  exists self' w' hs ns,
    Ticket_save uf self w = Some (self', w') /\
    history w' = history w ++ hs /\
    notifications w' = notifications w ++ ns /\
    (is_escalated self = true -> is_escalated original = false ->
     exists h,
       filter (is_action h_escalated) hs = [h] /\
       h_ticket h = Some id /\ actor h = escalated_by self /\
       new_value h = Some ("Priority: " ++ priority_value (priority self))%string /\
       map recipient (filter (is_notice n_ticket_escalated) ns)
       = filter is_admin (users w) /\
       Forall (fun n => n_ticket n = Some id)
              (filter (is_notice n_ticket_escalated) ns)) /\
    (is_escalated self = false \/ is_escalated original = true ->
     filter (is_action h_escalated) hs = [] /\
     filter (is_notice n_ticket_escalated) ns = []).
Proof.
  intros Hpk Hfind Hnum.
  destruct (@Ticket_save_update_detail uf self original w id Hpk Hfind Hnum)
    as (s1 & k & hs1 & ns1 & hs2 & ns2 & hs3 & hs4 & ns4 & _ & E & _ & _ & _
        & L1 & L2 & L3 & L4 & _ & D4).
  eexists s1, _, _, _. split; [exact E|].
  destruct (ticks_fields k w) as (_ & _ & _ & _ & _ & Hh & Hno).
  cbn [history notifications emit set_tickets]. rewrite Hh, Hno.
  split; [reflexivity|]. split; [reflexivity|].
  destruct L1 as (T1 & U1 & _). destruct L2 as (T2 & U2 & _).
  destruct L3 as (T3 & _). destruct L4 as (T4 & U4 & L4).
  assert (Fh : filter (is_action h_escalated) (hs1 ++ hs2 ++ hs3 ++ hs4) = hs4).
  { rewrite !filter_app.
    rewrite (@filter_none _ (is_action h_escalated) hs1)
      by (eapply Forall_is_action; [|exact T1]; discriminate).
    rewrite (@filter_none _ (is_action h_escalated) hs2)
      by (apply Forall_assign_not; [discriminate | discriminate | exact T2]).
    rewrite (@filter_none _ (is_action h_escalated) hs3)
      by (eapply Forall_is_action; [|exact T3]; discriminate).
    cbn [app]. apply filter_all.
    eapply Forall_impl; [|exact T4]. intros h Hh'. unfold is_action.
    now rewrite Hh'. }
  assert (Fn : filter (is_notice n_ticket_escalated) (ns1 ++ ns2 ++ ns4) = ns4).
  { rewrite !filter_app.
    rewrite (@filter_none _ (is_notice n_ticket_escalated) ns1)
      by (eapply Forall_is_notice; [|exact U1]; discriminate).
    rewrite (@filter_none _ (is_notice n_ticket_escalated) ns2)
      by (eapply Forall_is_notice; [|exact U2]; discriminate).
    cbn [app]. apply filter_all.
    eapply Forall_impl; [|exact U4]. intros n Hn'. unfold is_notice.
    now rewrite Hn'. }
  rewrite Fh, Fn. destruct D4 as (D4 & D4').
  split.
  - intros Hi Ho. destruct (D4 Hi Ho) as (h & -> & Ht & Ha & Hv & Hr & Hf).
    exists h. split; [reflexivity|]. split; [congruence|].
    split; [exact Ha|]. split; [exact Hv|]. split; [exact Hr|].
    eapply Forall_impl; [|exact Hf]. intros n Hn'. congruence.
  - intros [Hi|Ho]; [exact (D4' Hi)|].
    destruct (is_escalated self) eqn:Hi; [|exact (D4' eq_refl)].
    apply L4. congruence.
Qed.

(** Marking the stored ticket as escalated by the agent writes one
    [escalated] record with the agent as actor and notifies the
    administrator. *)
Lemma escalation_logged_on_update_witness :
  exists self' w' hs ns h,
    Ticket_save false
      (set_escalation true None (Some demo_agent) demo_stored) demo_store
    = Some (self', w') /\
    history w' = history demo_store ++ hs /\
    notifications w' = notifications demo_store ++ ns /\
    filter (is_action h_escalated) hs = [h] /\
    actor h = Some demo_agent /\
    map recipient (filter (is_notice n_ticket_escalated) ns) = [demo_admin].
Proof.
  destruct (@escalation_logged_on_update
              false (set_escalation true None (Some demo_agent) demo_stored)
              demo_stored demo_store 1%positive eq_refl eq_refl eq_refl)
    as (self' & w' & hs & ns & E & Hh & Hn & Hc & _).
  destruct (Hc eq_refl eq_refl) as (h & Fh & _ & Ha & _ & Hr & _).
  exists self', w', hs, ns, h. auto 10.
Defined.

(** X4.  An update of a stored ticket leaves both logs as they were
    exactly when the status is the stored one, the assignee is absent or
    the stored one, the priority is the stored one, and the escalation
    flag is not raised: a change of subject, description, category or
    severity, an unassignment and a lowering of the escalation flag leave
    no trace, although the row is overwritten. *)
Theorem silent_update
    (self original : Ticket) (w : World) (id : positive) :
  pk self = Some id -> find_ticket id (tickets w) = Some original ->
  PyStr.truthy (ticket_number self) = true ->
  exists self' w',
    Ticket_save false self w = Some (self', w') /\
    find_ticket id (tickets w') = Some self' /\
    subject self' = subject self /\ description self' = description self /\
    category self' = category self /\ severity self' = severity self /\
    assigned_to self' = assigned_to self /\
    is_escalated self' = is_escalated self /\
    ((history w' = history w /\ notifications w' = notifications w) <->
     (status self = status original /\
      (assigned_to self = None \/
       opt_user_eqb (assigned_to self) (assigned_to original) = true) /\
      priority self = priority original /\
      (is_escalated self = false \/ is_escalated original = true))).
Proof.
  intros Hpk Hfind Hnum.
  destruct (@Ticket_save_update_detail false self original w id Hpk Hfind Hnum)
    as (s1 & k & hs1 & ns1 & hs2 & ns2 & hs3 & hs4 & ns4 & _ & E & Cs & Us & _
        & L1 & L2 & L3 & L4 & D3 & D4).
  eexists s1, _. split; [exact E|].
  destruct (ticks_fields k w) as (_ & _ & Ht & _ & _ & Hh & Hno).
  cbn [history notifications tickets emit set_tickets]. rewrite Hh, Hno.
  destruct Cs as (Epk & Esu & Ede & Eca & Ese & Est & Ecr & Eas).
  destruct Us as (Epr & Eesc & _ & Eby).
  split.
  { apply find_write_row; [exact (find_ticket_exists _ _ Hfind) | congruence]. }
  split; [auto|]. split; [auto|]. split; [auto|]. split; [auto|].
  split; [auto|]. split; [auto|].
  destruct L1 as (_ & _ & L1n & L1e). destruct L2 as (_ & _ & L2n & L2e).
  destruct L3 as (_ & L3e). destruct L4 as (_ & _ & L4e).
  destruct D4 as (D4 & D4').
  split.
  - intros [Hhs Hns].
    assert (Hnil : hs1 ++ hs2 ++ hs3 ++ hs4 = []).
    { apply app_inv_head with (l := history w). now rewrite app_nil_r. }
    apply app_eq_nil in Hnil. destruct Hnil as [H1 Hnil].
    apply app_eq_nil in Hnil. destruct Hnil as [H2 Hnil].
    apply app_eq_nil in Hnil. destruct Hnil as [H3 H4].
    split; [|split; [|split]].
    + destruct (status_eqb (status self) (status original)) eqn:Es.
      * now apply status_eqb_eq.
      * exfalso. assert (Hne : status self <> status original).
        { intros Heq. apply status_eqb_eq in Heq. congruence. }
        destruct (L1n Hne) as (h & n & Eh & _). congruence.
    + destruct (assigned_to self) as [a|] eqn:Ea; [|now left]. right.
      destruct (opt_user_eqb (Some a) (assigned_to original)) eqn:Eo;
        [reflexivity|].
      exfalso. destruct (L2n a eq_refl eq_refl) as (h & n & Eh & _).
      congruence.
    + destruct (priority_eqb (priority self) (priority original)) eqn:Ep.
      * now apply priority_eqb_eq.
      * exfalso. assert (Hne : priority self <> priority original).
        { intros Heq. apply priority_eqb_eq in Heq. congruence. }
        destruct (D3 Hne) as (h & Eh & _). congruence.
    + destruct (is_escalated self) eqn:Ei; [|now left]. right.
      destruct (is_escalated original) eqn:Eo; [reflexivity|].
      exfalso. destruct (D4 eq_refl eq_refl) as (h & Eh & _). congruence.
  - intros (Hst & Has & Hpr & Hes).
    destruct (L1e Hst) as [-> ->]. destruct (L2e Has) as [-> ->].
    rewrite (L3e Hpr).
    assert (H4 : hs4 = [] /\ ns4 = []).
    { destruct Hes as [Hi|Ho]; [exact (D4' Hi)|].
      destruct (is_escalated self) eqn:Ei; [|exact (D4' eq_refl)].
      apply L4e. congruence. }
    destruct H4 as [-> ->]. cbn [app]. now rewrite !app_nil_r.
Qed.

(** Rewording the stored ticket and taking it out of escalation writes
    the new row and nothing into the logs. *)
Lemma silent_update_witness :
  exists self' w',
    Ticket_save false
      {| pk := Some 1%positive; ticket_number := "BRTS-2024-0001";
         subject := "Printer is out of toner";
         description := "Second floor";
         category := Some 2%positive; severity := high; priority := medium;
         status := open; created_by := demo_client; assigned_to := None;
         resolved_at := None; closed_at := None; is_escalated := false;
         escalated_at := None; escalated_by := None |}
      demo_store
    = Some (self', w') /\
    find_ticket 1%positive (tickets w') = Some self' /\
    subject self' = "Printer is out of toner" /\
    history w' = history demo_store /\
    notifications w' = notifications demo_store.
Proof.
  destruct (@silent_update
              {| pk := Some 1%positive; ticket_number := "BRTS-2024-0001";
                 subject := "Printer is out of toner";
                 description := "Second floor";
                 category := Some 2%positive; severity := high;
                 priority := medium;
                 status := open; created_by := demo_client;
                 assigned_to := None;
                 resolved_at := None; closed_at := None;
                 is_escalated := false;
                 escalated_at := None; escalated_by := None |}
              demo_stored demo_store 1%positive eq_refl eq_refl eq_refl)
    as (self' & w' & E & Hf & Hs & _ & _ & _ & _ & _ & Hiff).
  destruct (proj2 Hiff) as [Hh Hn].
  - split; [reflexivity|]. split; [now left|]. split; [reflexivity|now left].
  - exists self', w'. auto 10.
Defined.

(** ** The shape of every successful save *)

Lemma update_log_refs instance original us hs1 ns1 hs2 ns2 hs3 hs4 ns4 :
  status_log instance original hs1 ns1 ->
  assignment_log instance original hs2 ns2 ->
  priority_log instance original hs3 ->
  escalation_log instance original hs4 ns4 ->
  priority_detail instance original hs3 ->
  escalation_detail instance original us hs4 ns4 ->
  Forall (fun h => h_ticket h = pk instance) (hs1 ++ hs2 ++ hs3 ++ hs4) /\
  Forall (fun n => n_ticket n = pk instance) (ns1 ++ ns2 ++ ns4).
Proof.
  intros (_ & _ & L1n & L1e) (_ & _ & L2n & L2e) (_ & L3e) (_ & _ & L4e)
         D3 (D4 & D4').
  assert (H1 : Forall (fun h => h_ticket h = pk instance) hs1 /\
               Forall (fun n => n_ticket n = pk instance) ns1).
  { destruct (status_eqb (status instance) (status original)) eqn:Es.
    - apply status_eqb_eq in Es. destruct (L1e Es) as [-> ->]. auto.
    - assert (Hne : status instance <> status original).
      { intros Heq. apply status_eqb_eq in Heq. congruence. }
      destruct (L1n Hne) as (h & n & -> & -> & Hh & _ & _ & _ & Hn). auto. }
  assert (H2 : Forall (fun h => h_ticket h = pk instance) hs2 /\
               Forall (fun n => n_ticket n = pk instance) ns2).
  { destruct (assigned_to instance) as [a|] eqn:Ea.
    - destruct (opt_user_eqb (Some a) (assigned_to original)) eqn:Eo.
      + destruct (L2e (or_intror eq_refl)) as [-> ->]. auto.
      + destruct (L2n a eq_refl eq_refl)
          as (h & n & -> & -> & Hh & _ & _ & _ & _ & _ & Hn). auto.
    - destruct (L2e (or_introl eq_refl)) as [-> ->]. auto. }
  assert (H3 : Forall (fun h => h_ticket h = pk instance) hs3).
  { destruct (priority_eqb (priority instance) (priority original)) eqn:Ep.
    - apply priority_eqb_eq in Ep. rewrite (L3e Ep). auto.
    - assert (Hne : priority instance <> priority original).
      { intros Heq. apply priority_eqb_eq in Heq. congruence. }
      destruct (D3 Hne) as (h & -> & Hh & _). auto. }
  assert (H4 : Forall (fun h => h_ticket h = pk instance) hs4 /\
               Forall (fun n => n_ticket n = pk instance) ns4).
  { destruct (is_escalated instance) eqn:Ei.
    - destruct (is_escalated original) eqn:Eo.
      + destruct (L4e eq_refl) as [-> ->]. auto.
      + destruct (D4 eq_refl eq_refl) as (h & -> & Hh & _ & _ & _ & Hn). auto.
    - destruct (D4' eq_refl) as [-> ->]. auto. }
  split; repeat (apply Forall_app; split); tauto.
Qed.

Lemma stamps_done_set_pk v t : stamps_done t -> stamps_done (set_pk v t).
Proof. exact (fun H => H). Qed.

(** Every successful save, as a change of the world: the clock is read
    [k] times, the ticket table is written once, and the two logs grow by
    records that all refer to the saved ticket.  The table write is an
    update of the rows under the instance's key, or the insertion of one
    row, which is followed by the creation record, the trigger
    notifications and at most one automatic assignment. *)
Lemma Ticket_save_shape uf self w self' w' :
  Ticket_save uf self w = Some (self', w') ->
  exists s1 k key hs ns,
    prepare_save self w = Some (s1, ticks k w) /\
    pk self' = Some key /\
    w' = emit hs ns (set_tickets (tickets w') (ticks k w)) /\
    Forall (fun h => h_ticket h = Some key) hs /\
    Forall (fun n => n_ticket n = Some key) ns /\
    ((pk self = Some key /\ self' = s1 /\
      tickets w' = map (write_row uf key s1) (tickets w) /\
      exists original,
        find_ticket key (tickets w) = Some original /\
        log_ticket_changes s1 original
          (set_tickets (map (write_row uf key s1) (tickets w)) (ticks k w))
        = Some (tt, w')) \/
     (uf = false /\ existsb (has_pk key) (tickets w) = false /\
      ((pk self = None /\ key = fresh_pk (tickets w)) \/
       (pk self = Some key /\ find_ticket key (tickets w) = None)) /\
      tickets w' = tickets w ++ [self'] /\
      (self' = set_pk (Some key) s1 \/
       exists best, self' = set_assigned_to (Some best) (set_pk (Some key) s1)) /\
      exists tn hs' ns',
        hs = creation_entry self' :: hs' /\ ns = tn ++ ns' /\
        map recipient tn = trigger_recipients w self /\
        Forall (fun n => notification_type n = n_trigger_activated) tn /\
        ((is_some (assigned_to self) = true \/ category self = None \/
          filter is_agent (users w) = []) /\
         hs' = [] /\ ns' = [] /\ self' = set_pk (Some key) s1 \/
         exists best h n pre post,
           assigned_to self = None /\ is_some (category self) = true /\
           self' = set_assigned_to (Some best) (set_pk (Some key) s1) /\
           hs' = [h] /\ ns' = [n] /\
           action_type h = h_assigned /\ actor h = None /\
           new_value h = Some (user_str best) /\
           notification_type n = n_ticket_assigned /\ recipient n = best /\
           filter is_agent (users w) = pre ++ best :: post /\
           (forall a, In a pre -> open_tickets best w < open_tickets a w) /\
           (forall a, In a post -> open_tickets best w <= open_tickets a w)))).
Proof.
  intros H.
  destruct (@Ticket_save_cases uf self w self' w' H)
    as (s1 & k & Hp & [(id & original & Hpk & Hf & E)
                      |(-> & key & tn & Hkey & Hfr & _ & R & T & E)]).
  - destruct (@prepare_save_frame _ _ _ _ Hp) as (Cs & _).
    assert (Hp1 : pk s1 = Some id) by (destruct Cs as (Epk & _); congruence).
    set (W := set_tickets (map (write_row uf id s1) (tickets w)) (ticks k w)) in *.
    destruct (log_ticket_changes_detail s1 original W)
      as (hs1 & ns1 & hs2 & ns2 & hs3 & hs4 & ns4 & El & L1 & L2 & L3 & L4
          & D3 & D4).
    erewrite bind_eq in E by exact El. injection E as <- <-.
    destruct (@update_log_refs s1 original _ hs1 ns1 hs2 ns2 hs3 hs4 ns4
                L1 L2 L3 L4 D3 D4) as [Rh Rn].
    rewrite Hp1 in Rh, Rn.
    exists s1, k, id, (hs1 ++ hs2 ++ hs3 ++ hs4), (ns1 ++ ns2 ++ ns4).
    split; [exact Hp|]. split; [exact Hp1|].
    split; [reflexivity|]. split; [exact Rh|]. split; [exact Rn|].
    left. split; [exact Hpk|]. split; [reflexivity|]. split; [reflexivity|].
    exists original. split; [exact Hf | exact El].
  - destruct (@prepare_save_frame _ _ _ _ Hp)
      as (Cs & Hnum & _ & _ & Hd & _).
    set (s2 := set_pk (Some key) s1) in *.
    set (W := emit [creation_entry s2] tn
                   (set_tickets (tickets w ++ [s2]) (ticks k w))) in *.
    assert (Hus : users W = users w)
      by (unfold W; cbn [users emit set_tickets];
          now destruct (ticks_fields k w) as (_ & _ & _ & -> & _)).
    assert (Eas : assigned_to s2 = assigned_to self)
      by (destruct Cs as (_ & _ & _ & _ & _ & _ & _ & Eas); now rewrite Eas).
    assert (Eca : category s2 = category self)
      by (destruct Cs as (_ & _ & _ & Eca & _); now rewrite Eca).
    assert (Tn : Forall (fun n => n_ticket n = Some key) tn)
      by (eapply Forall_impl; [|exact T]; now intros n [_ Hn]).
    assert (Tt : Forall (fun n => notification_type n = n_trigger_activated) tn)
      by (eapply Forall_impl; [|exact T]; now intros n [Hn _]).
    destruct (@auto_assign_ticket_outcome s2 (tickets w) key W self' w'
                eq_refl Hfr eq_refl Hnum (stamps_done_set_pk _ Hd) E)
      as [(-> & -> & Hskip)
         |(best & h & n & Ha & Hc & Hb & -> & -> & Hh1 & Hh2 & Hh3 & Hh4
           & Hn1 & Hn2 & Hn3)].
    + exists s1, k, key, [creation_entry s2], tn.
      split; [exact Hp|]. split; [reflexivity|].
      split; [reflexivity|].
      split; [repeat constructor|]. split; [exact Tn|].
      right. split; [reflexivity|]. split; [exact Hfr|].
      split; [exact Hkey|]. split; [reflexivity|]. split; [now left|].
      exists tn, [], []. rewrite app_nil_r.
      split; [reflexivity|]. split; [reflexivity|]. split; [exact R|].
      split; [exact Tt|]. left.
      rewrite Eas, Eca, Hus in Hskip. auto.
    + set (s3 := set_assigned_to (Some best) s2) in *.
      exists s1, k, key, [creation_entry s3; h], (tn ++ [n]).
      split; [exact Hp|]. split; [reflexivity|].
      split; [unfold W, emit, set_tickets;
              cbn [clock reads tickets users rules history notifications];
              rewrite <- !app_assoc; reflexivity|].
      split; [repeat constructor; exact Hh2|].
      split; [apply Forall_app; split; [exact Tn | repeat constructor; exact Hn3]|].
      right. split; [reflexivity|]. split; [exact Hfr|].
      split; [exact Hkey|]. split; [reflexivity|].
      split; [right; now exists best|].
      exists tn, [h], [n].
      split; [reflexivity|]. split; [reflexivity|]. split; [exact R|].
      split; [exact Tt|]. right.
      destruct (@least_loaded_first W _ best Hb) as (pre & post & Eg & P1 & P2).
      assert (Hop : forall a, open_tickets a W = open_tickets a w).
      { intros a. unfold open_tickets, W. cbn [tickets emit set_tickets].
        rewrite filter_app. cbn [filter]. rewrite Ha. cbn [andb].
        now rewrite app_nil_r. }
      rewrite Hus in Eg.
      exists best, h, n, pre, post.
      rewrite <- Eas, <- Eca.
      split; [exact Ha|]. split; [exact Hc|]. split; [reflexivity|].
      split; [reflexivity|]. split; [reflexivity|].
      split; [exact Hh1|]. split; [exact Hh3|]. split; [exact Hh4|].
      split; [exact Hn1|]. split; [exact Hn2|]. split; [exact Eg|].
      split; intros a Hin; rewrite <- !Hop; auto.
Qed.

Lemma Ticket_save_world uf self w self' w' :
  Ticket_save uf self w = Some (self', w') ->
  exists k hs ns,
    history w' = history w ++ hs /\
    notifications w' = notifications w ++ ns /\
    Forall (fun h => h_ticket h = pk self') hs /\
    Forall (fun n => n_ticket n = pk self') ns /\
    users w' = users w /\ rules w' = rules w /\ clock w' = clock w /\
    reads w' = k + reads w.
Proof.
  intros H.
  destruct (Ticket_save_shape _ _ _ H)
    as (s1 & k & key & hs & ns & _ & Hk & Hw & Rh & Rn & _).
  destruct (ticks_fields k w) as (Hc & Hr & _ & Hu & Hru & Hh & Hn).
  exists k, hs, ns. rewrite Hk.
  split; [rewrite Hw; cbn [history emit set_tickets]; now rewrite Hh|].
  split; [rewrite Hw; cbn [notifications emit set_tickets]; now rewrite Hn|].
  split; [exact Rh|]. split; [exact Rn|].
  split; [rewrite Hw; cbn [users emit set_tickets]; exact Hu|].
  split; [rewrite Hw; cbn [rules emit set_tickets]; exact Hru|].
  split; [rewrite Hw; cbn [clock emit set_tickets]; exact Hc|].
  rewrite Hw; cbn [reads emit set_tickets]; exact Hr.
Qed.

(** The row of a ticket just saved in full, read back by its key, is the
    instance that [save] returned; the rows of other keys are as they
    were. *)
Lemma Ticket_save_stored self w self' w' :
  Ticket_save false self w = Some (self', w') ->
  exists key,
    pk self' = Some key /\
    (pk self = None \/ pk self = Some key) /\
    find_ticket key (tickets w') = Some self' /\
    (forall other, other <> key ->
       find_ticket other (tickets w') = find_ticket other (tickets w)).
Proof.
  intros H.
  destruct (Ticket_save_shape _ _ _ H)
    as (s1 & k & key & hs & ns & _ & Hk & _ & _ & _
        & [(Hpk & -> & Ht & original & Hf & _)
          |(_ & Hfr & Hkey & Ht & _)]).
  - exists key. split; [exact Hk|]. split; [now right|]. rewrite Ht. split.
    + apply find_write_row; [exact (find_ticket_exists _ _ Hf) | exact Hk].
    + intros other Hne. now apply find_write_row_other.
  - exists key. split; [exact Hk|].
    split; [destruct Hkey as [[Hn _]|[Hs _]]; auto|]. rewrite Ht. split.
    + now apply find_ticket_appended.
    + intros other Hne. apply find_ticket_app_other.
      unfold has_pk. rewrite Hk. apply Pos.eqb_neq. congruence.
Qed.

(** ** Reading back what was saved *)

(** X5.  After a successful save of a ticket in full, looking the ticket
    up by the key of the returned instance gives that very instance,
    with every field as [save] left it, also when the handlers assigned
    an agent after the row was first written; the rows stored under
    other keys are unchanged. *)
Theorem saved_ticket_read_back
    (self self' : Ticket) (w w' : World) :
  Ticket_save false self w = Some (self', w') ->
  exists key,
    pk self' = Some key /\
    find_ticket key (tickets w') = Some self' /\
    (forall other, other <> key ->
       find_ticket other (tickets w') = find_ticket other (tickets w)).
Proof.
  intros H. destruct (Ticket_save_stored _ _ H) as (key & Hk & _ & Hf & Ho).
  exists key. auto.
Qed.

(** Creating a ticket with a category in the store that holds ticket 1:
    the new row is read back under key 2, assignee included, and row 1
    is untouched. *)
Lemma saved_ticket_read_back_witness :
  exists self' w',
    Ticket_save false demo_categorised demo_busy_store = Some (self', w') /\
    pk self' = Some 2%positive /\
    assigned_to self' = Some demo_agent2 /\
    find_ticket 2 (tickets w') = Some self' /\
    find_ticket 1 (tickets w') = find_ticket 1 (tickets demo_busy_store).
Proof.
  destruct (Ticket_save false demo_categorised demo_busy_store)
    as [[t w1]|] eqn:E; [|vm_compute in E; discriminate].
  exists t, w1. split; [reflexivity|].
  destruct (saved_ticket_read_back _ _ E) as (key & Hk & Hf & Ho).
  assert (Hpk : pk t = Some 2%positive)
    by (vm_compute in E; injection E as <- _; reflexivity).
  assert (Hkey : key = 2%positive) by congruence. subst key.
  split; [exact Hpk|].
  split; [vm_compute in E; injection E as <- _; reflexivity|].
  split; [exact Hf|]. apply Ho. discriminate.
Defined.

(** ** What a save leaves alone *)

(** X6.  A successful save only appends to the history and notification
    logs, and every record it appends refers to the saved ticket; it
    leaves the users and the rules as they were, never moves the clock
    back, and keeps the key of every stored row, adding at most one
    row, under the key of the returned instance. *)
Theorem save_only_appends
    (uf : bool) (self self' : Ticket) (w w' : World) :
  Ticket_save uf self w = Some (self', w') ->
  exists hs ns,
    history w' = history w ++ hs /\
    notifications w' = notifications w ++ ns /\
    Forall (fun h => h_ticket h = pk self') hs /\
    Forall (fun n => n_ticket n = pk self') ns /\
    users w' = users w /\ rules w' = rules w /\ clock w' = clock w /\
    reads w <= reads w' /\
    (map pk (tickets w') = map pk (tickets w) \/
     map pk (tickets w') = map pk (tickets w) ++ [pk self']).
Proof.
  intros H.
  destruct (Ticket_save_world _ _ _ H)
    as (k & hs & ns & Hh & Hn & Rh & Rn & Hu & Hr & Hc & Hk).
  exists hs, ns.
  split; [exact Hh|]. split; [exact Hn|]. split; [exact Rh|].
  split; [exact Rn|]. split; [exact Hu|]. split; [exact Hr|].
  split; [exact Hc|]. split; [lia|].
  destruct (Ticket_save_shape _ _ _ H)
    as (s1 & k' & key & hs0 & ns0 & _ & Hpk & _ & _ & _
        & [(_ & -> & Ht & _)|(_ & _ & _ & Ht & _)]).
  - left. rewrite Ht. now apply map_pk_write_row.
  - right. rewrite Ht, map_app. reflexivity.
Qed.

(** Resolving the stored ticket appends one history record and one
    notification about ticket 1 and leaves the users, the rules and the
    keys of the table as they were. *)
Lemma save_only_appends_witness :
  exists self' w' hs ns,
    Ticket_save false (set_status resolved demo_stored) demo_store
    = Some (self', w') /\
    history w' = history demo_store ++ hs /\
    notifications w' = notifications demo_store ++ ns /\
    Forall (fun h => h_ticket h = pk self') hs /\
    Forall (fun n => n_ticket n = pk self') ns /\
    users w' = users demo_store /\ rules w' = rules demo_store /\
    reads demo_store <= reads w'.
Proof.
  destruct (Ticket_save false (set_status resolved demo_stored) demo_store)
    as [[t w1]|] eqn:E; [|vm_compute in E; discriminate].
  destruct (save_only_appends _ _ _ E)
    as (hs & ns & Hh & Hn & Rh & Rn & Hu & Hr & _ & Hk & _).
  exists t, w1, hs, ns. auto 10.
Defined.

(** ** Creation *)



(** X8.  Creating a ticket that already has an assignee, or has no
    category, or when no user has the agent role, appends exactly the
    [created] record to the history and sends the trigger notifications
    only: the assignee supplied is stored, but no [assigned] record is
    written and the assignee gets no [ticket_assigned] notification. *)
Theorem creation_without_auto_assignment
    (self self' : Ticket) (w w' : World) :
  pk self = None ->
  is_some (assigned_to self) = true \/ category self = None \/
  filter is_agent (users w) = [] ->
  Ticket_save false self w = Some (self', w') ->
  exists tn,
    tickets w' = tickets w ++ [self'] /\
    assigned_to self' = assigned_to self /\
    history w' = history w ++ [creation_entry self'] /\
    notifications w' = notifications w ++ tn /\
    map recipient tn = trigger_recipients w self /\
    Forall (fun n => notification_type n = n_trigger_activated) tn.
Proof.
  intros Hpk Hskip H.
  destruct (Ticket_save_shape _ _ _ H)
    as (s1 & k & key & hs & ns & Hp & _ & Hw & _ & _
        & [(Hp' & _)|(_ & _ & _ & Ht & _ & tn & hs' & ns' & -> & -> & R & T
                     & [(_ & -> & -> & Es)
                       |(best & h & n & pre & post & Ha & Hc & _ & _ & _ & _ & _
                         & _ & _ & _ & Eg & _)])]).
  - congruence.
  - exists tn. split; [exact Ht|].
    destruct (@prepare_save_frame _ _ _ _ Hp) as (Cs & _).
    destruct Cs as (_ & _ & _ & _ & _ & _ & _ & Eas).
    destruct (ticks_fields k w) as (_ & _ & _ & _ & _ & Hh & Hn).
    split; [rewrite Es; cbn [assigned_to set_pk]; now rewrite Eas|].
    split; [rewrite Hw; cbn [history emit set_tickets]; now rewrite Hh|].
    split; [rewrite Hw; cbn [notifications emit set_tickets];
            now rewrite Hn, app_nil_r|].
    auto.
  - exfalso. destruct Hskip as [Hs|[Hs|Hs]].
    + rewrite Ha in Hs. discriminate.
    + rewrite Hs in Hc. discriminate.
    + rewrite Hs in Eg. now destruct pre.
Qed.

(** A ticket created as assigned to the first agent: the agent is
    stored as assignee, the history holds the creation record alone and
    no notification is sent. *)
Lemma creation_without_auto_assignment_witness :
  exists self' w',
    Ticket_save false (set_assigned_to (Some demo_agent) demo_categorised)
                demo_idle_world
    = Some (self', w') /\
    assigned_to self' = Some demo_agent /\
    history w' = [creation_entry self'] /\
    notifications w' = [].
Proof.
  destruct (Ticket_save false
              (set_assigned_to (Some demo_agent) demo_categorised)
              demo_idle_world)
    as [[t w1]|] eqn:E; [|vm_compute in E; discriminate].
  destruct (@creation_without_auto_assignment
              (set_assigned_to (Some demo_agent) demo_categorised) t
              demo_idle_world w1 eq_refl (or_introl eq_refl) E)
    as (tn & _ & Ha & Hh & Hn & R & _).
  exists t, w1. split; [reflexivity|]. split; [exact Ha|].
  split; [exact Hh|].
  rewrite Hn. destruct tn; [reflexivity | discriminate R].
Defined.

(** X9.  Saving an instance whose key names no stored row inserts it as
    a new ticket: the row is appended under that key and the [created]
    record is written, but the priority and the escalation fields are
    stored as supplied, since keyword prioritization and trigger rules
    run only for an instance without a key.  A save restricted to the
    assignee column of an instance that is not stored raises. *)
Theorem save_with_unknown_key
    (self : Ticket) (w : World) (key : positive) :
  pk self = Some key -> find_ticket key (tickets w) = None ->
  Ticket_save true self w = None /\
  (forall self' w',
     Ticket_save false self w = Some (self', w') ->
     pk self' = Some key /\
     tickets w' = tickets w ++ [self'] /\
     same_urgency self self' /\
     exists hs, history w' = history w ++ creation_entry self' :: hs).
Proof.
  intros Hpk Hf. split.
  - destruct (Ticket_save true self w) as [[t w1]|] eqn:E; [|reflexivity].
    exfalso.
    destruct (Ticket_save_shape _ _ _ E)
      as (s1 & k & key' & hs & ns & _ & _ & _ & _ & _
          & [(Hp & _ & _ & original & Hf' & _)|(Hu & _)]);
      [|discriminate].
    assert (key' = key) by congruence. subst. congruence.
  - intros self' w' H.
    destruct (Ticket_save_shape _ _ _ H)
      as (s1 & k & key' & hs & ns & Hp & Hk & Hw & _ & _
          & [(Hp' & _ & _ & original & Hf' & _)
            |(_ & _ & Hkey & Ht & Es & tn & hs' & ns' & -> & _)]).
    + exfalso. assert (key' = key) by congruence. subst. congruence.
    + assert (key' = key)
        by (destruct Hkey as [[Hn _]|[Hs _]]; congruence). subst key'.
      split; [exact Hk|]. split; [exact Ht|]. split.
      * destruct (@prepare_save_frame _ _ _ _ Hp) as (_ & _ & _ & Us & _).
        specialize (Us (is_some_pk _ Hpk)).
        destruct Es as [->|(best & ->)]; exact Us.
      * exists hs'. rewrite Hw. cbn [history emit set_tickets].
        now destruct (ticks_fields k w) as (_ & _ & _ & _ & _ & -> & _).
Qed.

(** A ticket that carries key 7, unknown to the store, and the word
    "outage" is inserted with the priority it came with. *)
Lemma save_with_unknown_key_witness :
  Ticket_save true (set_pk (Some 7%positive) demo_outage) demo_store = None /\
  exists self' w',
    Ticket_save false (set_pk (Some 7%positive) demo_outage) demo_store
    = Some (self', w') /\
    pk self' = Some 7%positive /\ priority self' = low /\
    tickets w' = tickets demo_store ++ [self'].
Proof.
  destruct (@save_with_unknown_key
              (set_pk (Some 7%positive) demo_outage) demo_store 7%positive
              eq_refl eq_refl) as [Hn Hs].
  split; [exact Hn|].
  destruct (Ticket_save false (set_pk (Some 7%positive) demo_outage) demo_store)
    as [[t w1]|] eqn:E; [|vm_compute in E; discriminate].
  destruct (Hs t w1 eq_refl) as (Hk & Ht & (Hp & _) & _).
  exists t, w1. split; [reflexivity|]. split; [exact Hk|].
  split; [symmetry; exact Hp | exact Ht].
Defined.

(** ** Ticket numbers: uniqueness and failure *)

Lemma numbered_inj y n m :
  n <= 9999 -> m <= 9999 -> numbered y n = numbered y m -> n = m.
Proof.
  intros Hn Hm E.
  pose proof (numbered_ltb y Hn Hm) as H1.
  pose proof (numbered_ltb y Hm Hn) as H2.
  pose proof (numbered_ltb y Hn Hn) as H3.
  rewrite <- E in H2. rewrite <- E in H1.
  rewrite H3 in H1. rewrite H3 in H2.
  rewrite Nat.ltb_irrefl in H1, H2.
  symmetry in H1, H2. apply Nat.ltb_ge in H1. apply Nat.ltb_ge in H2. lia.
Qed.

Lemma in_seqs_le_max n seqs : In n seqs -> n <= fold_right Nat.max 0 seqs.
Proof.
  induction seqs as [|x l IH]; [intros []|].
  cbn [fold_right]. intros [->|Hin]; [lia|]. specialize (IH Hin). lia.
Qed.

Lemma numbered_prefix y n : prefix (year_prefix y) (numbered y n) = true.
Proof. apply prefix_app. unfold numbered. eexists. reflexivity. Qed.

(** The number given to a new ticket, in a store whose numbers of the
    current year are well formed. *)
Lemma Ticket_save_new_number self w seqs :
  pk self = None -> ticket_number self = EmptyString ->
  map ticket_number
      (filter (fun t => prefix (year_prefix (year (clock w (reads w))))
                               (ticket_number t)) (tickets w))
  = map (numbered (year (clock w (reads w)))) seqs ->
  Forall (fun n => n <= 9999) seqs ->
  exists self' w',
    Ticket_save false self w = Some (self', w') /\
    ticket_number self'
    = numbered (year (clock w (reads w))) (S (fold_right Nat.max 0 seqs)).
Proof.
  intros Hpk Hnum Hmap Hb.
  pose proof (@generate_ticket_number_next w seqs Hmap Hb) as Hg.
  cbv zeta in Hg.
  set (y := year (clock w (reads w))) in *.
  set (next := S (fold_right Nat.max 0 seqs)) in *.
  assert (Ha : assign_number self w
               = Some (set_ticket_number (numbered y next) self, tick w)).
  { unfold assign_number. rewrite Hnum. simpl.
    erewrite bind_eq by exact Hg. reflexivity. }
  destruct (@prepare_save_total _ _ _ _ Ha) as (s1 & w1 & Hp).
  destruct (@Ticket_save_new_total _ _ _ _ Hpk Hp) as (self' & w' & E).
  exists self', w'. split; [exact E|].
  destruct (@Ticket_save_instance _ _ _ _ _ E) as (s1' & w1' & Hp' & Hs).
  rewrite Hp in Hp'. injection Hp' as <- <-.
  destruct (same_bka_fields Hs) as (<- & _).
  destruct (@prepare_save_new _ _ _ _ Hpk Hp) as (a & wa & b & wb & Ha' & Hb' & Ht).
  rewrite Ha in Ha'. injection Ha' as <- <-.
  destruct (stamp_times_frame b wb) as (s & k & Es & _ & _ & Ns & _).
  rewrite Es in Ht. injection Ht as <- _. rewrite Ns.
  unfold check_trigger_rules, get_world in Hb'.
  erewrite bind_eq in Hb' by reflexivity.
  apply fold_rules_frame in Hb'. destruct Hb' as (_ & -> & _).
  destruct (auto_prioritize_frame
              (set_ticket_number (numbered y next) self)) as (_ & -> & _).
  reflexivity.
Qed.

(** X10.  In a store whose ticket numbers of the current year are all of
    the form [BRTS-year-NNNN] with sequence numbers up to 9998, the
    number generated for a new ticket is carried by no stored ticket, so
    that after the save the new row is the only one with its number. *)
Theorem generated_number_is_unused
    (self : Ticket) (w : World) (seqs : list nat) :
  let y := year (clock w (reads w)) in
  pk self = None -> ticket_number self = EmptyString ->
  map ticket_number
      (filter (fun t => prefix (year_prefix y) (ticket_number t)) (tickets w))
  = map (numbered y) seqs ->
  Forall (fun n => n <= 9998) seqs ->
  exists self' w',
    Ticket_save false self w = Some (self', w') /\
    Forall (fun t => ticket_number t <> ticket_number self') (tickets w) /\
    filter (fun t => String.eqb (ticket_number t) (ticket_number self'))
           (tickets w')
    = [self'].
Proof.
  cbv zeta. intros Hpk Hnum Hmap Hb.
  assert (Hb' : Forall (fun n => n <= 9999) seqs).
  { eapply Forall_impl; [|exact Hb]. intros n Hn. cbv beta in Hn.
    apply Nat.le_trans with 9998; [exact Hn|].
    change 9998 with (99 * 100 + 98). change 9999 with (99 * 100 + 99). lia. }
  destruct (@Ticket_save_new_number self w seqs Hpk Hnum Hmap Hb')
    as (self' & w' & E & Hn).
  set (y := year (clock w (reads w))) in *.
  set (m := fold_right Nat.max 0 seqs) in *.
  assert (Hm : S m <= 9999).
  { assert (Hm : m <= 9998).
    { unfold m. clear - Hb. induction Hb as [|x l Hx _ IH]; cbn [fold_right].
      - change 9998 with (99 * 100 + 98). lia.
      - apply Nat.max_lub; assumption. }
    change 9998 with (99 * 100 + 98) in Hm.
    change 9999 with (99 * 100 + 99). lia. }
  assert (Hun : Forall (fun t => ticket_number t <> ticket_number self')
                       (tickets w)).
  { apply Forall_forall. intros t Hin Heq. rewrite Hn in Heq.
    assert (Hf : In (ticket_number t)
                    (map ticket_number
                         (filter (fun t => prefix (year_prefix y)
                                                  (ticket_number t))
                                 (tickets w)))).
    { apply in_map. apply filter_In. split; [exact Hin|].
      rewrite Heq. apply numbered_prefix. }
    rewrite Hmap in Hf. apply in_map_iff in Hf.
    destruct Hf as (n & En & Hn').
    assert (Hle : n <= m) by (now apply in_seqs_le_max).
    assert (Hn9 : n <= 9999) by (eapply Nat.le_trans; [exact Hle|]; lia).
    rewrite Heq in En. apply numbered_inj in En; [lia | exact Hn9 | exact Hm]. }
  exists self', w'. split; [exact E|]. split; [exact Hun|].
  destruct (Ticket_save_shape _ _ _ E)
    as (s1 & k & key & hs & ns & _ & _ & _ & _ & _
        & [(Hp & _)|(_ & _ & _ & Ht & _)]); [congruence|].
  rewrite Ht, filter_app. cbn [filter]. rewrite String.eqb_refl.
  rewrite filter_none; [reflexivity|].
  eapply Forall_impl; [|exact Hun]. intros t Ht'. cbv beta in Ht'.
  now apply String.eqb_neq.
Qed.

(** In the store that holds number 0001 of 2024, the number given to the
    next ticket is carried by the new row alone. *)
Lemma generated_number_is_unused_witness :
  exists self' w',
    Ticket_save false demo_ticket demo_store = Some (self', w') /\
    Forall (fun t => ticket_number t <> ticket_number self')
           (tickets demo_store) /\
    filter (fun t => String.eqb (ticket_number t) (ticket_number self'))
           (tickets w')
    = [self'].
Proof.
  apply (@generated_number_is_unused demo_ticket demo_store [1]
           eq_refl eq_refl eq_refl).
  constructor; [|constructor].
  change 9998 with (99 * 100 + 98). lia.
Defined.

(** X11.  When the stored number that is greatest in code-point order
    among those of the current year has no third hyphen-separated field,
    or one that is not an integer, generating a number raises, and so
    does every save of a ticket that has no number yet. *)
Theorem malformed_number_blocks_numbering
    (uf : bool) (self last_ticket : Ticket) (w : World) :
  ticket_number self = EmptyString ->
  last_by_number
    (filter (fun t => prefix (year_prefix (year (clock w (reads w))))
                             (ticket_number t)) (tickets w))
  = Some last_ticket ->
  (forall field,
     nth_error (PyStr.split "-" (ticket_number last_ticket)) 2 = Some field ->
     PyStr.int field = None) ->
  generate_ticket_number w = None /\ Ticket_save uf self w = None.
Proof.
  intros Hnum Hlast Hbad.
  assert (Hg : generate_ticket_number w = None).
  { unfold generate_ticket_number.
    erewrite bind_eq by reflexivity.
    unfold get_world. erewrite bind_eq by reflexivity.
    cbn [tickets tick]. rewrite Hlast.
    destruct (nth_error (PyStr.split "-" (ticket_number last_ticket)) 2)
      as [field|] eqn:Ef.
    - rewrite (Hbad field eq_refl). reflexivity.
    - reflexivity. }
  split; [exact Hg|].
  unfold Ticket_save. cbn [save_fuel].
  unfold prepare_save, assign_number. rewrite Hnum. cbn [PyStr.truthy negb].
  unfold bind at 1 2 3 4 5. rewrite Hg. reflexivity.
Qed.

(** With the number BRTS-2024-A17 in the store, no ticket can be
    created in 2024. *)
Lemma malformed_number_blocks_numbering_witness :
  generate_ticket_number demo_legacy_store = None /\
  Ticket_save false demo_ticket demo_legacy_store = None.
Proof.
  apply (@malformed_number_blocks_numbering
           false demo_ticket (demo_numbered 1 "BRTS-2024-A17")
           demo_legacy_store eq_refl eq_refl).
  intros field Hf. vm_compute in Hf. injection Hf as <-. reflexivity.
Defined.

(** ** Trigger rules escalate once *)

Lemma fold_rules_once text l t w t' w' :
  foldM (apply_rule text) l t w = Some (t', w') ->
  (is_escalated t = true ->
   w' = w /\ is_escalated t' = true /\
   escalated_at t' = escalated_at t /\ escalated_by t' = escalated_by t) /\
  (is_escalated t = false ->
   (w' = w /\ is_escalated t' = false) \/
   (w' = tick w /\ is_escalated t' = true /\
    escalated_at t' = Some (clock w (reads w)) /\ escalated_by t' = None)) /\
  (Forall (fun r => any_in (get_keyword_list r) text = true ->
                    action r = act_escalate \/ action r = act_notify) l ->
   priority t'
   = if is_escalated t' && negb (is_escalated t)
     then step_up (priority t) else priority t).
Proof.
  revert t w. induction l as [|r l IH]; intros t w H.
  - cbn in H. injection H as <- <-.
    split; [auto|]. split; [auto|]. intros _.
    destruct (is_escalated t); reflexivity.
  - cbn [foldM] in H. apply bind_Some in H.
    destruct H as (t1 & w1 & Hr & Hl).
    specialize (IH _ _ Hl). destruct IH as (IH1 & IH2 & IH3).
    assert (Hcase :
              (t1 = t /\ w1 = w) \/
              (exists p, t1 = set_priority p t /\ w1 = w /\
                         any_in (get_keyword_list r) text = true /\
                         action r <> act_escalate /\ action r <> act_notify) \/
              (is_escalated t = false /\
               any_in (get_keyword_list r) text = true /\
               t1 = bump_priority
                      (set_escalation true (Some (clock w (reads w))) None t) /\
               w1 = tick w)).
    { unfold apply_rule in Hr.
      destruct (any_in (get_keyword_list r) text) eqn:Em.
      - destruct (action r) eqn:Ea.
        + destruct (is_escalated t) eqn:Ei.
          * rewrite escalate_escalated in Hr by exact Ei.
            injection Hr as <- <-. now left.
          * rewrite escalate_fresh in Hr by exact Ei.
            injection Hr as <- <-. right. right. auto.
        + injection Hr as <- <-. now left.
        + injection Hr as <- <-. right. left. exists high.
          repeat split; discriminate.
        + injection Hr as <- <-. right. left. exists critical.
          repeat split; discriminate.
      - injection Hr as <- <-. now left. }
    destruct Hcase as [[-> ->]|[(p & -> & -> & Hm & Hne & Hnn)
                               |(Hi & Hm & -> & ->)]].
    + split; [exact IH1|]. split; [exact IH2|].
      intros F. apply IH3. now inversion F.
    + split; [exact IH1|]. split; [exact IH2|].
      intros F. inversion F as [|? ? Hr' _]. destruct (Hr' Hm); contradiction.
    + assert (Hi1 : is_escalated
                      (bump_priority
                         (set_escalation true (Some (clock w (reads w))) None t))
                    = true).
      { unfold bump_priority.
        destruct (priority (set_escalation _ _ _ t)); reflexivity. }
      destruct (IH1 Hi1) as (-> & He & Hat & Hby).
      split; [intros Hc; congruence|].
      split.
      * intros _. right. split; [reflexivity|]. split; [exact He|].
        rewrite Hat, Hby. unfold bump_priority.
        destruct (priority (set_escalation _ _ _ t)); split; reflexivity.
      * intros F. rewrite IH3 by now inversion F.
        rewrite Hi1, He, Hi. cbn [negb andb].
        rewrite priority_bump. reflexivity.
Qed.

(** X12.  [check_trigger_rules] escalates at most once however many
    escalation rules match: it reads the clock at most once, an
    escalated ticket keeps its escalation time and author, a ticket not
    yet escalated ends either untouched by escalation or escalated by
    the system at the time of the call; and when the matching active
    rules are all escalation or notify rules, the priority goes up one
    step on escalation and is unchanged otherwise. *)
Theorem trigger_rules_escalate_once
    (self self' : Ticket) (w w' : World) :
  check_trigger_rules self w = Some (self', w') ->
  (is_escalated self = true ->
   w' = w /\ is_escalated self' = true /\
   escalated_at self' = escalated_at self /\
   escalated_by self' = escalated_by self) /\
  (is_escalated self = false ->
   (w' = w /\ is_escalated self' = false) \/
   (w' = tick w /\ is_escalated self' = true /\
    escalated_at self' = Some (clock w (reads w)) /\
    escalated_by self' = None)) /\
  ((forall r, In r (rules w) -> is_active r = true ->
              rule_matches r (subject self ++ " " ++ description self) = true ->
              action r = act_escalate \/ action r = act_notify) ->
   priority self'
   = if is_escalated self' && negb (is_escalated self)
     then step_up (priority self) else priority self).
Proof.
  intros H. unfold check_trigger_rules, get_world in H.
  erewrite bind_eq in H by reflexivity.
  destruct (fold_rules_once _ _ _ _ H) as (H1 & H2 & H3).
  split; [exact H1|]. split; [exact H2|].
  intros Hall. apply H3. apply Forall_forall. intros r Hin Hm.
  apply filter_In in Hin. destruct Hin as [Hin Hact].
  apply (Hall r Hin Hact). now rewrite <- any_in_rule_matches.
Qed.

(** With two escalation rules matching "outage", a low ticket not yet
    escalated ends as medium, escalated by the system at the first
    reading of the clock. *)
Lemma trigger_rules_escalate_once_witness :
  exists self' w',
    check_trigger_rules demo_outage demo_twice_escalating_world
    = Some (self', w') /\
    w' = tick demo_twice_escalating_world /\
    is_escalated self' = true /\ escalated_by self' = None /\
    priority self' = medium.
Proof.
  destruct (check_trigger_rules demo_outage demo_twice_escalating_world)
    as [[t w1]|] eqn:E; [|vm_compute in E; discriminate].
  destruct (trigger_rules_escalate_once _ _ E) as (_ & H2 & H3).
  exists t, w1. split; [reflexivity|].
  assert (He : is_escalated t = true)
    by (vm_compute in E; injection E as <- _; reflexivity).
  destruct (H2 eq_refl) as [(_ & Hf)|(Hw & _ & _ & Hby)]; [congruence|].
  split; [exact Hw|]. split; [exact He|]. split; [exact Hby|].
  rewrite H3, He; [reflexivity|].
  intros r [<-|[<-|[]]] _ _; now left.
Defined.

(** ** Keyword lists *)

Lemma lower_char_idem c :
  PyStr.lower_char (PyStr.lower_char c) = PyStr.lower_char c.
Proof.
  destruct c as [b0 b1 b2 b3 b4 b5 b6 b7];
    destruct b0, b1, b2, b3, b4, b5, b6, b7; reflexivity.
Qed.

Lemma lower_char_space c :
  PyStr.is_space (PyStr.lower_char c) = PyStr.is_space c.
Proof.
  destruct c as [b0 b1 b2 b3 b4 b5 b6 b7];
    destruct b0, b1, b2, b3, b4, b5, b6, b7; reflexivity.
Qed.

Lemma lower_char_comma c :
  Ascii.eqb (PyStr.lower_char c) "," = Ascii.eqb c ",".
Proof.
  destruct c as [b0 b1 b2 b3 b4 b5 b6 b7];
    destruct b0, b1, b2, b3, b4, b5, b6, b7; reflexivity.
Qed.

Lemma lower_idem s : PyStr.lower (PyStr.lower s) = PyStr.lower s.
Proof.
  induction s as [|c r IH]; [reflexivity|].
  cbn [PyStr.lower]. now rewrite lower_char_idem, IH.
Qed.

Lemma lower_lstrip s : PyStr.lstrip (PyStr.lower s) = PyStr.lower (PyStr.lstrip s).
Proof.
  induction s as [|c r IH]; [reflexivity|].
  cbn [PyStr.lower PyStr.lstrip]. rewrite lower_char_space.
  destruct (PyStr.is_space c); [exact IH | reflexivity].
Qed.

Lemma lower_rstrip s : PyStr.rstrip (PyStr.lower s) = PyStr.lower (PyStr.rstrip s).
Proof.
  induction s as [|c r IH]; [reflexivity|].
  cbn [PyStr.lower PyStr.rstrip]. rewrite IH, lower_char_space.
  destruct (PyStr.rstrip r) as [|d r']; cbn [PyStr.lower].
  - destruct (PyStr.is_space c); reflexivity.
  - reflexivity.
Qed.

Lemma rstrip_idem s : PyStr.rstrip (PyStr.rstrip s) = PyStr.rstrip s.
Proof.
  induction s as [|c r IH]; [reflexivity|].
  cbn [PyStr.rstrip]. destruct (PyStr.rstrip r) as [|d r'] eqn:Er.
  - destruct (PyStr.is_space c) eqn:Ec; [reflexivity|].
    cbn [PyStr.rstrip]. now rewrite Ec.
  - cbn [PyStr.rstrip] in *. now rewrite IH.
Qed.

Lemma lstrip_head s :
  PyStr.lstrip s = EmptyString \/
  exists c r, PyStr.lstrip s = String c r /\ PyStr.is_space c = false.
Proof.
  induction s as [|c r IH]; [now left|].
  cbn [PyStr.lstrip]. destruct (PyStr.is_space c) eqn:Ec; [exact IH|].
  right. now exists c, r.
Qed.

Lemma strip_idem s : PyStr.strip (PyStr.strip s) = PyStr.strip s.
Proof.
  unfold PyStr.strip.
  destruct (lstrip_head s) as [->|(c & r & -> & Ec)]; [reflexivity|].
  assert (Hl : PyStr.lstrip (PyStr.rstrip (String c r))
               = PyStr.rstrip (String c r)).
  { cbn [PyStr.rstrip]. destruct (PyStr.rstrip r).
    - rewrite Ec. cbn [PyStr.lstrip]. now rewrite Ec.
    - cbn [PyStr.lstrip]. now rewrite Ec. }
  rewrite Hl. apply rstrip_idem.
Qed.

Lemma split_pieces_no_sep sep s :
  Forall (fun p => no_sep sep p = true) (PyStr.split sep s).
Proof.
  induction s as [|c r IH]; [repeat constructor|].
  cbn [PyStr.split]. destruct (Ascii.eqb c sep) eqn:Ec.
  - constructor; [reflexivity | exact IH].
  - destruct (PyStr.split sep r) as [|h t].
    + repeat constructor. cbn [no_sep]. now rewrite Ec.
    + inversion IH as [|? ? Hh Ht]. constructor; [|exact Ht].
      cbn [no_sep]. now rewrite Ec, Hh.
Qed.

Lemma lstrip_no_sep sep s :
  no_sep sep s = true -> no_sep sep (PyStr.lstrip s) = true.
Proof.
  induction s as [|c r IH]; [auto|].
  cbn [PyStr.lstrip]. destruct (PyStr.is_space c); [|auto].
  cbn [no_sep]. intros H. apply andb_prop in H. now apply IH.
Qed.

Lemma rstrip_no_sep sep s :
  no_sep sep s = true -> no_sep sep (PyStr.rstrip s) = true.
Proof.
  induction s as [|c r IH]; [auto|].
  cbn [no_sep PyStr.rstrip]. intros H. apply andb_prop in H.
  destruct H as [Hc Hr]. specialize (IH Hr).
  destruct (PyStr.rstrip r) as [|d r'].
  - destruct (PyStr.is_space c); [reflexivity|].
    cbn [no_sep]. now rewrite Hc.
  - cbn [no_sep] in *. now rewrite Hc, IH.
Qed.

Lemma lower_no_comma s :
  no_sep "," s = true -> no_sep "," (PyStr.lower s) = true.
Proof.
  induction s as [|c r IH]; [auto|].
  cbn [no_sep PyStr.lower]. intros H. apply andb_prop in H.
  destruct H as [Hc Hr]. now rewrite lower_char_comma, Hc, IH.
Qed.

(** X13.  Every keyword returned by [get_keyword_list] is non-empty, in
    lower case, free of leading and trailing white space and free of
    commas; in particular a rule never carries the empty keyword, which
    would occur in every text, whatever commas or blanks its keyword
    text ends with, and a rule whose keyword text is empty has no
    keyword at all. *)
Theorem keyword_list_normalised (rule : TriggerRule) :
  Forall (fun kw =>
            PyStr.truthy kw = true /\ PyStr.lower kw = kw /\
            PyStr.strip kw = kw /\ no_sep "," kw = true)
         (get_keyword_list rule) /\
  (forall text, PyStr.contains EmptyString text = true) /\
  (keywords rule = EmptyString ->
   get_keyword_list rule = [] /\
   forall text, any_in (get_keyword_list rule) text = false).
Proof.
  split; [|split].
  - unfold get_keyword_list. apply Forall_forall. intros kw Hin.
    apply in_map_iff in Hin. destruct Hin as (k & <- & Hin).
    apply filter_In in Hin. destruct Hin as [Hin Ht].
    split; [|split; [|split]].
    + destruct (PyStr.strip k); [discriminate | reflexivity].
    + apply lower_idem.
    + unfold PyStr.strip at 1.
      rewrite lower_lstrip, lower_rstrip. f_equal.
      apply strip_idem.
    + apply lower_no_comma. unfold PyStr.strip.
      apply rstrip_no_sep, lstrip_no_sep.
      pose proof (split_pieces_no_sep "," (keywords rule)) as F.
      rewrite Forall_forall in F. now apply F.
  - intros text. destruct text; reflexivity.
  - intros E. unfold get_keyword_list. rewrite E.
    split; [reflexivity|]. intros text. reflexivity.
Qed.

(** ** Views: escalation by hand *)

Lemma bump_priority_core t :
  same_core t (bump_priority t) /\
  ticket_number (bump_priority t) = ticket_number t /\
  is_escalated (bump_priority t) = is_escalated t /\
  escalated_at (bump_priority t) = escalated_at t /\
  escalated_by (bump_priority t) = escalated_by t.
Proof.
  unfold bump_priority, same_core. destruct (priority t); cbn; tauto.
Qed.

Lemma staff_request request user (view : Request -> M Response) w :
  req_user request = Some user -> req_method request = POST ->
  is_agent_or_admin (Some user) = true ->
  login_required (user_passes_test is_agent_or_admin (require_POST view))
                 request w
  = view request w.
Proof.
  intros Hu Hm Hs. unfold login_required, user_passes_test, require_POST.
  now rewrite Hu, Hm, Hs.
Qed.

(** X14.  [views.escalate_ticket], called with POST by an agent or an
    administrator on a stored ticket that has its number.  The answer is
    always the success message.  A ticket not yet escalated is stored as
    escalated by the caller at the time of the call, one step up the
    priority ladder; the history gains a [priority_changed] record
    (unless the ticket was critical) followed by one [escalated] record
    whose actor is the caller, and every administrator is notified.  A
    ticket already escalated keeps its escalation fields and priority,
    and nothing is written to either log. *)
Theorem escalate_ticket_view
    (tid : positive) (user : CustomUser) (request : Request)
    (ticket : Ticket) (w : World) :
  req_user request = Some user -> req_method request = POST ->
  is_agent_or_admin (Some user) = true ->
  find_ticket tid (tickets w) = Some ticket ->
  PyStr.truthy (ticket_number ticket) = true ->
  exists ticket' w' hs ns,
    escalate_ticket (Npos tid) request w
    = Some (redirect_ticket_detail
              (Some tid) true
              ("Ticket " ++ ticket_number ticket ++ " has been escalated!"),
            w') /\
    find_ticket tid (tickets w') = Some ticket' /\
    is_escalated ticket' = true /\
    history w' = history w ++ hs /\
    notifications w' = notifications w ++ ns /\
    (is_escalated ticket = true ->
     hs = [] /\ ns = [] /\
     escalated_by ticket' = escalated_by ticket /\
     escalated_at ticket' = escalated_at ticket /\
     priority ticket' = priority ticket) /\
    (is_escalated ticket = false ->
     escalated_by ticket' = Some user /\
     escalated_at ticket' = Some (clock w (reads w)) /\
     priority ticket' = step_up (priority ticket) /\
     map recipient ns = filter is_admin (users w) /\
     Forall (fun n => notification_type n = n_ticket_escalated) ns /\
     exists h,
       action_type h = h_escalated /\ actor h = Some user /\
       h_ticket h = Some tid /\
       (priority ticket = critical -> hs = [h]) /\
       (priority ticket <> critical ->
        exists hp,
          hs = [hp; h] /\ action_type hp = h_priority_changed /\
          old_value hp = Some (priority_value (priority ticket)) /\
          new_value hp
          = Some (priority_value (step_up (priority ticket))))).
Proof.
  intros Hu Hm Hs Hf Hnum.
  unfold escalate_ticket. rewrite (@staff_request request user _ w Hu Hm Hs).
  unfold escalate_ticket_body, get_world.
  erewrite bind_eq by reflexivity.
  cbn [get_ticket_or_404]. rewrite Hf, Hu.
  assert (Hpk : pk ticket = Some tid) by exact (find_ticket_pk _ _ Hf).
  destruct (is_escalated ticket) eqn:Ei.
  - erewrite bind_eq by (apply escalate_escalated; exact Ei).
    destruct (@Ticket_save_update_detail false ticket ticket w tid Hpk Hf Hnum)
      as (s1 & k & hs1 & ns1 & hs2 & ns2 & hs3 & hs4 & ns4 & _ & E & Cs & Us
          & Nn & L1 & L2 & L3 & L4 & _ & _).
    destruct L1 as (_ & _ & _ & L1). destruct (L1 eq_refl) as [-> ->].
    destruct L2 as (_ & _ & _ & L2).
    destruct (L2 (or_intror (opt_user_eqb_refl _))) as [-> ->].
    destruct L3 as (_ & L3). rewrite (L3 eq_refl) in E.
    destruct L4 as (_ & _ & L4). destruct (L4 eq_refl) as [-> ->].
    erewrite bind_eq by exact E.
    destruct Cs as (Epk & _). destruct Us as (Epr & Eesc & Eat & Eby).
    exists s1. eexists. exists [], [].
    split; [unfold ret; rewrite <- Epk, Hpk, Nn; reflexivity|].
    cbn [tickets history notifications emit set_tickets app].
    destruct (ticks_fields k w) as (_ & _ & _ & _ & _ & Hh & Hn).
    rewrite Hh, Hn, !app_nil_r.
    split; [apply find_write_row;
            [exact (find_ticket_exists _ _ Hf) | congruence]|].
    split; [congruence|]. split; [reflexivity|]. split; [reflexivity|].
    split; [intros _; repeat split; congruence | discriminate].
  - erewrite bind_eq by (apply escalate_fresh; exact Ei).
    set (now := clock w (reads w)).
    set (t1 := bump_priority (set_escalation true (Some now) (Some user) ticket)).
    destruct (bump_priority_core
                (set_escalation true (Some now) (Some user) ticket))
      as (Cb & Nb & Eb & Ab & Bb).
    fold t1 in Cb, Nb, Eb, Ab, Bb. cbn in Nb, Eb, Ab, Bb.
    assert (Hpk1 : pk t1 = Some tid)
      by (destruct Cb as (Epk & _); cbn in Epk; congruence).
    assert (Hpr1 : priority t1 = step_up (priority ticket))
      by (unfold t1; rewrite priority_bump; reflexivity).
    assert (Hf1 : find_ticket tid (tickets (tick w)) = Some ticket) by exact Hf.
    assert (Hnum1 : PyStr.truthy (ticket_number t1) = true) by now rewrite Nb.
    destruct (@Ticket_save_update_detail false t1 ticket (tick w) tid
                Hpk1 Hf1 Hnum1)
      as (s1 & k & hs1 & ns1 & hs2 & ns2 & hs3 & hs4 & ns4 & _ & E & Cs & Us
          & Nn & L1 & L2 & L3 & L4 & D3 & D4).
    destruct Cb as (_ & _ & _ & _ & _ & Est & _ & Eas).
    cbn in Est, Eas.
    destruct L1 as (_ & _ & _ & L1).
    destruct (L1 (eq_sym Est)) as [-> ->].
    destruct L2 as (_ & _ & _ & L2).
    assert (Hsame : opt_user_eqb (assigned_to t1) (assigned_to ticket) = true)
      by (rewrite <- Eas; apply opt_user_eqb_refl).
    destruct (L2 (or_intror Hsame)) as [-> ->].
    destruct L4 as (T4 & U4 & _). destruct D4 as (D4 & _).
    rewrite Ei in D4.
    destruct (D4 Eb eq_refl) as (h & -> & Ht & Ha & _ & Hr & _).
    inversion T4 as [|? ? Hh4 _]. subst.
    erewrite bind_eq by exact E.
    destruct Cs as (Epk & _). destruct Us as (Epr & Eesc & Eat & Eby).
    exists s1. eexists. exists (hs3 ++ [h]), ns4.
    split; [unfold ret; rewrite <- Epk, Hpk1, Nn, Nb; reflexivity|].
    cbn [tickets history notifications emit set_tickets app].
    destruct (ticks_fields k (tick w)) as (_ & _ & _ & _ & _ & Hh & Hn).
    rewrite Hh, Hn. cbn [history notifications tick].
    split; [apply find_write_row;
            [exact (find_ticket_exists _ _ Hf) | congruence]|].
    split; [congruence|]. split; [reflexivity|]. split; [reflexivity|].
    split; [discriminate|]. intros _.
    split; [congruence|]. split; [rewrite <- Eat, Ab; reflexivity|].
    split; [congruence|]. split; [exact Hr|]. split; [exact U4|].
    exists h. split; [exact Hh4|]. split; [congruence|].
    split; [congruence|].
    destruct L3 as (T3 & L3).
    split.
    + intros Hc. rewrite L3; [reflexivity|]. rewrite Hpr1, Hc. reflexivity.
    + intros Hc.
      assert (Hne : priority t1 <> priority ticket).
      { rewrite Hpr1. destruct (priority ticket); try discriminate.
        now contradiction Hc. }
      destruct (D3 Hne) as (hp & -> & _ & _ & Ho & Hv).
      exists hp. split; [reflexivity|].
      split; [now inversion T3|]. split; [exact Ho|]. now rewrite <- Hpr1.
Qed.

(** The agent escalates the stored ticket, medium and not escalated: it
    is stored as high, escalated by the agent, the history gains a
    priority record and an escalation record, and the administrator is
    notified. *)
Lemma escalate_ticket_view_witness :
  exists ticket' w' hp h n,
    escalate_ticket 1%N {| req_user := Some demo_agent; req_method := POST |}
                    demo_store
    = Some (redirect_ticket_detail
              (Some 1%positive) true
              "Ticket BRTS-2024-0001 has been escalated!", w') /\
    find_ticket 1 (tickets w') = Some ticket' /\
    is_escalated ticket' = true /\
    escalated_by ticket' = Some demo_agent /\
    priority ticket' = high /\
    history w' = [hp; h] /\
    action_type hp = h_priority_changed /\ action_type h = h_escalated /\
    notifications w' = [n] /\ recipient n = demo_admin.
Proof.
  destruct (@escalate_ticket_view
              1%positive demo_agent
              {| req_user := Some demo_agent; req_method := POST |}
              demo_stored demo_store eq_refl eq_refl eq_refl eq_refl eq_refl)
    as (t' & w' & hs & ns & E & Hf & He & Hh & Hn & _ & Hfresh).
  destruct (Hfresh eq_refl) as (Hby & _ & Hp & Hr & _ & h & Hh1 & _ & _ & _ & Hc).
  destruct Hc as (hp & -> & Hp1 & _); [discriminate|].
  destruct ns as [|n [|n' ns]]; try discriminate Hr.
  injection Hr as Hr.
  exists t', w', hp, h, n. auto 15.
Defined.

(** ** Views: assignment by hand *)

Lemma get_agent_or_404_staff agent_id w a :
  get_agent_or_404 agent_id w = Some (Some a) ->
  In a (users w) /\ is_client a = false /\
  (role a = agent \/ role a = admin).
Proof.
  unfold get_agent_or_404. destruct (int_signed agent_id) as [id|]; [|discriminate].
  intros [= H]. apply find_some in H. destruct H as [Hin H].
  apply andb_prop in H. destruct H as [_ H].
  split; [exact Hin|]. unfold is_client.
  destruct (role a); cbn in H; try discriminate; auto.
Qed.

(** X15.  [views.assign_ticket], called with POST by an agent or an
    administrator on a stored ticket that has its number.  With a
    non-empty [agent_id], only a stored user with the agent or the
    administrator role is ever assigned: the ticket is stored with that
    user as assignee; if the user differs from the stored assignee, one
    [assigned] or [reassigned] record without actor is written and the
    user is notified, otherwise nothing is written; an [agent_id] that
    names no such user gives a not-found answer and changes nothing,
    and one that is not an integer makes the view raise.  With no
    [agent_id], or an empty one, the ticket is stored unassigned and
    nothing is written to either log. *)
Theorem assign_ticket_view
    (tid : positive) (user : CustomUser) (request : Request)
    (ticket : Ticket) (w : World) (agent_id : option string) :
  req_user request = Some user -> req_method request = POST ->
  is_agent_or_admin (Some user) = true ->
  find_ticket tid (tickets w) = Some ticket ->
  PyStr.truthy (ticket_number ticket) = true ->
  (agent_id = None \/ agent_id = Some EmptyString ->
   exists ticket' w',
     assign_ticket (Npos tid) agent_id request w
     = Some (redirect_ticket_detail (Some tid) true "Ticket unassigned!", w') /\
     find_ticket tid (tickets w') = Some ticket' /\
     assigned_to ticket' = None /\
     history w' = history w /\ notifications w' = notifications w) /\
  (forall s,
     agent_id = Some s -> PyStr.truthy s = true ->
     get_agent_or_404 s w = Some None ->
     assign_ticket (Npos tid) agent_id request w
     = Some (response_not_found, w)) /\
  (forall s,
     agent_id = Some s -> PyStr.truthy s = true ->
     int_signed s = None ->
     assign_ticket (Npos tid) agent_id request w = None) /\
  (forall s a,
     agent_id = Some s -> PyStr.truthy s = true ->
     get_agent_or_404 s w = Some (Some a) ->
     In a (users w) /\ is_client a = false /\
     exists ticket' w' hs ns,
       assign_ticket (Npos tid) agent_id request w
       = Some (redirect_ticket_detail
                 (Some tid) true
                 ("Ticket assigned to " ++ full_name_or_username a ++ "!"),
               w') /\
       find_ticket tid (tickets w') = Some ticket' /\
       assigned_to ticket' = Some a /\
       history w' = history w ++ hs /\
       notifications w' = notifications w ++ ns /\
       (opt_user_eqb (Some a) (assigned_to ticket) = true ->
        hs = [] /\ ns = []) /\
       (opt_user_eqb (Some a) (assigned_to ticket) = false ->
        exists h n,
          hs = [h] /\ ns = [n] /\
          action_type h
          = (if is_some (assigned_to ticket) then h_reassigned
             else h_assigned) /\
          actor h = None /\ h_ticket h = Some tid /\
          recipient n = a /\ notification_type n = n_ticket_assigned)).
Proof.
  intros Hu Hm Hs Hf Hnum.
  assert (Hpk : pk ticket = Some tid) by exact (find_ticket_pk _ _ Hf).
  assert (Hbody : assign_ticket (Npos tid) agent_id request w
                  = assign_ticket_body (Npos tid) agent_id request w)
    by (unfold assign_ticket; apply (@staff_request request user _ w Hu Hm Hs)).
  (* the save of the ticket with a new assignee *)
  assert (Hsave : forall o,
             exists s1 w' hs ns,
               Ticket_save false (set_assigned_to o ticket) w = Some (s1, w') /\
               pk s1 = Some tid /\
               find_ticket tid (tickets w') = Some s1 /\
               assigned_to s1 = o /\
               history w' = history w ++ hs /\
               notifications w' = notifications w ++ ns /\
               assignment_log (set_assigned_to o ticket) ticket hs ns).
  { intros o.
    destruct (@Ticket_save_update_detail
                false (set_assigned_to o ticket) ticket w tid Hpk Hf Hnum)
      as (s1 & k & hs1 & ns1 & hs2 & ns2 & hs3 & hs4 & ns4 & _ & E & Cs & Us
          & Nn & L1 & L2 & L3 & L4 & _ & _).
    destruct L1 as (_ & _ & _ & L1). destruct (L1 eq_refl) as [-> ->].
    destruct L3 as (_ & L3). rewrite (L3 eq_refl) in E.
    destruct L4 as (_ & _ & L4). destruct (L4 eq_refl) as [-> ->].
    cbn [app] in E. rewrite !app_nil_r in E.
    destruct Cs as (Epk & _ & _ & _ & _ & _ & _ & Eas).
    cbn in Epk, Eas.
    exists s1. eexists. exists hs2, ns2.
    split; [exact E|]. split; [congruence|].
    cbn [tickets history notifications emit set_tickets].
    destruct (ticks_fields k w) as (_ & _ & _ & _ & _ & Hh & Hn).
    rewrite Hh, Hn.
    split; [apply find_write_row;
            [exact (find_ticket_exists _ _ Hf) | congruence]|].
    auto. }
  split; [|split; [|split]].
  - intros Hnone. rewrite Hbody.
    unfold assign_ticket_body, get_world. erewrite bind_eq by reflexivity.
    cbn [get_ticket_or_404]. rewrite Hf.
    destruct (Hsave None) as (s1 & w' & hs & ns & E & Hp1 & Hf1 & Ha & Hh & Hn & L).
    destruct L as (_ & _ & _ & L). destruct (L (or_introl eq_refl)) as [-> ->].
    rewrite !app_nil_r in *.
    exists s1, w'.
    split; [destruct Hnone as [->| ->]; erewrite bind_eq by exact E;
            unfold ret; rewrite Hp1; reflexivity|].
    auto.
  - intros s -> Hs' Hg. rewrite Hbody.
    unfold assign_ticket_body, get_world. erewrite bind_eq by reflexivity.
    cbn [get_ticket_or_404]. rewrite Hf.
    destruct s as [|c r]; [discriminate|]. rewrite Hg. reflexivity.
  - intros s -> Hs' Hg. rewrite Hbody.
    unfold assign_ticket_body, get_world. erewrite bind_eq by reflexivity.
    cbn [get_ticket_or_404]. rewrite Hf.
    destruct s as [|c r]; [discriminate|].
    unfold get_agent_or_404. rewrite Hg. reflexivity.
  - intros s a -> Hs' Hg.
    destruct (get_agent_or_404_staff _ _ Hg) as (Hin & Hcl & _).
    split; [exact Hin|]. split; [exact Hcl|].
    rewrite Hbody.
    unfold assign_ticket_body, get_world. erewrite bind_eq by reflexivity.
    cbn [get_ticket_or_404]. rewrite Hf.
    destruct s as [|c r]; [discriminate|]. rewrite Hg.
    destruct (Hsave (Some a))
      as (s1 & w' & hs & ns & E & Hp1 & Hf1 & Ha & Hh & Hn & L).
    exists s1, w', hs, ns.
    split; [erewrite bind_eq by exact E; unfold ret; rewrite Hp1; reflexivity|].
    split; [exact Hf1|]. split; [exact Ha|]. split; [exact Hh|].
    split; [exact Hn|].
    destruct L as (_ & Tn & Lc & Le). cbn [assigned_to set_assigned_to] in Lc, Le.
    split.
    + intros Heq. apply Le. now right.
    + intros Hne.
      destruct (Lc a eq_refl Hne)
        as (h & n & -> & -> & Ht & Hty & Hac & _ & _ & Hr & _).
      exists h, n. cbn [pk set_assigned_to] in Ht.
      split; [reflexivity|]. split; [reflexivity|]. split; [exact Hty|].
      split; [exact Hac|]. split; [congruence|]. split; [exact Hr|].
      now inversion Tn.
Qed.

(** The administrator assigns the stored ticket to the agent with key 2:
    it is stored as assigned to that agent, one [assigned] record
    without actor is written and the agent is notified; asking for the
    client with key 1 gives a not-found answer and changes nothing. *)
Lemma assign_ticket_view_witness :
  (exists ticket' w' h n,
     assign_ticket 1%N (Some "2")
                   {| req_user := Some demo_admin; req_method := POST |}
                   demo_store
     = Some (redirect_ticket_detail
               (Some 1%positive) true "Ticket assigned to Mike Johnson!", w') /\
     find_ticket 1 (tickets w') = Some ticket' /\
     assigned_to ticket' = Some demo_agent /\
     history w' = [h] /\ action_type h = h_assigned /\ actor h = None /\
     notifications w' = [n] /\ recipient n = demo_agent) /\
  assign_ticket 1%N (Some "1")
                {| req_user := Some demo_admin; req_method := POST |}
                demo_store
  = Some (response_not_found, demo_store).
Proof.
  split.
  - destruct (@assign_ticket_view
                1%positive demo_admin
                {| req_user := Some demo_admin; req_method := POST |}
                demo_stored demo_store (Some "2")
                eq_refl eq_refl eq_refl eq_refl eq_refl) as (_ & _ & _ & H).
    destruct (H "2" demo_agent eq_refl eq_refl eq_refl)
      as (_ & _ & t' & w' & hs & ns & E & Hf & Ha & Hh & Hn & _ & Hc).
    destruct (Hc eq_refl) as (h & n & -> & -> & Hty & Hac & _ & Hr & _).
    exists t', w', h, n. auto 10.
  - destruct (@assign_ticket_view
                1%positive demo_admin
                {| req_user := Some demo_admin; req_method := POST |}
                demo_stored demo_store (Some "1")
                eq_refl eq_refl eq_refl eq_refl eq_refl) as (_ & H & _).
    exact (H "1" eq_refl eq_refl eq_refl).
Defined.

(** ** Views: who may write *)

(** X16.  [views.escalate_ticket], [views.assign_ticket] and
    [views.update_ticket] do nothing unless the caller is logged in with
    the agent or the administrator role and the method is POST: an
    anonymous user or a client is sent to the login page whatever the
    method, an agent or administrator using another method gets a
    method-not-allowed answer, and in both cases the store is left
    exactly as it was. *)
Theorem staff_views_refuse_others
    (tid : N) (agent_id : option string)
    (form : option (Status * Priority * Priority * option CustomUser
                    * positive))
    (request : Request) (w : World) :
  is_agent_or_admin (req_user request) = false \/ req_method request <> POST ->
  exists resp,
    escalate_ticket tid request w = Some (resp, w) /\
    assign_ticket tid agent_id request w = Some (resp, w) /\
    update_ticket tid form request w = Some (resp, w) /\
    resp = (if is_agent_or_admin (req_user request)
            then response_not_allowed else redirect_to_login).
Proof.
  intros H.
  unfold escalate_ticket, assign_ticket, update_ticket, login_required,
    user_passes_test, require_POST.
  destruct (req_user request) as [u|] eqn:Eu; cbn [is_some].
  - destruct (is_agent_or_admin (Some u)) eqn:Es.
    + destruct H as [H|H]; [discriminate|].
      destruct (req_method request); [| contradiction |];
        eexists; repeat split.
    + eexists; repeat split.
  - cbn [is_agent_or_admin]. eexists; repeat split.
Qed.

(** A client posting an escalation, an assignment or an update is sent
    to the login page and the store is unchanged. *)
Lemma staff_views_refuse_others_witness :
  escalate_ticket 1%N {| req_user := Some demo_client; req_method := POST |}
                  demo_store
  = Some (redirect_to_login, demo_store) /\
  assign_ticket 1%N (Some "2")
                {| req_user := Some demo_client; req_method := POST |}
                demo_store
  = Some (redirect_to_login, demo_store) /\
  update_ticket 1%N (Some (closed, low, low, None, 1%positive))
                {| req_user := Some demo_client; req_method := POST |}
                demo_store
  = Some (redirect_to_login, demo_store).
Proof.
  destruct (@staff_views_refuse_others
              1%N (Some "2") (Some (closed, low, low, None, 1%positive))
              {| req_user := Some demo_client; req_method := POST |}
              demo_store (or_introl eq_refl)) as (resp & E1 & E2 & E3 & ->).
  split; [exact E1 | split; [exact E2 | exact E3]].
Defined.

(** X17.  A client may comment on, and upload files to, their own
    tickets only: for a ticket created by someone else, [add_comment]
    and [upload_attachment] answer "forbidden" whatever the form holds,
    and write nothing.  A ticket that does not exist gives a not-found
    answer to every logged-in user. *)
Theorem client_kept_off_foreign_tickets
    (tid : positive) (user : CustomUser) (request : Request)
    (w : World) (form_c : option (string * bool))
    (size_mb : nat -> string)
    (form_a : option (FieldFile * AttachmentType * string)) :
  req_user request = Some user -> req_method request = POST ->
  (forall ticket,
     find_ticket tid (tickets w) = Some ticket ->
     is_client user = true -> user_eqb (created_by ticket) user = false ->
     add_comment (Npos tid) form_c request w
     = Some (response_forbidden
               "You don't have permission to comment on this ticket.", w) /\
     upload_attachment size_mb (Npos tid) form_a request w
     = Some (response_forbidden
               "You don't have permission to upload files to this ticket.",
             w)) /\
  (find_ticket tid (tickets w) = None ->
   add_comment (Npos tid) form_c request w = Some (response_not_found, w) /\
   upload_attachment size_mb (Npos tid) form_a request w
   = Some (response_not_found, w)).
Proof.
  intros Hu Hm.
  unfold add_comment, upload_attachment, login_required, require_POST.
  rewrite Hu, Hm. cbn [is_some].
  unfold add_comment_body, upload_attachment_body, get_world.
  split.
  - intros ticket Hf Hc Hne.
    split; erewrite bind_eq by reflexivity;
      cbn [get_ticket_or_404]; rewrite Hf, Hu, Hc, Hne; reflexivity.
  - intros Hf.
    split; erewrite bind_eq by reflexivity;
      cbn [get_ticket_or_404]; rewrite Hf; reflexivity.
Qed.

(** The second client can neither comment on nor attach a file to the
    first client's ticket. *)
Lemma client_kept_off_foreign_tickets_witness :
  add_comment 1%N (Some ("Any news?", false))
              {| req_user := Some demo_client2; req_method := POST |}
              demo_store
  = Some (response_forbidden
            "You don't have permission to comment on this ticket.",
          demo_store) /\
  upload_attachment demo_size_mb 1%N (Some (demo_file, att_general, ""))
                    {| req_user := Some demo_client2; req_method := POST |}
                    demo_store
  = Some (response_forbidden
            "You don't have permission to upload files to this ticket.",
          demo_store).
Proof.
  exact (proj1 (@client_kept_off_foreign_tickets
                  1%positive demo_client2
                  {| req_user := Some demo_client2; req_method := POST |}
                  demo_store (Some ("Any news?", false)) demo_size_mb
                  (Some (demo_file, att_general, "")) eq_refl eq_refl)
               demo_stored eq_refl eq_refl eq_refl).
Defined.

(** ** Views: comments *)

Lemma comment_post_save_created instance w :
  exists h ns,
    comment_post_save instance true w = Some (tt, emit [h] ns w) /\
    action_type h = h_comment_added /\
    actor h = Some (author instance) /\
    h_ticket h = pk (c_ticket instance) /\
    map recipient ns = comment_recipients instance /\
    Forall (fun n => notification_type n = n_new_comment /\
                     n_ticket n = pk (c_ticket instance)) ns.
Proof.
  unfold comment_post_save.
  erewrite bind_eq by apply create_history_emit.
  rewrite forM_notify_emit, emit_emit. cbn [app].
  eexists _, _. split; [reflexivity|].
  split; [reflexivity|]. split; [reflexivity|]. split; [reflexivity|].
  split.
  - rewrite map_map. cbn [recipient]. rewrite map_id.
    unfold comment_recipients.
    destruct (user_eqb (created_by (c_ticket instance)) (author instance));
      destruct (assigned_to (c_ticket instance)) as [a|];
      try destruct (user_eqb a (author instance));
      destruct (is_internal instance); cbn [negb app andb filter];
      try reflexivity;
      repeat match goal with
             | |- context [is_client ?u] => destruct (is_client u)
             end; reflexivity.
  - apply Forall_forall. intros n Hn. apply in_map_iff in Hn.
    destruct Hn as (u & <- & _). split; reflexivity.
Qed.

Lemma comment_recipients_spec instance :
  Forall (fun u => user_eqb u (author instance) = false)
         (comment_recipients instance) /\
  (is_internal instance = true ->
   Forall (fun u => is_client u = false) (comment_recipients instance)) /\
  (user_eqb (created_by (c_ticket instance)) (author instance) = true ->
   is_internal instance = false ->
   comment_recipients instance
   = match assigned_to (c_ticket instance) with
     | Some a => if user_eqb a (author instance) then [] else [a]
     | None => []
     end).
Proof.
  unfold comment_recipients.
  split; [|split].
  - apply Forall_forall. intros u Hin. apply filter_In in Hin.
    destruct Hin as [Hin _]. apply in_app_or in Hin.
    destruct Hin as [Hin|Hin].
    + destruct (user_eqb (created_by (c_ticket instance)) (author instance))
        eqn:E; [destruct Hin|].
      destruct Hin as [<-|[]]. exact E.
    + destruct (assigned_to (c_ticket instance)) as [a|]; [|destruct Hin].
      destruct (user_eqb a (author instance)) eqn:E; [destruct Hin|].
      destruct Hin as [<-|[]]. exact E.
  - intros Hi. apply Forall_forall. intros u Hin. apply filter_In in Hin.
    destruct Hin as [_ Hf]. rewrite Hi in Hf. cbn [andb] in Hf.
    now apply negb_true_iff in Hf.
  - intros Hc Hi. rewrite Hc, Hi. cbn [app andb negb].
    apply filter_all. apply Forall_forall. reflexivity.
Qed.

(** X18.  [views.add_comment], called with POST and a valid form by a
    user who may comment on the stored ticket (anyone but a client who
    did not create it).  One [comment_added] record with the caller as
    actor is written.  The caller is never notified.  A comment posted
    as internal by an agent or an administrator notifies no user with
    the client role.  A comment by a client is never internal, whatever
    the form says: on the client's own ticket it notifies exactly the
    assignee, if there is one. *)
Theorem add_comment_view
    (tid : positive) (user : CustomUser) (request : Request)
    (ticket : Ticket) (w : World) (text : string) (internal : bool) :
  req_user request = Some user -> req_method request = POST ->
  find_ticket tid (tickets w) = Some ticket ->
  is_client user = false \/ user_eqb (created_by ticket) user = true ->
  exists h ns,
    add_comment (Npos tid) (Some (text, internal)) request w
    = Some (redirect_ticket_detail (Some tid) true
                                   "Comment added successfully!",
            emit [h] ns w) /\
    action_type h = h_comment_added /\ actor h = Some user /\
    h_ticket h = Some tid /\
    Forall (fun n => notification_type n = n_new_comment /\
                     n_ticket n = Some tid /\
                     user_eqb (recipient n) user = false) ns /\
    (is_client user = false -> internal = true ->
     Forall (fun n => is_client (recipient n) = false) ns) /\
    (is_client user = true ->
     map recipient ns
     = match assigned_to ticket with
       | Some a => if user_eqb a user then [] else [a]
       | None => []
       end).
Proof.
  intros Hu Hm Hf Hperm.
  assert (Hpk : pk ticket = Some tid) by exact (find_ticket_pk _ _ Hf).
  unfold add_comment, login_required, require_POST.
  rewrite Hu, Hm. cbn [is_some].
  unfold add_comment_body, get_world. erewrite bind_eq by reflexivity.
  cbn [get_ticket_or_404]. rewrite Hf, Hu.
  assert (Hgo : is_client user && negb (user_eqb (created_by ticket) user)
                = false).
  { destruct Hperm as [-> | ->]; [reflexivity|]. apply andb_false_r. }
  rewrite Hgo.
  set (comment := {| c_ticket := ticket; author := user; content := text;
                     is_internal := if is_client user then false
                                    else internal |}).
  destruct (comment_post_save_created comment w)
    as (h & ns & E & Ht & Ha & Hk & Hr & F).
  destruct (comment_recipients_spec comment) as (S1 & S2 & S3).
  cbn [author c_ticket is_internal comment] in Ha, Hk, S1, S2, S3, F.
  erewrite bind_eq by exact E.
  exists h, ns. unfold ret. rewrite Hpk.
  split; [reflexivity|]. split; [exact Ht|]. split; [exact Ha|].
  split; [congruence|].
  rewrite <- Hr in S1, S2, S3.
  split.
  - apply Forall_forall. intros n Hin.
    rewrite Forall_forall in F. destruct (F n Hin) as [F1 F2].
    split; [exact F1|]. split; [congruence|].
    rewrite Forall_forall in S1. apply S1. now apply in_map.
  - split.
    + intros Hc Hi. rewrite Hc in S2. specialize (S2 Hi).
      apply Forall_forall. intros n Hin.
      rewrite Forall_forall in S2. apply S2. now apply in_map.
    + intros Hc. rewrite Hc in S3.
      destruct Hperm as [Hp|Hp]; [congruence|].
      exact (S3 Hp eq_refl).
Qed.

(** The agent adds an internal comment to the client's ticket, which is
    assigned to the agent: the comment is logged and no one is notified,
    the client being left out and the agent being the author. *)
Lemma add_comment_view_witness :
  exists h,
    add_comment 1%N (Some ("Toner ordered", true))
                {| req_user := Some demo_agent; req_method := POST |}
                demo_store_assigned
    = Some (redirect_ticket_detail (Some 1%positive) true
                                   "Comment added successfully!",
            emit [h] [] demo_store_assigned) /\
    action_type h = h_comment_added /\ actor h = Some demo_agent.
Proof.
  destruct (@add_comment_view
              1%positive demo_agent
              {| req_user := Some demo_agent; req_method := POST |}
              (set_assigned_to (Some demo_agent) demo_stored)
              demo_store_assigned "Toner ordered" true
              eq_refl eq_refl eq_refl (or_introl eq_refl))
    as (h & ns & E & Ht & Ha & _).
  exists h. split; [|split; [exact Ht | exact Ha]].
  destruct ns as [|n ns]; [exact E|]. exfalso.
  pose proof (f_equal (fun o => match o with
                                | Some (_, w1) => length (notifications w1)
                                | None => 0
                                end) E) as Hl.
  vm_compute in Hl. discriminate Hl.
Defined.

(** ** Views: attachments *)

(** X19.  [views.upload_attachment], called with POST and a valid form
    holding a named file by a user who may write to the stored ticket.
    The name and the size recorded are those of the uploaded file,
    copied by [TicketAttachment.save] before the handler runs.  One
    [file_attached] record with the caller as actor is written, and a
    [ticket_updated] notification goes to the creator of the ticket
    unless the caller, then to the assignee if there is one unless the
    caller: unlike internal comments, attachments of every type,
    including root cause analyses uploaded by staff, are announced to a
    client who created the ticket. *)
Theorem upload_attachment_view
    (size_mb : nat -> string)
    (tid : positive) (user : CustomUser) (request : Request)
    (ticket : Ticket) (w : World)
    (f : FieldFile) (ty : AttachmentType) (text : string) :
  req_user request = Some user -> req_method request = POST ->
  find_ticket tid (tickets w) = Some ticket ->
  is_client user = false \/ user_eqb (created_by ticket) user = true ->
  PyStr.truthy (ff_name f) = true ->
  exists h ns,
    upload_attachment size_mb (Npos tid) (Some (f, ty, text)) request w
    = Some (redirect_ticket_detail (Some tid) true
                                   "File uploaded successfully!",
            emit [h] ns w) /\
    action_type h = h_file_attached /\ actor h = Some user /\
    h_ticket h = Some tid /\
    h_description h
    = ("File attached: " ++ ff_name f ++ " ("
       ++ attachment_type_value ty ++ ")")%string /\
    new_value h
    = Some ("File: " ++ ff_name f ++ ", Size: " ++ size_mb (ff_size f)
            ++ "MB")%string /\
    map recipient ns
    = (if user_eqb (created_by ticket) user then [] else [created_by ticket])
      ++ match assigned_to ticket with
         | Some a => if user_eqb a user then [] else [a]
         | None => []
         end /\
    Forall (fun n => notification_type n = n_ticket_updated /\
                     n_ticket n = Some tid) ns.
Proof.
  intros Hu Hm Hf Hperm Hname.
  assert (Hpk : pk ticket = Some tid) by exact (find_ticket_pk _ _ Hf).
  unfold upload_attachment, login_required, require_POST.
  rewrite Hu, Hm. cbn [is_some].
  unfold upload_attachment_body, get_world. erewrite bind_eq by reflexivity.
  cbn [get_ticket_or_404]. rewrite Hf, Hu.
  assert (Hgo : is_client user && negb (user_eqb (created_by ticket) user)
                = false).
  { destruct Hperm as [-> | ->]; [reflexivity|]. apply andb_false_r. }
  rewrite Hgo.
  unfold attachment_prepare_save. cbn [file]. rewrite Hname.
  unfold attachment_post_save.
  cbn [a_ticket uploaded_by file_name file_size attachment_type].
  erewrite bind_eq.
  2:{ erewrite bind_eq by apply create_history_emit.
      rewrite forM_notify_emit, emit_emit. cbn [app]. reflexivity. }
  eexists _, _. unfold ret. rewrite Hpk.
  split; [reflexivity|].
  split; [reflexivity|]. split; [reflexivity|]. split; [reflexivity|].
  split; [reflexivity|]. split; [reflexivity|].
  split.
  - rewrite map_map. cbn [recipient]. rewrite map_id.
    destruct (user_eqb (created_by ticket) user);
      destruct (assigned_to ticket) as [a|];
      try destruct (user_eqb a user); reflexivity.
  - apply Forall_forall. intros n Hn. apply in_map_iff in Hn.
    destruct Hn as (u & <- & _). split; reflexivity.
Qed.

(** The agent uploads a root cause analysis to the client's ticket,
    assigned to the agent: the file is logged under its name and the
    client is notified. *)
Lemma upload_attachment_view_witness :
  exists h n,
    upload_attachment demo_size_mb 1%N (Some (demo_file, att_rca, "internal"))
                      {| req_user := Some demo_agent; req_method := POST |}
                      demo_store_assigned
    = Some (redirect_ticket_detail (Some 1%positive) true
                                   "File uploaded successfully!",
            emit [h] [n] demo_store_assigned) /\
    h_description h = "File attached: rca.pdf (rca)" /\
    recipient n = demo_client /\
    message n = "New root cause analysis attached: rca.pdf".
Proof.
  destruct (@upload_attachment_view
              demo_size_mb 1%positive demo_agent
              {| req_user := Some demo_agent; req_method := POST |}
              (set_assigned_to (Some demo_agent) demo_stored)
              demo_store_assigned demo_file att_rca "internal"
              eq_refl eq_refl eq_refl (or_introl eq_refl) eq_refl)
    as (h & ns & E & _ & _ & _ & Hd & _ & Hr & _).
  destruct ns as [|n [|n' ns]]; try discriminate Hr.
  injection Hr as Hr.
  exists h, n. split; [exact E|]. split; [exact Hd|]. split; [exact Hr|].
  pose proof (f_equal (fun o => match o with
                                | Some (_, w1) => map message (notifications w1)
                                | None => []
                                end) E) as Hmsg.
  vm_compute in Hmsg. injection Hmsg as Hmsg. symmetry. exact Hmsg.
Defined.

(** ** Views: creating a ticket *)

Lemma step_up_rank p : rank p <= rank (step_up p).
Proof. destruct p; cbn; lia. Qed.

Lemma auto_prioritize_rank t :
  1 <= rank (priority t) -> 1 <= rank (priority (auto_prioritize t)).
Proof.
  unfold auto_prioritize.
  destruct (any_in critical_keywords (ticket_text t)); [cbn; lia|].
  destruct (any_in high_keywords (ticket_text t)); [cbn; lia | auto].
Qed.

Lemma fold_rules_rank text l t w t' w' :
  foldM (apply_rule text) l t w = Some (t', w') ->
  1 <= rank (priority t) -> 1 <= rank (priority t').
Proof.
  revert t w. induction l as [|r l IH]; intros t w H Hr.
  - cbn in H. now injection H as <- <-.
  - cbn [foldM] in H. apply bind_Some in H.
    destruct H as (t1 & w1 & H1 & Hl).
    apply (IH _ _ Hl). clear IH Hl.
    unfold apply_rule in H1.
    destruct (any_in (get_keyword_list r) text);
      [|now injection H1 as <- <-].
    destruct (action r).
    + destruct (is_escalated t) eqn:Ei.
      * rewrite escalate_escalated in H1 by exact Ei.
        now injection H1 as <- <-.
      * rewrite escalate_fresh in H1 by exact Ei. injection H1 as <- <-.
        rewrite priority_bump. cbn [priority set_escalation].
        pose proof (step_up_rank (priority t)). lia.
    + now injection H1 as <- <-.
    + injection H1 as <- <-. cbn. lia.
    + injection H1 as <- <-. cbn. lia.
Qed.

Lemma prepare_save_rank self w s1 w1 :
  pk self = None -> prepare_save self w = Some (s1, w1) ->
  1 <= rank (priority self) -> 1 <= rank (priority s1).
Proof.
  intros Hpk Hp Hr.
  destruct (@prepare_save_new _ _ _ _ Hpk Hp)
    as (a & wa & b & wb & Ha & Hb & Hs).
  destruct (@assign_number_frame _ _ _ _ Ha) as (_ & (Epr & _) & _).
  unfold check_trigger_rules, get_world in Hb.
  erewrite bind_eq in Hb by reflexivity.
  apply fold_rules_rank in Hb; [|apply auto_prioritize_rank; congruence].
  destruct (stamp_times_frame b wb) as (s & k & Es & _ & (Eps & _) & _).
  rewrite Es in Hs. injection Hs as <- _. congruence.
Qed.

(** X20.  [views.create_ticket], called by a logged-in user.  Anything
    but a POST with a valid form shows the form again and changes
    nothing.  A ticket created through the view is appended to the
    store as open, created by the caller, with the subject, description,
    category and severity of the form and a generated number; its
    priority is never low, since the instance starts as medium and
    neither the keyword scan nor a trigger rule takes a priority below
    that; and it is assigned to a user with the agent role exactly when
    the store has one. *)
Theorem create_ticket_view
    (user : CustomUser) (request : Request) (w : World)
    (form : option (string * string * positive * Priority)) :
  req_user request = Some user ->
  (req_method request <> POST \/ form = None ->
   create_ticket form request w
   = Some (render_page "helpdesk/create_ticket.html", w)) /\
  (forall subject_ description_ category_ severity_ resp w',
     req_method request = POST ->
     form = Some (subject_, description_, category_, severity_) ->
     create_ticket form request w = Some (resp, w') ->
     exists ticket,
       resp = redirect_ticket_detail
                (pk ticket) true
                ("Ticket " ++ ticket_number ticket
                 ++ " created successfully!") /\
       tickets w' = tickets w ++ [ticket] /\
       pk ticket = Some (fresh_pk (tickets w)) /\
       PyStr.truthy (ticket_number ticket) = true /\
       created_by ticket = user /\ status ticket = open /\
       subject ticket = subject_ /\ description ticket = description_ /\
       category ticket = Some category_ /\ severity ticket = severity_ /\
       1 <= rank (priority ticket) /\
       (filter is_agent (users w) = [] -> assigned_to ticket = None) /\
       (filter is_agent (users w) <> [] ->
        exists a, assigned_to ticket = Some a /\ In a (users w) /\
                  role a = agent)).
Proof.
  intros Hu. unfold create_ticket, login_required. rewrite Hu. cbn [is_some].
  unfold create_ticket_body. split.
  - intros [Hm| ->].
    + destruct (req_method request); try reflexivity. now contradiction Hm.
    + destruct (req_method request); reflexivity.
  - intros subject_ description_ category_ severity_ resp w' Hm -> H.
    rewrite Hm, Hu in H. apply bind_Some in H.
    destruct H as (t & w1 & E & Hret). injection Hret as <- <-.
    exists t. split; [reflexivity|].
    set (self := new_ticket subject_ description_ category_ severity_ user) in *.
    destruct (Ticket_save_shape _ _ _ E)
      as (s1 & k & key & hs & ns & Hp & Hk & _ & _ & _
          & [(Hpk & _)
            |(_ & _ & Hkey & Ht & Es & tn & hs' & ns' & _ & _ & _ & _ & Has)]);
      [discriminate Hpk|].
    destruct Hkey as [[_ ->]|[Hpk _]]; [|discriminate Hpk].
    destruct (@prepare_save_frame _ _ _ _ Hp) as (Cs & Hnum & _).
    destruct Cs as (_ & Esu & Ede & Eca & Ese & Est & Ecr & Eas).
    pose proof (@prepare_save_rank self w s1 _ eq_refl Hp) as Hrank.
    cbn in Esu, Ede, Eca, Ese, Est, Ecr, Eas, Hrank.
    specialize (Hrank (le_n 1)).
    split; [exact Ht|]. split; [exact Hk|].
    assert (Hfields :
              ticket_number t = ticket_number s1 /\
              created_by t = created_by s1 /\ status t = status s1 /\
              subject t = subject s1 /\ description t = description s1 /\
              category t = category s1 /\ severity t = severity s1 /\
              priority t = priority s1)
      by (destruct Es as [->|(best & ->)]; cbn; tauto).
    destruct Hfields as (-> & -> & -> & -> & -> & -> & -> & ->).
    split; [exact Hnum|].
    split; [auto|]. split; [auto|]. split; [auto|]. split; [auto|].
    split; [auto|]. split; [auto|]. split; [exact Hrank|].
    destruct Has as [(_ & _ & _ & ->)
                    |(best & h & n & pre & post & _ & _ & -> & _ & _ & _ & _
                      & _ & _ & _ & Eg & _)].
    + split; [intros _; cbn; auto|].
      intros Hne. exfalso.
      destruct (Ticket_save_shape _ _ _ E)
        as (s1' & k' & key' & hs0 & ns0 & Hp' & _ & _ & _ & _
            & [(Hpk & _)
              |(_ & _ & _ & _ & _ & tn' & hs'' & ns'' & _ & _ & _ & _
                & [([Hs|[Hs|Hs]] & _)
                  |(best & h & n & pre & post & _ & _ & Eb & _)])]).
      * discriminate Hpk.
      * discriminate Hs.
      * discriminate Hs.
      * contradiction.
      * rewrite Hp in Hp'. injection Hp' as <- _.
        apply (f_equal assigned_to) in Eb. cbn in Eb.
        rewrite <- Eas in Eb. discriminate Eb.
    + split.
      * intros Hnil. rewrite Hnil in Eg. now destruct pre.
      * intros _. exists best. split; [reflexivity|].
        assert (Hin : In best (filter is_agent (users w)))
          by (rewrite Eg; apply in_or_app; right; now left).
        apply filter_In in Hin. destruct Hin as [Hin Hr].
        split; [exact Hin|]. unfold is_agent in Hr.
        now apply role_eqb_eq.
Qed.

(** The client reports an outage through the form: the ticket is stored
    as critical and assigned to the agent. *)
Lemma create_ticket_view_witness :
  exists ticket w',
    create_ticket (Some ("Mail outage", "Nothing goes through", 1%positive, low))
                  {| req_user := Some demo_client; req_method := POST |}
                  demo_world
    = Some (redirect_ticket_detail
              (pk ticket) true
              ("Ticket " ++ ticket_number ticket ++ " created successfully!"),
            w') /\
    tickets w' = [ticket] /\ created_by ticket = demo_client /\
    severity ticket = low /\ 1 <= rank (priority ticket) /\
    assigned_to ticket = Some demo_agent.
Proof.
  destruct (create_ticket
              (Some ("Mail outage", "Nothing goes through", 1%positive, low))
              {| req_user := Some demo_client; req_method := POST |}
              demo_world) as [[resp w1]|] eqn:E;
    [|vm_compute in E; discriminate].
  destruct (@create_ticket_view
              demo_client {| req_user := Some demo_client; req_method := POST |}
              demo_world
              (Some ("Mail outage", "Nothing goes through", 1%positive, low))
              eq_refl) as (_ & H).
  destruct (H _ _ _ _ resp w1 eq_refl eq_refl E)
    as (t & -> & Ht & _ & _ & Hc & _ & _ & _ & _ & Hs & Hr & _ & Ha).
  exists t, w1. split; [reflexivity|]. split; [exact Ht|].
  split; [exact Hc|]. split; [exact Hs|]. split; [exact Hr|].
  destruct Ha as (a & Ha & Hin & Hrole); [discriminate|].
  rewrite Ha. f_equal.
  destruct Hin as [<-|[<-|[<-|[]]]]; try discriminate Hrole. reflexivity.
Defined.

(** ** Views: updating a ticket *)

(** X21.  [views.update_ticket], called with POST by an agent or an
    administrator on a stored ticket that has its number.  With a valid
    form the ticket is stored with the status, priority, severity,
    assignee and category of the form; the history gains the records of
    the change log, none of them tagged [escalated] or [updated],
    followed by exactly one [updated] record whose actor is the caller,
    which is written even when the form changes nothing; a ticket set
    to resolved for the first time is stamped with the time of the
    call.  With an invalid form the answer is the error message and
    nothing is written. *)
Theorem update_ticket_view
    (tid : positive) (user : CustomUser) (request : Request)
    (ticket : Ticket) (w : World)
    (status_ : Status) (priority_ severity_ : Priority)
    (assigned_to_ : option CustomUser) (category_ : positive) :
  req_user request = Some user -> req_method request = POST ->
  is_agent_or_admin (Some user) = true ->
  find_ticket tid (tickets w) = Some ticket ->
  PyStr.truthy (ticket_number ticket) = true ->
  update_ticket (Npos tid) None request w
  = Some (redirect_ticket_detail (Some tid) false "Error updating ticket.", w) /\
  exists ticket' w' hs ns h,
    update_ticket (Npos tid)
                  (Some (status_, priority_, severity_, assigned_to_,
                         category_)) request w
    = Some (redirect_ticket_detail (Some tid) true
                                   "Ticket updated successfully!", w') /\
    find_ticket tid (tickets w') = Some ticket' /\
    status ticket' = status_ /\ priority ticket' = priority_ /\
    severity ticket' = severity_ /\ assigned_to ticket' = assigned_to_ /\
    category ticket' = Some category_ /\
    subject ticket' = subject ticket /\
    created_by ticket' = created_by ticket /\
    is_escalated ticket' = is_escalated ticket /\
    history w' = history w ++ hs ++ [h] /\
    notifications w' = notifications w ++ ns /\
    action_type h = h_updated /\ actor h = Some user /\
    h_ticket h = Some tid /\
    Forall (fun h' => is_action h_updated h' = false /\
                      is_action h_escalated h' = false /\
                      h_ticket h' = Some tid) hs /\
    (status_ = status ticket ->
     assigned_to_ = None \/
     opt_user_eqb assigned_to_ (assigned_to ticket) = true ->
     priority_ = priority ticket ->
     hs = [] /\ ns = []) /\
    (status_ = resolved -> resolved_at ticket = None ->
     resolved_at ticket' = Some (clock w (reads w))).
Proof.
  intros Hu Hm Hs Hf Hnum.
  assert (Hpk : pk ticket = Some tid) by exact (find_ticket_pk _ _ Hf).
  unfold update_ticket. rewrite !(@staff_request request user _ w Hu Hm Hs).
  unfold update_ticket_body, get_world.
  split.
  { erewrite bind_eq by reflexivity.
    cbn [get_ticket_or_404]. rewrite Hf, Hu. unfold ret. now rewrite Hpk. }
  erewrite bind_eq by reflexivity.
  cbn [get_ticket_or_404]. rewrite Hf, Hu.
  set (self := apply_update_form status_ priority_ severity_ assigned_to_
                                 category_ ticket).
  destruct (@Ticket_save_update_detail false self ticket w tid Hpk Hf Hnum)
    as (s1 & k & hs1 & ns1 & hs2 & ns2 & hs3 & hs4 & ns4 & Est & E & Cs & Us
        & Nn & L1 & L2 & L3 & L4 & D3 & D4).
  destruct (@update_log_refs self ticket _ hs1 ns1 hs2 ns2 hs3 hs4 ns4
              L1 L2 L3 L4 D3 D4) as [Rh _].
  destruct L4 as (_ & _ & L4). destruct (L4 eq_refl) as [-> ->].
  rewrite !app_nil_r in *.
  erewrite bind_eq by exact E.
  erewrite bind_eq by apply create_history_emit.
  rewrite emit_emit.
  destruct Cs as (Epk & Esu & _ & Eca & Ese & Esta & Ecr & Eas).
  destruct Us as (Epr & Eesc & _ & _).
  cbn in Epk, Esu, Eca, Ese, Esta, Ecr, Eas, Epr, Eesc.
  exists s1. eexists. exists (hs1 ++ hs2 ++ hs3), (ns1 ++ ns2). eexists.
  split; [unfold ret; rewrite Hpk; reflexivity|].
  cbn [tickets history notifications emit set_tickets].
  destruct (ticks_fields k w) as (_ & _ & _ & _ & _ & Hh & Hn).
  rewrite Hh, Hn.
  split; [apply find_write_row;
          [exact (find_ticket_exists _ _ Hf) | congruence]|].
  split; [auto|]. split; [auto|]. split; [auto|]. split; [auto|].
  split; [auto|]. split; [auto|]. split; [auto|]. split; [auto|].
  split; [reflexivity|].
  split; [now rewrite app_nil_r|].
  split; [reflexivity|]. split; [reflexivity|].
  split; [cbn [h_ticket]; congruence|].
  destruct L1 as (T1 & _ & _ & L1e). destruct L2 as (T2 & _ & _ & L2e).
  destruct L3 as (T3 & L3e).
  split.
  - apply Forall_forall. intros h' Hin.
    rewrite Forall_forall in Rh. specialize (Rh h' Hin).
    cbn [pk self apply_update_form] in Rh.
    split; [|split; [|congruence]].
    + apply in_app_or in Hin. destruct Hin as [Hin|Hin].
      * rewrite Forall_forall in T1. unfold is_action. now rewrite (T1 _ Hin).
      * apply in_app_or in Hin. destruct Hin as [Hin|Hin].
        -- rewrite Forall_forall in T2. unfold is_action.
           destruct (T2 _ Hin) as [-> | ->]; reflexivity.
        -- rewrite Forall_forall in T3. unfold is_action. now rewrite (T3 _ Hin).
    + apply in_app_or in Hin. destruct Hin as [Hin|Hin].
      * rewrite Forall_forall in T1. unfold is_action. now rewrite (T1 _ Hin).
      * apply in_app_or in Hin. destruct Hin as [Hin|Hin].
        -- rewrite Forall_forall in T2. unfold is_action.
           destruct (T2 _ Hin) as [-> | ->]; reflexivity.
        -- rewrite Forall_forall in T3. unfold is_action. now rewrite (T3 _ Hin).
  - split.
    + intros Hst Has Hpr.
      destruct (L1e Hst) as [-> ->]. destruct (L2e Has) as [-> ->].
      rewrite (L3e Hpr). auto.
    + intros Hst Hra.
      destruct (stamp_times_spec _ _ Est) as [Hr _].
      cbn [status resolved_at self apply_update_form] in Hr.
      now rewrite Hst, Hra in Hr.
Qed.

(** The administrator sets the stored ticket to resolved: a status
    record is followed by the [updated] record naming the administrator,
    and the ticket is stamped with the time of the call. *)
Lemma update_ticket_view_witness :
  exists ticket' w' hs ns h,
    update_ticket 1%N (Some (resolved, medium, medium, None, 1%positive))
                  {| req_user := Some demo_admin; req_method := POST |}
                  demo_store
    = Some (redirect_ticket_detail (Some 1%positive) true
                                   "Ticket updated successfully!", w') /\
    find_ticket 1 (tickets w') = Some ticket' /\
    status ticket' = resolved /\
    resolved_at ticket' = Some {| year := 2024; instant := 5 |} /\
    history w' = hs ++ [h] /\
    action_type h = h_updated /\ actor h = Some demo_admin /\
    notifications w' = ns.
Proof.
  destruct (@update_ticket_view
              1%positive demo_admin
              {| req_user := Some demo_admin; req_method := POST |}
              demo_stored demo_store resolved medium medium None 1%positive
              eq_refl eq_refl eq_refl eq_refl eq_refl)
    as (_ & t' & w' & hs & ns & h & E & Hf & Hst & _ & _ & _ & _ & _ & _ & _
        & Hh & Hn & Ht & Ha & _ & _ & _ & Hr).
  exists t', w', hs, ns, h.
  split; [exact E|]. split; [exact Hf|]. split; [exact Hst|].
  split; [exact (Hr eq_refl eq_refl)|]. auto.
Defined.

(** ** The excerpt of a comment kept in the history *)

Lemma substring_0_length n s :
  String.length (substring 0 n s) = Nat.min n (String.length s).
Proof.
  revert s. induction n as [|n IH]; intros s.
  - destruct s; reflexivity.
  - destruct s as [|c r]; [reflexivity|].
    cbn [substring String.length]. now rewrite IH.
Qed.

Lemma substring_0_prefix n s :
  exists rest, s = (substring 0 n s ++ rest)%string.
Proof.
  revert s. induction n as [|n IH]; intros s.
  - exists s. destruct s; reflexivity.
  - destruct s as [|c r]; [now exists EmptyString|].
    destruct (IH r) as (rest & E). exists rest.
    cbn [substring append]. now rewrite <- E.
Qed.

Lemma append_length a b :
  String.length (a ++ b)%string = String.length a + String.length b.
Proof.
  induction a as [|c a IH]; [reflexivity|].
  cbn [append String.length]. now rewrite IH.
Qed.

(** X22.  The [comment_added] record keeps the comment text whole when
    it has at most 100 characters, and otherwise its first 100
    characters followed by three dots: the text kept never exceeds 103
    characters. *)
Theorem comment_excerpt_bounded (instance : TicketComment) (w : World) :
  exists h ns v,
    comment_post_save instance true w = Some (tt, emit [h] ns w) /\
    new_value h = Some v /\
    String.length v <= 103 /\
    (String.length (content instance) <= 100 -> v = content instance) /\
    (100 < String.length (content instance) ->
     String.length v = 103 /\
     exists head rest,
       content instance = (head ++ rest)%string /\
       String.length head = 100 /\ v = (head ++ "...")%string).
Proof.
  unfold comment_post_save.
  erewrite bind_eq by apply create_history_emit.
  rewrite forM_notify_emit, emit_emit. cbn [app].
  eexists _, _, _. split; [reflexivity|]. cbn [new_value].
  split; [reflexivity|].
  assert (Hl : String.length
                 (substring 0 100 (content instance) ++ "...")%string
               = Nat.min 100 (String.length (content instance)) + 3).
  { rewrite append_length, substring_0_length. reflexivity. }
  destruct (Nat.ltb_spec 100 (String.length (content instance))) as [Hlt|Hge].
  - split; [rewrite Hl; lia|]. split; [lia|]. intros _.
    split; [rewrite Hl; lia|].
    destruct (substring_0_prefix 100 (content instance)) as (rest & E).
    exists (substring 0 100 (content instance)), rest.
    split; [exact E|]. split; [rewrite substring_0_length; lia | reflexivity].
  - split; [lia|]. split; [reflexivity | lia].
Qed.
